(** * codeclip: the header extractor, the snippet search and the templates

    A shallow embedding of the Go packages [finder] (header extraction,
    parameter and return-type parsing, language detection, reading and
    formatting), [search] (snippet extraction, fuzzy matching and merging),
    [output] (the formatting merge pass, the formatting of files and the
    statistics) and [template] (the template parser), followed by the
    properties of the specification that concern them and by further
    properties of the code.

    The file has two parts.  The first holds the definitions: the library
    functions the program calls ([strings], [sort.Slice], [regexp],
    [bufio.Scanner], the file system) and then the program's own packages,
    every function under its Go name.  A package is one module; the
    functions of [search] and [output] that call into [finder] come after
    it, in the modules [searchFiles] and [outputFormat].  The second part
    holds the lemmas and the theorems: one theorem for each claim C1 to
    C10, then the properties X1 to X30.

    Conventions.
    - A Go [string] is a sequence of bytes: Rocq's [string] (a list of
      [ascii]).
    - A Go [int] is a 64-bit two's complement integer.  It is modelled as a
      [Z]; arithmetic on values that come from a caller (the line numbers
      stored in a snippet, the number of context lines) is written with its
      wrap-around ([wrap64]).  Counters that are bounded by the size of data
      held in memory or by the length of a file (indices into a slice, the
      current line number, a count of braces) cannot reach 2^63 and are
      modelled without wrap-around.
    - A Go slice is a [list].  An operation that panics in Go (an index or a
      slice expression out of range) returns [None].
    - A function that returns a value and an [error] returns a [result].
      The text of an error of the operating system is not modelled; where
      the program writes it out (the template parser), it is a parameter. *)

From Stdlib Require Import ZArith List Bool Ascii String Lia Permutation Sorted.
From Stdlib Require Import DecimalString SpecFloat.
Import ListNotations.

Local Open Scope string_scope.
Local Open Scope list_scope.
Local Open Scope Z_scope.

(* ================================================================= *)
(** ** Go integers *)

Definition maxInt : Z := 9223372036854775807.
Definition minInt : Z := -9223372036854775808.

Definition wrap64 (z : Z) : Z := (z + 2 ^ 63) mod 2 ^ 64 - 2 ^ 63.

Definition isInt (z : Z) : Prop := minInt <= z <= maxInt.

(** [strconv.Itoa]. *)
Definition Itoa (z : Z) : string := NilZero.string_of_int (Z.to_int z).

(** The package-level helpers [min] and [max] that both [search] and
    [output] declare. *)
Definition min (a b : Z) : Z := if a <? b then a else b.
Definition max (a b : Z) : Z := if a >? b then a else b.

(* ================================================================= *)
(** ** The Go package [strings] *)

Module strings.

Definition byte (n : nat) : ascii := ascii_of_nat n.

Definition newline : string := String (byte 10) "".

Definition len (s : string) : Z := Z.of_nat (String.length s).

Definition HasPrefix (s p : string) : bool := String.prefix p s.

Fixpoint rev_acc (s acc : string) : string :=
  match s with
  | EmptyString => acc
  | String c s' => rev_acc s' (String c acc)
  end.

Definition reverse (s : string) : string := rev_acc s "".

Definition HasSuffix (s p : string) : bool :=
  String.prefix (reverse p) (reverse s).

(** [strings.Contains]. *)
Fixpoint Contains (s sub : string) : bool :=
  String.prefix sub s ||
  match s with
  | EmptyString => false
  | String _ s' => Contains s' sub
  end.

(** [strings.Index]: the byte offset of the first occurrence, [-1] when
    there is none. *)
Fixpoint indexFrom (i : Z) (s sub : string) : Z :=
  if String.prefix sub s then i
  else match s with
       | EmptyString => -1
       | String _ s' => indexFrom (i + 1) s' sub
       end.

Definition Index (s sub : string) : Z := indexFrom 0 s sub.

(** [strings.Count] for a non-empty [sub]: the number of non-overlapping
    occurrences.  [skip] counts the bytes of an occurrence still to pass. *)
Fixpoint countFrom (skip : nat) (s sub : string) : Z :=
  match s with
  | EmptyString => 0
  | String _ s' =>
      match skip with
      | S k => countFrom k s' sub
      | O => if String.prefix sub s
             then 1 + countFrom (String.length sub - 1) s' sub
             else countFrom 0 s' sub
      end
  end.

Definition Count (s sub : string) : Z := countFrom 0 s sub.

(** [strings.Split] for a non-empty separator.  [splitFrom] returns the
    piece that is being read and the pieces after it. *)
Fixpoint splitFrom (sep : string) (skip : nat) (s : string)
  : string * list string :=
  match s with
  | EmptyString => ("", [])
  | String c s' =>
      match skip with
      | S k => splitFrom sep k s'
      | O =>
          if String.prefix sep s
          then let '(p, ps) := splitFrom sep (String.length sep - 1) s' in
               ("", p :: ps)
          else let '(p, ps) := splitFrom sep 0 s' in
               (String c p, ps)
      end
  end.

Definition Split (s sep : string) : list string :=
  let '(p, ps) := splitFrom sep 0 s in p :: ps.

(** [strings.SplitN(s, sep, 2)] for a non-empty separator: cut at the
    first occurrence only. *)
Fixpoint cutFirst (sep : string) (s : string) : string * option string :=
  if String.prefix sep s
  then ("", Some (String.substring (String.length sep)
                                   (String.length s - String.length sep) s))
  else match s with
       | EmptyString => ("", None)
       | String c s' => let '(p, r) := cutFirst sep s' in (String c p, r)
       end.

Definition SplitN2 (s sep : string) : list string :=
  match cutFirst sep s with
  | (p, Some r) => [p; r]
  | (p, None) => [p]
  end.

(** [strings.Join]. *)
Definition Join (elems : list string) (sep : string) : string :=
  String.concat sep elems.

(** A slice expression [s[lo:hi]] on a string, [None] when Go panics. *)
Definition slice (s : string) (lo hi : Z) : option string :=
  if (0 <=? lo) && (lo <=? hi) && (hi <=? len s)
  then Some (String.substring (Z.to_nat lo) (Z.to_nat (hi - lo)) s)
  else None.

(** *** White space

    [unicode.IsSpace] holds of the six ASCII characters below and of
    U+0085, U+00A0, U+1680, U+2000..U+200A, U+2028, U+2029, U+202F, U+205F
    and U+3000.  [spaceWidth s] is the number of bytes of the white space
    character that [s] starts with, 0 when it starts with none. *)

Definition code (c : ascii) : N := N_of_ascii c.

Definition isAsciiSpace (c : ascii) : bool :=
  let n := code c in
  ((9 <=? n) && (n <=? 13) || (n =? 32))%N.

(** The width of the multi-byte white space character with the leading
    bytes [c0 c1 c2], 0 when they encode none. *)
Definition wideSpaceWidth (c0 c1 c2 : N) : nat :=
  if ((c0 =? 194) && ((c1 =? 133) || (c1 =? 160)))%N then 2%nat
  else if ((c0 =? 225) && (c1 =? 154) && (c2 =? 128))%N then 3%nat
  else if ((c0 =? 226) && (c1 =? 128) &&
           ((128 <=? c2) && (c2 <=? 138) || (c2 =? 168) || (c2 =? 169) ||
            (c2 =? 175)))%N then 3%nat
  else if ((c0 =? 226) && (c1 =? 129) && (c2 =? 159))%N then 3%nat
  else if ((c0 =? 227) && (c1 =? 128) && (c2 =? 128))%N then 3%nat
  else 0%nat.

Definition spaceWidth (s : string) : nat :=
  match s with
  | EmptyString => 0%nat
  | String c0 r0 =>
      if isAsciiSpace c0 then 1%nat
      else
        match r0 with
        | String c1 (String c2 _) => wideSpaceWidth (code c0) (code c1) (code c2)
        | String c1 EmptyString => wideSpaceWidth (code c0) (code c1) 0%N
        | EmptyString => 0%nat
        end
  end.

(** The same test read from the end of a string: [spaceWidthRev r] looks at
    the reversed string [r]. *)
Definition spaceWidthRev (r : string) : nat :=
  match r with
  | EmptyString => 0%nat
  | String c0 r0 =>
      if isAsciiSpace c0 then 1%nat
      else
        match r0 with
        | String c1 r1 =>
            match wideSpaceWidth (code c1) (code c0) 0%N with
            | 2%nat => 2%nat
            | _ =>
                match r1 with
                | String c2 _ =>
                    match wideSpaceWidth (code c2) (code c1) (code c0) with
                    | 3%nat => 3%nat
                    | _ => 0%nat
                    end
                | EmptyString => 0%nat
                end
            end
        | EmptyString => 0%nat
        end
  end.

Fixpoint dropBytes (n : nat) (s : string) : string :=
  match n, s with
  | S k, String _ s' => dropBytes k s'
  | _, _ => s
  end.

(** Removes leading white space; [fuel] bounds the number of characters
    removed and is the length of the string at the call. *)
Fixpoint trimLeftSpace (fuel : nat) (s : string) : string :=
  match fuel with
  | O => s
  | S f =>
      match spaceWidth s with
      | O => s
      | w => trimLeftSpace f (dropBytes w s)
      end
  end.

Fixpoint trimLeftSpaceRev (fuel : nat) (r : string) : string :=
  match fuel with
  | O => r
  | S f =>
      match spaceWidthRev r with
      | O => r
      | w => trimLeftSpaceRev f (dropBytes w r)
      end
  end.

(** [strings.TrimSpace]. *)
Definition TrimSpace (s : string) : string :=
  let l := trimLeftSpace (String.length s) s in
  reverse (trimLeftSpaceRev (String.length l) (reverse l)).

(** [strings.Fields]: the maximal runs of non-space characters. *)
Fixpoint fieldsFrom (skip : nat) (cur : string) (s : string) : list string :=
  match s with
  | EmptyString =>
      match cur with
      | EmptyString => []
      | _ => [reverse cur]
      end
  | String c s' =>
      match skip with
      | S k => fieldsFrom k cur s'
      | O =>
          match spaceWidth s with
          | O => fieldsFrom 0 (String c cur) s'
          | S w =>
              match cur with
              | EmptyString => fieldsFrom w "" s'
              | _ => reverse cur :: fieldsFrom w "" s'
              end
          end
      end
  end.

Definition Fields (s : string) : list string := fieldsFrom 0 "" s.

(** Membership of a byte in an ASCII cutset. *)
Fixpoint inCutset (c : ascii) (cutset : string) : bool :=
  match cutset with
  | EmptyString => false
  | String d r => Ascii.eqb c d || inCutset c r
  end.

(** [strings.TrimLeft] for an ASCII cutset. *)
Fixpoint TrimLeft (s cutset : string) : string :=
  match s with
  | EmptyString => ""
  | String c s' => if inCutset c cutset then TrimLeft s' cutset else s
  end.

(** [strings.Trim] for an ASCII cutset. *)
Definition Trim (s cutset : string) : string :=
  reverse (TrimLeft (reverse (TrimLeft s cutset)) cutset).

(** [utf8.DecodeRuneInString]: the number of bytes of the first character
    of a non-empty string.  A byte that starts no valid encoding is a
    character of width 1. *)
Definition isContinuation (c : ascii) : bool :=
  ((128 <=? code c) && (code c <=? 191))%N.

Definition runeWidth (s : string) : nat :=
  match s with
  | EmptyString => 0%nat
  | String c0 r0 =>
      let n0 := code c0 in
      let '(size, lo, hi) :=
        (if n0 <? 194 then (1%nat, 0, 0)
         else if n0 <=? 223 then (2%nat, 128, 191)
         else if n0 =? 224 then (3%nat, 160, 191)
         else if n0 =? 237 then (3%nat, 128, 159)
         else if n0 <=? 239 then (3%nat, 128, 191)
         else if n0 =? 240 then (4%nat, 144, 191)
         else if n0 <=? 243 then (4%nat, 128, 191)
         else if n0 =? 244 then (4%nat, 128, 143)
         else (1%nat, 0, 0))%N in
      match size, r0 with
      | 1%nat, _ => 1%nat
      | _, String c1 r1 =>
          if ((lo <=? code c1) && (code c1 <=? hi))%N then
            match size, r1 with
            | 2%nat, _ => 2%nat
            | _, String c2 r2 =>
                if isContinuation c2 then
                  match size, r2 with
                  | 3%nat, _ => 3%nat
                  | _, String c3 _ => if isContinuation c3 then 4%nat else 1%nat
                  | _, EmptyString => 1%nat
                  end
                else 1%nat
            | _, EmptyString => 1%nat
            end
          else 1%nat
      | _, EmptyString => 1%nat
      end
  end.

(** [strings.Split(s, "")]: the characters of [s], each as a string. *)
Fixpoint explodeFrom (skip : nat) (s : string) : list string :=
  match s with
  | EmptyString => []
  | String _ s' =>
      match skip with
      | S k => explodeFrom k s'
      | O =>
          let w := runeWidth s in
          String.substring 0 w s :: explodeFrom (w - 1) s'
      end
  end.

Definition explode (s : string) : list string := explodeFrom 0 s.

Fixpoint allBytes (f : ascii -> bool) (s : string) : bool :=
  match s with
  | EmptyString => true
  | String c s' => f c && allBytes f s'
  end.


(** [strings.Replace(s, old, new, 1)] for a non-empty [old]: the first
    occurrence of [old] replaced by [new]. *)
Fixpoint replaceFirst (s old new : string) : string :=
  if String.prefix old s
  then (new ++ String.substring (String.length old)
                                (String.length s - String.length old) s)%string
  else match s with
       | EmptyString => ""
       | String c s' => String c (replaceFirst s' old new)
       end.

(** [strings.Replace(s, old, new, 1)]. *)
Definition Replace1 (s old new : string) : string :=
  if String.eqb old new then s
  else match old with
       | EmptyString => (new ++ s)%string
       | String _ _ => replaceFirst s old new
       end.

End strings.

(* ================================================================= *)
(** ** [sort.Slice]

    On a slice of at most 12 elements [sort.Slice] runs an insertion sort:
    each element in turn is swapped towards the front for as long as it is
    less than its left neighbour.  [insertBack x before] is that inner loop,
    [before] being the already sorted prefix read from its last element.
    Longer slices go through a pattern-defeating quicksort, which returns a
    sorted permutation, leaves a sorted slice as it is, and leaves the
    order of other elements with equal keys open.  The model runs the
    insertion sort at every length; the theorems below use of it only that
    it returns a sorted permutation and leaves a sorted slice as it is. *)

Section SortSlice.
Context {A : Type} (less : A -> A -> bool).

Fixpoint insertBack (x : A) (before : list A) : list A :=
  match before with
  | [] => [x]
  | y :: before' =>
      if less x y then y :: insertBack x before' else x :: before
  end.

Definition sortSlice (data : list A) : list A :=
  rev (fold_left (fun before x => insertBack x before) data []).
End SortSlice.

(** The last [n] elements of a slice: [s[len(s)-n:]], for [0 <= n <= len(s)]. *)
Definition lastElems {A : Type} (n : Z) (s : list A) : list A :=
  skipn (Z.to_nat (Z.of_nat (List.length s) - n)) s.

(** A slice expression [s[lo:hi]], [None] when Go panics. *)
Definition sliceOf {A : Type} (s : list A) (lo hi : Z) : option (list A) :=
  if (0 <=? lo) && (lo <=? hi) && (hi <=? Z.of_nat (List.length s))
  then Some (firstn (Z.to_nat (hi - lo)) (skipn (Z.to_nat lo) s))
  else None.

(** An index expression [s[i]], [None] when Go panics. *)
Definition indexOf {A : Type} (s : list A) (i : Z) : option A :=
  if i <? 0 then None else nth_error s (Z.to_nat i).

(* ================================================================= *)
(** ** The Go package [regexp]

    The model works on bytes.  It covers the part of the RE2 syntax that
    the program's expressions are written in: literals, [.], character
    classes, the escapes for classes, word boundaries and punctuation,
    the anchors, grouping (capturing and [(?:...)]), alternation, the
    repetitions [*], [+], [?] with their non-greedy forms, and the flag
    group [(?i)].  [Compile] returns [None] on an expression that Go
    rejects and on syntax outside this part (counted repetition, named
    groups, other flags, Unicode classes).  Matching is the leftmost-first
    backtracking search that the package documents.  The dot takes one
    character, read as [utf8.DecodeRuneInString] reads it; a literal and a
    class take one byte, so a negated class takes a character outside
    ASCII byte by byte, and the search tries every byte offset.  Under
    [(?i)] a literal and a class that is not negated fold the ASCII letters
    as Go does, the Kelvin sign and the long s included; the case of
    letters outside ASCII is not folded. *)

Module regexp.

(** A set of bytes: the codes in [cs_ranges] (complemented when [cs_neg]),
    each taken with its other letter case when [cs_fold]. *)
Record charset : Type := mkCharset {
  cs_neg : bool;
  cs_ranges : list (N * N);
  cs_fold : bool
}.

Definition inRanges (n : N) (ranges : list (N * N)) : bool :=
  existsb (fun r => (fst r <=? n)%N && (n <=? snd r)%N) ranges.

Definition swapCase (n : N) : N :=
  if ((65 <=? n) && (n <=? 90))%N then (n + 32)%N
  else if ((97 <=? n) && (n <=? 122))%N then (n - 32)%N
  else n.

Definition inCharset (cs : charset) (c : ascii) : bool :=
  let n := N_of_ascii c in
  xorb (cs_neg cs)
       (inRanges n (cs_ranges cs) ||
        (cs_fold cs && inRanges (swapCase n) (cs_ranges cs))).

(** The syntax tree, with the operator names of [regexp/syntax]. *)
Inductive Regexp : Type :=
| EmptyMatch
| NoMatch
| CharClass (cs : charset)
| AnyCharNotNL
| BeginText
| EndText
| WordBoundary
| NoWordBoundary
| Concat (a b : Regexp)
| Alternate (a b : Regexp)
| Star (greedy : bool) (a : Regexp)
| Plus (greedy : bool) (a : Regexp)
| Quest (greedy : bool) (a : Regexp)
| Capture (index : nat) (a : Regexp).

(** The UTF-8 encoding of the character outside ASCII that the case
    folding of Unicode ([unicode.SimpleFold]) joins to an ASCII letter:
    the Kelvin sign [U+212A] for [k] and [K], the long s [U+017F] for [s]
    and [S].  No other ASCII letter has one. *)
Definition foldedBytes (n : N) : option (list N) :=
  if ((n =? 75) || (n =? 107))%N then Some [226; 132; 170]%N
  else if ((n =? 83) || (n =? 115))%N then Some [197; 191]%N
  else None.

Definition byteLiteral (n : N) : Regexp :=
  CharClass {| cs_neg := false; cs_ranges := [(n, n)]; cs_fold := false |}.

(** The bytes of one character, one after the other. *)
Fixpoint bytesLiteral (bytes : list N) : Regexp :=
  match bytes with
  | [] => EmptyMatch
  | [b] => byteLiteral b
  | b :: rest => Concat (byteLiteral b) (bytesLiteral rest)
  end.

(** A literal byte.  Under [(?i)] a letter stands for both its cases and
    for the character outside ASCII that folds to it. *)
Definition literal (fold : bool) (n : N) : Regexp :=
  if fold then
    match foldedBytes n with
    | Some bytes =>
        Alternate
          (CharClass {| cs_neg := false; cs_ranges := [(n, n)];
                        cs_fold := true |})
          (bytesLiteral bytes)
    | None =>
        CharClass {| cs_neg := false; cs_ranges := [(n, n)];
                     cs_fold := true |}
    end
  else CharClass {| cs_neg := false; cs_ranges := [(n, n)];
                    cs_fold := false |}.

(** The dot: any character but the line feed. *)
Definition anyCharNotNL : Regexp := AnyCharNotNL.

(** A class that is not negated holds, under [(?i)], also the characters
    outside ASCII that fold to one of its letters. *)
Definition withFolded (fold : bool) (ranges : list (N * N)) (class : Regexp)
  : Regexp :=
  if fold then
    let class :=
      if inRanges 75 ranges || inRanges 107 ranges
      then Alternate class (bytesLiteral [226; 132; 170]%N) else class in
    if inRanges 83 ranges || inRanges 115 ranges
    then Alternate class (bytesLiteral [197; 191]%N) else class
  else class.

Definition digitRanges : list (N * N) := [(48, 57)%N].
Definition spaceRanges : list (N * N) := [(9, 10)%N; (12, 13)%N; (32, 32)%N].
Definition wordRanges : list (N * N) :=
  [(48, 57)%N; (65, 90)%N; (95, 95)%N; (97, 122)%N].
Definition notDigitRanges : list (N * N) := [(0, 47)%N; (58, 255)%N].
Definition notSpaceRanges : list (N * N) :=
  [(0, 8)%N; (11, 11)%N; (14, 31)%N; (33, 255)%N].
Definition notWordRanges : list (N * N) :=
  [(0, 47)%N; (58, 64)%N; (91, 94)%N; (96, 96)%N; (123, 255)%N].

Definition classOf (ranges : list (N * N)) : Regexp :=
  CharClass {| cs_neg := false; cs_ranges := ranges; cs_fold := false |}.

(** *** Matching *)

(** A position in the text: the byte before it, the text after it and its
    offset. *)
Record cursor : Type := mkCursor {
  before : option ascii;
  after : string;
  offset : nat
}.

(** The bounds of the groups found so far; group 0 is the whole match. *)
Definition captures : Type := list (option (nat * nat)).

Fixpoint setCapture (i : nat) (span : nat * nat) (caps : captures) : captures :=
  match caps, i with
  | [], _ => []
  | _ :: rest, O => Some span :: rest
  | c :: rest, S j => c :: setCapture j span rest
  end.

Definition isWordByte (c : option ascii) : bool :=
  match c with
  | Some c => inRanges (N_of_ascii c) wordRanges
  | None => false
  end.

Definition atWordBoundary (p : cursor) : bool :=
  let next := match after p with
              | EmptyString => None
              | String c _ => Some c
              end in
  xorb (isWordByte (before p)) (isWordByte next).

(** The position [n] bytes further on: the byte before it and the text
    after it. *)
Fixpoint advance (n : nat) (prev : option ascii) (rest : string)
  : option ascii * string :=
  match n, rest with
  | S k, String c rest' => advance k (Some c) rest'
  | _, _ => (prev, rest)
  end.

(** The position after the first character of the text after [p]. *)
Definition afterChar (p : cursor) : cursor :=
  let width := strings.runeWidth (after p) in
  let '(prev, rest) := advance width (before p) (after p) in
  {| before := prev; after := rest; offset := offset p + width |}.

Definition cont : Type := cursor -> captures -> option captures.

(** The loop of a repetition of [step]: another round (which has to
    consume text) before or after trying the rest of the expression [k],
    as the repetition is greedy or not.  [fuel] exceeds the length of the
    remaining text. *)
Fixpoint repeatLoop (step : cursor -> captures -> cont -> option captures)
         (greedy : bool) (k : cont) (fuel : nat) (p : cursor) (caps : captures)
  : option captures :=
  match fuel with
  | O => k p caps
  | S fuel' =>
      if greedy then
        match step p caps
                   (fun p' caps' =>
                      if (offset p <? offset p')%nat
                      then repeatLoop step greedy k fuel' p' caps'
                      else None) with
        | Some found => Some found
        | None => k p caps
        end
      else
        match k p caps with
        | Some found => Some found
        | None =>
            step p caps
                 (fun p' caps' =>
                    if (offset p <? offset p')%nat
                    then repeatLoop step greedy k fuel' p' caps'
                    else None)
        end
  end.

(** [run r p caps k]: match [r] at [p], then the rest of the expression
    [k]; the first success in the order of a backtracking search. *)
Fixpoint run (r : Regexp) (p : cursor) (caps : captures) (k : cont)
  : option captures :=
  match r with
  | EmptyMatch => k p caps
  | NoMatch => None
  | CharClass cs =>
      match after p with
      | String c rest =>
          if inCharset cs c
          then k {| before := Some c; after := rest; offset := S (offset p) |}
                 caps
          else None
      | EmptyString => None
      end
  | AnyCharNotNL =>
      match after p with
      | String c _ =>
          if (N_of_ascii c =? 10)%N then None else k (afterChar p) caps
      | EmptyString => None
      end
  | BeginText => if (offset p =? 0)%nat then k p caps else None
  | EndText =>
      match after p with
      | EmptyString => k p caps
      | String _ _ => None
      end
  | WordBoundary => if atWordBoundary p then k p caps else None
  | NoWordBoundary => if atWordBoundary p then None else k p caps
  | Concat a b => run a p caps (fun p' caps' => run b p' caps' k)
  | Alternate a b =>
      match run a p caps k with
      | Some found => Some found
      | None => run b p caps k
      end
  | Star greedy a =>
      repeatLoop (run a) greedy k (S (String.length (after p))) p caps
  | Plus greedy a =>
      run a p caps
          (fun p' caps' =>
             repeatLoop (run a) greedy k (S (String.length (after p'))) p' caps')
  | Quest greedy a =>
      if greedy then
        match run a p caps k with
        | Some found => Some found
        | None => k p caps
        end
      else
        match k p caps with
        | Some found => Some found
        | None => run a p caps k
        end
  | Capture index a =>
      run a p caps
          (fun p' caps' =>
             k p' (setCapture index (offset p, offset p') caps'))
  end.

(** A compiled expression: its source text, its tree and the number of
    its groups. *)
Record compiled : Type := mkCompiled {
  expr : string;
  prog : Regexp;
  numCap : nat
}.

(** The leftmost match: the first start position from which [run]
    succeeds. *)
Fixpoint searchFrom (re : compiled) (prev : option ascii) (s : string)
         (off : nat) : option captures :=
  match run (prog re) {| before := prev; after := s; offset := off |}
            (repeat None (S (numCap re)))
            (fun p' caps' => Some (setCapture 0 (off, offset p') caps')) with
  | Some found => Some found
  | None =>
      match s with
      | EmptyString => None
      | String c s' => searchFrom re (Some c) s' (S off)
      end
  end.

Definition search (re : compiled) (s : string) : option captures :=
  searchFrom re None s 0.

(** The method [MatchString] of a compiled expression. *)
Definition MatchString (re : compiled) (s : string) : bool :=
  match search re s with
  | Some _ => true
  | None => false
  end.

(** The method [FindStringSubmatch]: the text of the match and of each
    group, the empty string for a group that took no part in the match;
    [nil] when there is no match. *)
Definition FindStringSubmatch (re : compiled) (s : string) : list string :=
  match search re s with
  | Some caps =>
      map (fun c =>
             match c with
             | Some (lo, hi) => String.substring lo (hi - lo) s
             | None => ""
             end) caps
  | None => []
  end.

(** *** Parsing

    The parser reads the expression byte by byte, as the parser of
    [regexp/syntax] does, with the flags of [regexp.Compile] (Perl
    syntax).  Its state holds the concatenation and the alternatives of
    the group that is being read and a stack of the groups around it. *)

(** What the last token was: no repetition, a repetition operator that a
    following [?] makes non-greedy, or a finished repetition.  A repetition
    operator directly after a repetition is an error. *)
Inductive repState : Type := RepNone | RepFresh | RepDone.

(** A group that is open around the current one: its own capture index,
    the case-folding flag to restore when it closes, and the alternatives
    and the concatenation read before it in the group around it (both with
    the last element first). *)
Record frame : Type := mkFrame {
  f_cap : option nat;
  f_fold : bool;
  f_alts : list Regexp;
  f_seq : list Regexp
}.

(** Where the parser stands inside a character class. *)
Inductive classPos : Type :=
| CStart                (* after the opening bracket *)
| CFirst                (* at the first item: a closing bracket is a literal *)
| CItem                 (* at the start of an item *)
| CBracket              (* after an opening bracket at the start of an item *)
| CAfterLo (lo : N)     (* after a character that may start a range *)
| CDash (lo : N)        (* after a character and a dash *)
| CEscLo                (* after a backslash at the start of an item *)
| CEscHi (lo : N).      (* after a character, a dash and a backslash *)

Inductive mode : Type :=
| MNormal
| MEscape               (* after a backslash *)
| MGroup                (* after an opening parenthesis *)
| MGroupQ               (* after an opening parenthesis and a question mark *)
| MGroupI               (* after the three bytes that open the flag i *)
| MBrace                (* after an opening brace *)
| MClass (neg : bool) (items : list (N * N)) (pos : classPos).

Record pstate : Type := mkPstate {
  ps_mode : mode;
  ps_fold : bool;
  ps_ncap : nat;
  ps_rep : repState;
  ps_alts : list Regexp;
  ps_seq : list Regexp;
  ps_stack : list frame
}.

Definition initial : pstate :=
  {| ps_mode := MNormal; ps_fold := false; ps_ncap := 0; ps_rep := RepNone;
     ps_alts := []; ps_seq := []; ps_stack := [] |}.

Fixpoint mkConcat (parts : list Regexp) : Regexp :=
  match parts with
  | [] => EmptyMatch
  | [a] => a
  | a :: rest => Concat a (mkConcat rest)
  end.

Fixpoint mkAlternate (parts : list Regexp) : Regexp :=
  match parts with
  | [] => NoMatch
  | [a] => a
  | a :: rest => Alternate a (mkAlternate rest)
  end.

(** The expression of a group whose alternatives before the last are
    [alts] and whose last alternative is the concatenation [seq]. *)
Definition groupBody (alts seq : list Regexp) : Regexp :=
  mkAlternate (rev (mkConcat (rev seq) :: alts)).

Definition pushAtom (st : pstate) (a : Regexp) : pstate :=
  {| ps_mode := MNormal; ps_fold := ps_fold st; ps_ncap := ps_ncap st;
     ps_rep := RepNone; ps_alts := ps_alts st; ps_seq := a :: ps_seq st;
     ps_stack := ps_stack st |}.

Definition setMode (st : pstate) (m : mode) : pstate :=
  {| ps_mode := m; ps_fold := ps_fold st; ps_ncap := ps_ncap st;
     ps_rep := ps_rep st; ps_alts := ps_alts st; ps_seq := ps_seq st;
     ps_stack := ps_stack st |}.

(** A repetition operator: it applies to the last element of the
    concatenation. *)
Definition repeatOp (st : pstate) (op : bool -> Regexp -> Regexp)
  : option pstate :=
  match ps_rep st, ps_seq st with
  | RepNone, a :: rest =>
      Some {| ps_mode := MNormal; ps_fold := ps_fold st;
              ps_ncap := ps_ncap st; ps_rep := RepFresh;
              ps_alts := ps_alts st; ps_seq := op true a :: rest;
              ps_stack := ps_stack st |}
  | _, _ => None
  end.

(** A question mark directly after a repetition operator. *)
Definition makeNonGreedy (st : pstate) : option pstate :=
  let flipped :=
    match ps_seq st with
    | Star _ a :: rest => Some (Star false a :: rest)
    | Plus _ a :: rest => Some (Plus false a :: rest)
    | Quest _ a :: rest => Some (Quest false a :: rest)
    | _ => None
    end in
  match flipped with
  | Some seq =>
      Some {| ps_mode := MNormal; ps_fold := ps_fold st;
              ps_ncap := ps_ncap st; ps_rep := RepDone;
              ps_alts := ps_alts st; ps_seq := seq;
              ps_stack := ps_stack st |}
  | None => None
  end.

Definition openGroup (st : pstate) (capturing : bool) (fold : bool) : pstate :=
  let ncap := if capturing then S (ps_ncap st) else ps_ncap st in
  {| ps_mode := MNormal; ps_fold := fold; ps_ncap := ncap;
     ps_rep := RepNone; ps_alts := []; ps_seq := [];
     ps_stack := {| f_cap := if capturing then Some ncap else None;
                    f_fold := ps_fold st;
                    f_alts := ps_alts st;
                    f_seq := ps_seq st |} :: ps_stack st |}.

Definition closeGroup (st : pstate) : option pstate :=
  match ps_stack st with
  | [] => None
  | fr :: stack =>
      let body := groupBody (ps_alts st) (ps_seq st) in
      let body := match f_cap fr with
                  | Some i => Capture i body
                  | None => body
                  end in
      Some {| ps_mode := MNormal; ps_fold := f_fold fr;
              ps_ncap := ps_ncap st; ps_rep := RepNone;
              ps_alts := f_alts fr; ps_seq := body :: f_seq fr;
              ps_stack := stack |}
  end.

Definition alternation (st : pstate) : pstate :=
  {| ps_mode := MNormal; ps_fold := ps_fold st; ps_ncap := ps_ncap st;
     ps_rep := RepNone;
     ps_alts := mkConcat (rev (ps_seq st)) :: ps_alts st; ps_seq := [];
     ps_stack := ps_stack st |}.

Definition isAlnum (n : N) : bool :=
  ((48 <=? n) && (n <=? 57) || (65 <=? n) && (n <=? 90) ||
   (97 <=? n) && (n <=? 122))%N.

(** The byte that an escape of a single character stands for: a
    punctuation character stands for itself. *)
Definition escapedByte (n : N) : option N :=
  if ((n <? 128) && negb (isAlnum n))%N then Some n
  else if (n =? 97)%N then Some 7%N
  else if (n =? 102)%N then Some 12%N
  else if (n =? 110)%N then Some 10%N
  else if (n =? 114)%N then Some 13%N
  else if (n =? 116)%N then Some 9%N
  else if (n =? 118)%N then Some 11%N
  else None.

(** The class that a Perl class escape stands for. *)
Definition perlClass (n : N) : option (list (N * N)) :=
  if (n =? 100)%N then Some digitRanges
  else if (n =? 68)%N then Some notDigitRanges
  else if (n =? 115)%N then Some spaceRanges
  else if (n =? 83)%N then Some notSpaceRanges
  else if (n =? 119)%N then Some wordRanges
  else if (n =? 87)%N then Some notWordRanges
  else None.

(** A byte read outside a class, a group opening, an escape and a brace. *)
Definition stepNormal (st : pstate) (n : N) : option pstate :=
  if (n =? 42)%N then                       (* star *)
    repeatOp st Star
  else if (n =? 43)%N then                  (* plus *)
    repeatOp st Plus
  else if (n =? 63)%N then                  (* question mark *)
    match ps_rep st with
    | RepFresh => makeNonGreedy st
    | _ => repeatOp st Quest
    end
  else if (n =? 124)%N then Some (alternation st)
  else if (n =? 40)%N then Some (setMode st MGroup)
  else if (n =? 41)%N then closeGroup st
  else if (n =? 91)%N then Some (setMode st (MClass false [] CStart))
  else if (n =? 46)%N then Some (pushAtom st anyCharNotNL)
  else if (n =? 94)%N then Some (pushAtom st BeginText)
  else if (n =? 36)%N then Some (pushAtom st EndText)
  else if (n =? 92)%N then Some (setMode st MEscape)
  else if (n =? 123)%N then Some (setMode st MBrace)
  else Some (pushAtom st (literal (ps_fold st) n)).

Definition stepEscape (st : pstate) (n : N) : option pstate :=
  match perlClass n with
  | Some ranges =>
      Some (pushAtom st (withFolded (ps_fold st) ranges (classOf ranges)))
  | None =>
      if (n =? 98)%N then Some (pushAtom st WordBoundary)
      else if (n =? 66)%N then Some (pushAtom st NoWordBoundary)
      else if (n =? 65)%N then Some (pushAtom st BeginText)
      else if (n =? 122)%N then Some (pushAtom st EndText)
      else match escapedByte n with
           | Some b => Some (pushAtom st (literal (ps_fold st) b))
           | None => None
           end
  end.

Definition closeClass (st : pstate) (neg : bool) (items : list (N * N))
  : pstate :=
  pushAtom st
    (withFolded (ps_fold st && negb neg) items
       (CharClass {| cs_neg := neg; cs_ranges := items;
                     cs_fold := ps_fold st |})).

(** A byte read at the start of an item of a class. *)
Definition stepClassItem (st : pstate) (neg : bool) (items : list (N * N))
           (first : bool) (n : N) : option pstate :=
  if ((n =? 93) && negb first)%N then Some (closeClass st neg items)
  else if (n =? 92)%N then Some (setMode st (MClass neg items CEscLo))
  else if (n =? 91)%N then Some (setMode st (MClass neg items CBracket))
  else Some (setMode st (MClass neg items (CAfterLo n))).

Definition stepClass (st : pstate) (neg : bool) (items : list (N * N))
           (pos : classPos) (n : N) : option pstate :=
  match pos with
  | CStart =>
      if (n =? 94)%N then Some (setMode st (MClass true items CFirst))
      else stepClassItem st neg items true n
  | CFirst => stepClassItem st neg items true n
  | CItem => stepClassItem st neg items false n
  | CBracket =>
      if (n =? 58)%N then None
      else if (n =? 45)%N then Some (setMode st (MClass neg items (CDash 91)))
      else stepClassItem st neg ((91, 91)%N :: items) false n
  | CAfterLo lo =>
      if (n =? 45)%N then Some (setMode st (MClass neg items (CDash lo)))
      else stepClassItem st neg ((lo, lo) :: items) false n
  | CDash lo =>
      if (n =? 93)%N
      then Some (closeClass st neg ((45, 45)%N :: (lo, lo) :: items))
      else if (n =? 92)%N then Some (setMode st (MClass neg items (CEscHi lo)))
      else if (n <? lo)%N then None
      else Some (setMode st (MClass neg ((lo, n) :: items) CItem))
  | CEscLo =>
      match perlClass n with
      | Some ranges => Some (setMode st (MClass neg (ranges ++ items) CItem))
      | None =>
          match escapedByte n with
          | Some b => Some (setMode st (MClass neg items (CAfterLo b)))
          | None => None
          end
      end
  | CEscHi lo =>
      match escapedByte n with
      | Some b =>
          if (b <? lo)%N then None
          else Some (setMode st (MClass neg ((lo, b) :: items) CItem))
      | None => None
      end
  end.

Definition isDigit (n : N) : bool := ((48 <=? n) && (n <=? 57))%N.

Definition step (st : pstate) (c : ascii) : option pstate :=
  let n := N_of_ascii c in
  match ps_mode st with
  | MNormal => stepNormal st n
  | MEscape => stepEscape st n
  | MGroup =>
      if (n =? 63)%N then Some (setMode st MGroupQ)
      else stepNormal (openGroup st true (ps_fold st)) n
  | MGroupQ =>
      if (n =? 58)%N then Some (openGroup st false (ps_fold st))
      else if (n =? 105)%N then Some (setMode st MGroupI)
      else None
  | MGroupI =>
      if (n =? 41)%N then
        Some {| ps_mode := MNormal; ps_fold := true; ps_ncap := ps_ncap st;
                ps_rep := RepNone; ps_alts := ps_alts st;
                ps_seq := ps_seq st; ps_stack := ps_stack st |}
      else if (n =? 58)%N then Some (openGroup st false true)
      else None
  | MBrace =>
      if isDigit n then None
      else stepNormal (pushAtom st (literal (ps_fold st) 123)) n
  | MClass neg items pos => stepClass st neg items pos n
  end.

Fixpoint parseFrom (st : pstate) (source : string) : option pstate :=
  match source with
  | EmptyString => Some st
  | String c rest =>
      match step st c with
      | Some st' => parseFrom st' rest
      | None => None
      end
  end.

(** The end of the expression [source]. *)
Definition finish (source : string) (st : pstate) : option compiled :=
  let st' := match ps_mode st with
             | MNormal => Some st
             | MBrace => Some (pushAtom st (literal (ps_fold st) 123))
             | _ => None
             end in
  match st' with
  | Some st' =>
      match ps_stack st' with
      | [] => Some {| expr := source;
                      prog := groupBody (ps_alts st') (ps_seq st');
                      numCap := ps_ncap st' |}
      | _ :: _ => None
      end
  | None => None
  end.

(** [regexp.Compile]. *)
Definition Compile (source : string) : option compiled :=
  match parseFrom initial source with
  | Some st => finish source st
  | None => None
  end.

(** [regexp.MustCompile] panics on an expression that does not compile;
    the model then returns an expression that matches nothing.  The
    expressions of the program all compile ([registry_compiles]). *)
Definition MustCompile (source : string) : compiled :=
  match Compile source with
  | Some re => re
  | None => {| expr := source; prog := NoMatch; numCap := 0 |}
  end.

(** Whether [regexp.Compile] accepts the source of a compiled expression. *)
Definition compiles (re : compiled) : bool :=
  match Compile (expr re) with
  | Some _ => true
  | None => false
  end.

(** *** All matches *)

(** The loop of the method [allMatches]: the matches of [re] from the
    position [pos] on, each searched from the end of the one before.  An
    empty match moves the search one character on, and one directly after
    the match before is not delivered.  [prev] and [rest] are the byte
    before [pos] and the text from [pos] on, [prevMatchEnd] is the end of
    the match before, [fuel] exceeds the number of bytes left. *)
Fixpoint allMatches (re : compiled) (fuel : nat) (prev : option ascii)
         (rest : string) (pos : nat) (prevMatchEnd : option nat)
  : list captures :=
  match fuel with
  | O => []
  | S fuel' =>
      match searchFrom re prev rest pos with
      | None => []
      | Some caps =>
          match caps with
          | Some (lo, hi) :: _ =>
              if (hi =? pos)%nat then
                let accept :=
                  match prevMatchEnd with
                  | Some e => negb (lo =? e)%nat
                  | None => true
                  end in
                let width := strings.runeWidth rest in
                let more :=
                  if (0 <? width)%nat then
                    let '(prev', rest') := advance width prev rest in
                    allMatches re fuel' prev' rest' (pos + width) (Some hi)
                  else [] in
                if accept then caps :: more else more
              else
                let '(prev', rest') := advance (hi - pos) prev rest in
                caps :: allMatches re fuel' prev' rest' hi (Some hi)
          | _ => []
          end
      end
  end.

(** The method [FindAllStringSubmatch] with [n = -1]: for each match, the
    text of the match and of each group. *)
Definition FindAllStringSubmatch (re : compiled) (s : string)
  : list (list string) :=
  map (fun caps =>
         map (fun c =>
                match c with
                | Some (lo, hi) => String.substring lo (hi - lo) s
                | None => ""
                end) caps)
      (allMatches re (String.length s + 2) None s 0 None).

End regexp.

(* ================================================================= *)
(** ** Files: what [os.Open] and [os.ReadFile] answer *)

(** What the operating system answers for a path: the file cannot be
    opened; it can be opened and reading it fails (a directory); or it can
    be read and holds [content]. *)
Inductive FileState : Type :=
| Missing
| Unreadable
| Readable (content : string).

Definition FileSystem : Type := string -> FileState.

(** The result of a function that returns a value and an [error]. *)
Inductive result (A : Type) : Type :=
| Ok (value : A)
| Err (message : string).
Arguments Ok {A} value.
Arguments Err {A} message.

Definition isErr {A : Type} (r : result A) : bool :=
  match r with
  | Ok _ => false
  | Err _ => true
  end.

(* ================================================================= *)
(** ** The line scanner of the Go package [bufio] *)

Module bufio.

(** [bufio.MaxScanTokenSize]: the size of the buffer of a [bufio.Scanner].
    A line that does not fit the buffer together with its line end stops
    the scanner with [bufio.ErrTooLong]. *)
Definition MaxScanTokenSize : Z := 65536.

Definition dropCR (line : string) : string :=
  if strings.HasSuffix line (String (strings.byte 13) "")
  then String.substring 0 (String.length line - 1) line
  else line.

(** The lines of a text as [bufio.ScanLines] cuts them, before the
    carriage return at their end is dropped: the text before each line feed
    and the text after the last one unless it is empty.  [pieces] are the
    pieces between the line feeds. *)
Fixpoint textLines (pieces : list string) : list string :=
  match pieces with
  | [] => []
  | [EmptyString] => []
  | piece :: rest => piece :: textLines rest
  end.

Definition linesOf (content : string) : list string :=
  textLines (strings.Split content strings.newline).

(** Whether the scanner's buffer cannot hold a line. *)
Definition tooLong (raw : string) : bool :=
  strings.len raw >=? MaxScanTokenSize.

(** The tokens that the scanner delivers before it stops, and whether it
    stopped on a line that is too long. *)
Fixpoint scanTokens (raw : list string) : list string * bool :=
  match raw with
  | [] => ([], false)
  | r :: rest =>
      if tooLong r then ([], true)
      else let '(lines, stopped) := scanTokens rest in
           (dropCR r :: lines, stopped)
  end.

Definition scanLines (content : string) : list string * bool :=
  scanTokens (linesOf content).

(** Whether a text has a line that is too long for the scanner. *)
Definition hasLongLine (content : string) : bool :=
  existsb tooLong (linesOf content).

End bufio.

(* ================================================================= *)
(** ** Package [search]: snippets and their merge *)

Module search.

Record Options : Type := mkOptions {
  ContextLines : Z;
  EntireFunction : bool;
  FuzzySearch : bool
}.

Record CodeSnippet : Type := mkCodeSnippet {
  StartLine : Z;
  EndLine : Z;
  Content : string;
  MatchInfo : string
}.

Definition adjacencyBuffer : Z := 3.

(** The body of the merge branch of [mergeOverlappingSnippets]: what
    [previous] becomes when [current] is merged into it. *)
Definition mergeInto (previous current : CodeSnippet) : CodeSnippet :=
  let previous1 :=
    if EndLine current >? EndLine previous then
      let lines := strings.Split (Content previous) strings.newline in
      let currentLines := strings.Split (Content current) strings.newline in
      let linesToAdd := wrap64 (EndLine current - EndLine previous) in
      let lines' :=
        if (linesToAdd >? 0) &&
           (Z.of_nat (List.length currentLines) >=? linesToAdd)
        then lines ++ lastElems linesToAdd currentLines
        else lines in
      {| StartLine := StartLine previous;
         EndLine := EndLine current;
         Content := strings.Join lines' strings.newline;
         MatchInfo := MatchInfo previous |}
    else previous in
  if negb (String.eqb (MatchInfo previous1) (MatchInfo current)) then
    {| StartLine := StartLine previous1;
       EndLine := EndLine previous1;
       Content := Content previous1;
       MatchInfo := ("Multiple matches between lines " ++
                     Itoa (StartLine previous1) ++ "-" ++
                     Itoa (EndLine previous1))%string |}
  else previous1.

(** The test that decides whether [current] is merged into [previous]. *)
Definition adjacent (previous current : CodeSnippet) : bool :=
  StartLine current <=? wrap64 (EndLine previous + adjacencyBuffer).

(** The loop of [mergeOverlappingSnippets].  [result] holds the accepted
    snippets before the last one, [previous] is the last one (the element
    that [&result[len(result)-1]] points to), [rest] the snippets still to
    visit. *)
Fixpoint mergeLoop (result : list CodeSnippet) (previous : CodeSnippet)
         (rest : list CodeSnippet) : list CodeSnippet :=
  match rest with
  | [] => result ++ [previous]
  | current :: rest' =>
      if adjacent previous current
      then mergeLoop result (mergeInto previous current) rest'
      else mergeLoop (result ++ [previous]) current rest'
  end.

Definition lessStart (a b : CodeSnippet) : bool := StartLine a <? StartLine b.

Definition mergeOverlappingSnippets (snippets : list CodeSnippet)
  : list CodeSnippet :=
  if Z.of_nat (List.length snippets) <=? 1 then snippets
  else
    match sortSlice lessStart snippets with
    | [] => []
    | first :: rest => mergeLoop [] first rest
    end.

(** The first loop of [findFunctionBounds]: from line [n] upwards, the
    nearest line that contains a function keyword, line 0 when there is
    none.  [None] when [lines[n]] is out of range. *)
Fixpoint scanUp (lines : list string) (n : nat) : option Z :=
  match n with
  | O => Some 0
  | S k =>
      match nth_error lines n with
      | None => None
      | Some line =>
          if strings.Contains line "func " || strings.Contains line "function "
          then Some (Z.of_nat n)
          else scanUp lines k
      end
  end.

(** The second loop of [findFunctionBounds], over the lines from index [i]
    on: the first line after [matchLine] at which the bracket count is not
    positive.  The result is the value of [end] after the loop, which is
    still 0 when the loop ends without a [break]. *)
Fixpoint scanDown (rest : list string) (i matchLine bracketCount : Z) : Z :=
  match rest with
  | [] => 0
  | line :: rest' =>
      let bracketCount' :=
        bracketCount + (strings.Count line "{" - strings.Count line "}") in
      if (bracketCount' <=? 0) && (i >? matchLine) then i
      else scanDown rest' (i + 1) matchLine bracketCount'
  end.

(** [findFunctionBounds]; [None] when an index expression panics: in the
    first loop, or in the second, which starts at [lines[start]] and is
    entered whenever [start] is negative. *)
Definition findFunctionBounds (lines : list string) (matchLine : Z)
  : option (Z * Z) :=
  let start :=
    if matchLine >? 0 then scanUp lines (Z.to_nat matchLine)
    else Some matchLine in
  match start with
  | None => None
  | Some start =>
      if start <? 0 then None
      else
        let end_ := scanDown (skipn (Z.to_nat start) lines) start matchLine 0 in
        let end_ :=
          if end_ =? 0
          then min (Z.of_nat (List.length lines) - 1) (start + 20)
          else end_ in
        Some (start, end_)
  end.

(** The snippet that [extractSnippet] builds from the lines [start..end]
    (0-indexed, inclusive), [None] when the slice expression panics. *)
Definition snippetOf (lines : list string) (start end_ : Z) (info : string)
  : option CodeSnippet :=
  match sliceOf lines start (end_ + 1) with
  | None => None
  | Some ls =>
      Some {| StartLine := start + 1;
              EndLine := end_ + 1;
              Content := strings.Join ls strings.newline;
              MatchInfo := info |}
  end.

Definition contextSnippet (lines : list string) (matchLine : Z) (opts : Options)
  : option CodeSnippet :=
  let start := max 0 (wrap64 (matchLine - ContextLines opts)) in
  let end_ := min (Z.of_nat (List.length lines) - 1)
                  (wrap64 (matchLine + ContextLines opts)) in
  snippetOf lines start end_
            ("Match at line " ++ Itoa (matchLine + 1))%string.

Definition extractSnippet (lines : list string) (matchLine : Z) (opts : Options)
  : option CodeSnippet :=
  if EntireFunction opts then
    match findFunctionBounds lines matchLine with
    | None => None
    | Some (start, end_) =>
        if negb (start =? -1) && negb (end_ =? -1) then
          snippetOf lines start end_
                    ("Function containing match at line " ++
                     Itoa (matchLine + 1))%string
        else contextSnippet lines matchLine opts
    end
  else contextSnippet lines matchLine opts.

(** *** [searchInFile] *)

(** The expression of the fuzzy mode: the characters of the pattern with
    [.*] between them. *)
Definition fuzzyPattern (pattern : string) : string :=
  strings.Join (strings.explode pattern) ".*".

(** The expression that [searchInFile] hands to [regexp.Compile]. *)
Definition expressionOf (pattern : string) (opts : Options) : string :=
  if FuzzySearch opts then ("(?i)" ++ fuzzyPattern pattern)%string
  else pattern.



(** What [searchInFile] uses of the package [regexp]: [Compile], and
    [MatchString] of the expression it returns.  A [Compiler] takes the
    source of an expression to the test that the compiled expression makes
    of a line, or to [None] where [Compile] returns an error.  What
    [searchInFile] does with the outcome of the two calls does not depend
    on the syntax that [Compile] accepts, so the function is defined for
    any [Compiler]. *)
Definition Compiler : Type := string -> option (string -> bool).

(** The package [regexp] as it is modelled above. *)
Definition regexpCompiler : Compiler :=
  fun source => option_map regexp.MatchString (regexp.Compile source).

(** The loop over the lines from index [i] on; [matches] is the method
    [MatchString] of the compiled expression.  [None] when [extractSnippet]
    panics. *)
Fixpoint snippetsFrom (matches : string -> bool) (lines : list string)
         (opts : Options) (i : Z) (rest : list string)
  : option (list CodeSnippet) :=
  match rest with
  | [] => Some []
  | line :: rest' =>
      if matches line then
        match extractSnippet lines i opts,
              snippetsFrom matches lines opts (i + 1) rest' with
        | Some snippet, Some snippets => Some (snippet :: snippets)
        | _, _ => None
        end
      else snippetsFrom matches lines opts (i + 1) rest'
  end.

(** [searchInFile] over the package [regexp] given by [compile]: the
    snippets of the file, or the error of reading the file or of compiling
    the expression.  The lines are those that the scanner delivers; its
    error is not looked at.  The outer [None] is a panic of
    [extractSnippet]. *)
Definition searchInFileWith (compile : Compiler) (fs : FileSystem)
           (path pattern : string) (opts : Options)
  : option (result (list CodeSnippet)) :=
  match fs path with
  | Readable data =>
      match compile (expressionOf pattern opts) with
      | None => Some (Err "error parsing regexp")
      | Some matches =>
          let lines := fst (bufio.scanLines data) in
          match snippetsFrom matches lines opts 0 lines with
          | Some snippets => Some (Ok snippets)
          | None => None
          end
      end
  | _ => Some (Err "read failed")
  end.

(** [searchInFile] over the modelled package. *)
Definition searchInFile : FileSystem -> string -> string -> Options ->
                          option (result (list CodeSnippet)) :=
  searchInFileWith regexpCompiler.

(** *** The fuzzy match in the words of the specification *)

Definition lowerCode (n : N) : N :=
  if ((65 <=? n) && (n <=? 90))%N then (n + 32)%N else n.

(** Two bytes are the same up to the case of ASCII letters. *)
Definition equalFold (c d : ascii) : bool :=
  (lowerCode (strings.code c) =? lowerCode (strings.code d))%N.

(** The two characters outside ASCII that are ASCII letters up to case, in
    UTF-8: the Kelvin sign [U+212A], which is a [k], and the long s
    [U+017F], which is an [s]. *)
Definition kelvinSign : string :=
  String (ascii_of_N 226) (String (ascii_of_N 132) (String (ascii_of_N 170) "")).

Definition longS : string :=
  String (ascii_of_N 197) (String (ascii_of_N 191) "").

(** The text after the prefix [p] of [text]. *)
Fixpoint stripPrefix (p text : string) : option string :=
  match p with
  | EmptyString => Some text
  | String a p' =>
      match text with
      | EmptyString => None
      | String d text' => if Ascii.eqb a d then stripPrefix p' text' else None
      end
  end.

(** [afterFold c text]: the text after the first character of [text], when
    that character is the ASCII character [c] up to case. *)
Definition afterFold (c : ascii) (text : string) : option string :=
  match text with
  | EmptyString => None
  | String d rest =>
      if equalFold c d then Some rest
      else if equalFold c "k" then stripPrefix kelvinSign text
      else if equalFold c "s" then stripPrefix longS text
      else None
  end.





Definition notNewline (c : ascii) : bool := negb (strings.code c =? 10)%N.










(** The type invariant of a snippet: its line numbers are Go [int]s. *)
Definition wfSnippet (s : CodeSnippet) : Prop :=
  isInt (StartLine s) /\ isInt (EndLine s).

(** [byStart a b]: [a] does not start after [b]. *)
Definition byStart (a b : CodeSnippet) : Prop := StartLine a <= StartLine b.

(** [apart a b]: [b] starts more than the adjacency buffer after the end
    of [a]. *)
Definition apart (a b : CodeSnippet) : Prop :=
  EndLine a + adjacencyBuffer < StartLine b.

(** The shape of a merged list: consecutive snippets are in start-line
    order and apart. *)
Definition mergedShape (l : list CodeSnippet) : Prop :=
  Sorted byStart l /\ Sorted apart l.

(** The accepted snippets from [previous] on: [mergeLoop] without its
    accumulator. *)
Fixpoint mergeRun (previous : CodeSnippet) (rest : list CodeSnippet)
  : list CodeSnippet :=
  match rest with
  | [] => [previous]
  | current :: rest' =>
      if adjacent previous current
      then mergeRun (mergeInto previous current) rest'
      else previous :: mergeRun current rest'
  end.

(** Two snippets that start on the same line, used to show that the input
    order is visible in the merged content. *)
Definition tieShort : CodeSnippet :=
  {| StartLine := 1; EndLine := 1; Content := "a"; MatchInfo := "m" |}.

Definition tieLong : CodeSnippet :=
  {| StartLine := 1; EndLine := 2;
     Content := ("b" ++ strings.newline ++ "c")%string; MatchInfo := "m" |}.

(** Snippets of a file of 30 lines, out of order, two of which overlap. *)
Definition overlappingInFile : list CodeSnippet :=
  [ {| StartLine := 3; EndLine := 8; Content := "c"; MatchInfo := "m" |};
    {| StartLine := 20; EndLine := 25; Content := "t"; MatchInfo := "n" |};
    {| StartLine := 1; EndLine := 5; Content := "a"; MatchInfo := "o" |} ].

(** A list that has the merged shape. *)
Definition farApart : list CodeSnippet :=
  [ {| StartLine := 1; EndLine := 3; Content := "a"; MatchInfo := "m" |};
    {| StartLine := 7; EndLine := 9; Content := "b"; MatchInfo := "n" |};
    {| StartLine := 20; EndLine := 20; Content := "c"; MatchInfo := "m" |} ].

(** [covers o s]: the line range of [o] holds that of [s]. *)
Definition covers (o s : CodeSnippet) : Prop :=
  StartLine o <= StartLine s /\ EndLine s <= EndLine o.

(** The test of the first loop of [findFunctionBounds]. *)
Definition startsFunction (line : string) : bool :=
  strings.Contains line "func " || strings.Contains line "function ".

(** The lines [first..last] (1-indexed, inclusive) joined by newlines. *)
Definition linesBetween (lines : list string) (first last : Z) : string :=
  strings.Join (firstn (Z.to_nat (last - first + 1))
                       (skipn (Z.to_nat (first - 1)) lines))
               strings.newline.

End search.

(* ================================================================= *)
(** ** Package [output]: the formatting merge pass *)

Module output.

Record formattingSnippet : Type := mkFormattingSnippet {
  StartLine : Z;
  EndLine : Z;
  Content : string;
  Language : string;
  Path : string
}.

(** The conversion [float64(n)] of an [int]: rounding to the nearest
    double, ties to even. *)
Definition float64 (n : Z) : spec_float := binary_normalize 53 1024 n 0 false.

(** The constant [0.5]. *)
Definition half : spec_float := S754_finite false 4503599627370496 (-53).

(** [overlap > 0 && float64(overlap) >= float64(smallerRange)*0.5]. *)
Definition significantOverlap (overlap smallerRange : Z) : bool :=
  (overlap >? 0) &&
  SFleb (SFmul 53 1024 (float64 smallerRange) half) (float64 overlap).

(** One round of the loop of [mergeFormattingSnippets]: what [previous]
    becomes, and whether [current] is appended after it. *)
Definition mergeStep (previous current : formattingSnippet)
  : formattingSnippet * bool :=
  let overlap :=
    wrap64 (min (EndLine previous) (EndLine current) -
            max (StartLine previous) (StartLine current)) in
  let smallerRange :=
    min (wrap64 (EndLine previous - StartLine previous))
        (wrap64 (EndLine current - StartLine current)) in
  if significantOverlap overlap smallerRange then
    let newStartLine := min (StartLine previous) (StartLine current) in
    let newEndLine := max (EndLine previous) (EndLine current) in
    let newContent :=
      if wrap64 (EndLine current - StartLine current) >=?
         wrap64 (EndLine previous - StartLine previous)
      then Content current else Content previous in
    ({| StartLine := newStartLine; EndLine := newEndLine;
        Content := newContent;
        Language := Language previous; Path := Path previous |}, false)
  else if StartLine current >? EndLine previous then (previous, true)
  else if EndLine current >? EndLine previous then
    let previous1 :=
      {| StartLine := StartLine previous; EndLine := EndLine current;
         Content := Content previous;
         Language := Language previous; Path := Path previous |} in
    let linesPrevious := strings.Split (Content previous1) strings.newline in
    let linesCurrent := strings.Split (Content current) strings.newline in
    let linesToAdd := wrap64 (EndLine current - EndLine previous1) in
    if Z.of_nat (List.length linesCurrent) >=? linesToAdd then
      ({| StartLine := StartLine previous1; EndLine := EndLine previous1;
          Content := strings.Join
                       (linesPrevious ++ lastElems linesToAdd linesCurrent)
                       strings.newline;
          Language := Language previous1; Path := Path previous1 |}, false)
    else (previous1, false)
  else (previous, false).

Fixpoint mergeLoop (result : list formattingSnippet)
         (previous : formattingSnippet) (rest : list formattingSnippet)
  : list formattingSnippet :=
  match rest with
  | [] => result ++ [previous]
  | current :: rest' =>
      match mergeStep previous current with
      | (previous', false) => mergeLoop result previous' rest'
      | (previous', true) => mergeLoop (result ++ [previous']) current rest'
      end
  end.

Definition lessStart (a b : formattingSnippet) : bool :=
  StartLine a <? StartLine b.

Definition mergeFormattingSnippets (snippets : list formattingSnippet)
  : list formattingSnippet :=
  if Z.of_nat (List.length snippets) <=? 1 then snippets
  else
    match sortSlice lessStart snippets with
    | [] => []
    | first :: rest => mergeLoop [] first rest
    end.

(** The accepted snippets from [previous] on: [mergeLoop] without its
    accumulator. *)
Fixpoint mergeRun (previous : formattingSnippet) (rest : list formattingSnippet)
  : list formattingSnippet :=
  match rest with
  | [] => [previous]
  | current :: rest' =>
      match mergeStep previous current with
      | (previous', false) => mergeRun previous' rest'
      | (previous', true) => previous' :: mergeRun current rest'
      end
  end.

Definition byStart (a b : formattingSnippet) : Prop :=
  StartLine a <= StartLine b.

(** [before a b]: [a] ends before [b] starts. *)
Definition before (a b : formattingSnippet) : Prop := EndLine a < StartLine b.

(** [covers o s]: the line range of [o] holds that of [s]. *)
Definition covers (o s : formattingSnippet) : Prop :=
  StartLine o <= StartLine s /\ EndLine s <= EndLine o.

End output.


(* ================================================================= *)
(** ** Package [finder]: header extraction *)

Module finder.

(** [HeaderType]; the constant [Variable] is written [Variable_]. *)
Inductive HeaderType : Type :=
| Function | Method | Class | Interface | Variable_ | Constant | Import
| Field | Enum | Struct | Package | Namespace | Module | Define.

Definition HeaderType_eqb (a b : HeaderType) : bool :=
  match a, b with
  | Function, Function | Method, Method | Class, Class
  | Interface, Interface | Variable_, Variable_ | Constant, Constant
  | Import, Import | Field, Field | Enum, Enum | Struct, Struct
  | Package, Package | Namespace, Namespace | Module, Module
  | Define, Define => true
  | _, _ => false
  end.

Record ParameterInfo : Type := mkParameterInfo {
  ParamName : string;
  ParamType : string
}.

(** [HeaderElement]; the field [Type] is written [Type_]. *)
#[warnings="-register-all"]
Inductive HeaderElement : Type := mkHeaderElement {
  Type_ : HeaderType;
  Name : string;
  LineNum : Z;
  Signature : string;
  Scope : string;
  Parent : string;
  Children : list HeaderElement;
  EndLine : Z;
  Parameters : list ParameterInfo;
  ReturnTypes : list string;
  ValueType : string;
  Value : string
}.

(** A header with the given type, name and line, the other fields zero. *)
Definition newHeader (t : HeaderType) (name : string) (lineNum : Z)
  : HeaderElement :=
  {| Type_ := t; Name := name; LineNum := lineNum; Signature := "";
     Scope := ""; Parent := ""; Children := []; EndLine := 0;
     Parameters := []; ReturnTypes := []; ValueType := ""; Value := "" |}.

Definition withChildren (h : HeaderElement) (children : list HeaderElement)
  : HeaderElement :=
  {| Type_ := Type_ h; Name := Name h; LineNum := LineNum h;
     Signature := Signature h; Scope := Scope h; Parent := Parent h;
     Children := children; EndLine := EndLine h;
     Parameters := Parameters h; ReturnTypes := ReturnTypes h;
     ValueType := ValueType h; Value := Value h |}.

Definition withEndLine (h : HeaderElement) (endLine : Z) : HeaderElement :=
  {| Type_ := Type_ h; Name := Name h; LineNum := LineNum h;
     Signature := Signature h; Scope := Scope h; Parent := Parent h;
     Children := Children h; EndLine := endLine;
     Parameters := Parameters h; ReturnTypes := ReturnTypes h;
     ValueType := ValueType h; Value := Value h |}.

Record LanguagePattern : Type := mkLanguagePattern {
  ElementType : HeaderType;
  Pattern : regexp.compiled;
  NameGroup : nat;
  SignatureGroup : nat;
  ScopeGroup : nat;
  ParentGroup : nat;
  ParamsGroup : nat;
  ReturnsGroup : nat
}.

(** A rule with the groups that its literal in the registry names; the
    groups it leaves out are 0. *)
Definition rule (t : HeaderType) (source : string)
           (name sig scope parent params returns : nat) : LanguagePattern :=
  {| ElementType := t; Pattern := regexp.MustCompile source;
     NameGroup := name; SignatureGroup := sig; ScopeGroup := scope;
     ParentGroup := parent; ParamsGroup := params; ReturnsGroup := returns |}.

Definition goPatterns : list LanguagePattern :=
  [ rule Function
      "^func\s+([A-Za-z0-9_]+)\s*\((.*?)\)(?:\s+\(?([^{]*)\)?)?"
      1 0 0 0 2 3;
    rule Method
      "^func\s+\(\w+\s+\*?([A-Za-z0-9_]+)\)\s+([A-Za-z0-9_]+)\s*\((.*?)\)(?:\s+\(?([^{]*)\)?)?"
      2 0 0 1 3 4;
    rule Struct "^type\s+([A-Za-z0-9_]+)\s+struct\s+{" 1 0 0 0 0 0;
    rule Interface "^type\s+([A-Za-z0-9_]+)\s+interface\s+{" 1 0 0 0 0 0;
    rule Constant
      "^const\s+([A-Za-z0-9_]+)(?:\s+([A-Za-z0-9_\[\]<>]+))?(?:\s*=\s*(.+))?"
      1 0 0 0 0 0;
    rule Variable_
      "^var\s+([A-Za-z0-9_]+)(?:\s+([A-Za-z0-9_\[\]<>]+))?(?:\s*=\s*(.+))?"
      1 0 0 0 0 0;
    rule Import "^import\s+\(" 0 0 0 0 0 0 ].

Definition pythonPatterns : list LanguagePattern :=
  [ rule Function
      "^def\s+([A-Za-z0-9_]+)\s*\((.*?)\)(?:\s*->\s*([A-Za-z0-9_\[\],\s\.]+))?:"
      1 0 0 0 2 3;
    rule Method
      "^\s+def\s+([A-Za-z0-9_]+)\s*\((self|cls)(?:,\s*(.*?))?\)(?:\s*->\s*([A-Za-z0-9_\[\],\s\.]+))?:"
      1 0 0 0 3 4;
    rule Class "^class\s+([A-Za-z0-9_]+)(?:\((.*?)\))?:" 1 0 0 0 2 0;
    rule Import "^(?:from\s+([A-Za-z0-9_\.]+)\s+)?import\s+(.+)" 2 0 0 1 0 0;
    rule Variable_ "^([A-Z_][A-Z0-9_]*)\s*=\s*(.+)" 1 2 0 0 0 0 ].

Definition javaPatterns : list LanguagePattern :=
  [ rule Class "\b(public|private|protected)?\s+class\s+([A-Za-z0-9_]+)"
      2 0 1 0 0 0;
    rule Method
      "\b(public|private|protected)?\s+[A-Za-z0-9_<>]+\s+([A-Za-z0-9_]+)\s*\("
      2 0 1 0 0 0;
    rule Interface
      "\b(public|private|protected)?\s+interface\s+([A-Za-z0-9_]+)"
      2 0 1 0 0 0 ].

Definition javascriptPatterns : list LanguagePattern :=
  [ rule Function "function\s+([A-Za-z0-9_]+)\s*\(" 1 0 0 0 0 0;
    rule Variable_ "(const|let|var)\s+([A-Za-z0-9_]+)\s*=" 2 0 0 0 0 0;
    rule Class "class\s+([A-Za-z0-9_]+)" 1 0 0 0 0 0;
    rule Method "\b([A-Za-z0-9_]+)\s*\(\)\s*{" 1 0 0 0 0 0 ].

Definition typescriptPatterns : list LanguagePattern :=
  [ rule Function "function\s+([A-Za-z0-9_]+)\s*\(" 1 0 0 0 0 0;
    rule Variable_ "(const|let|var)\s+([A-Za-z0-9_]+)\s*:" 2 0 0 0 0 0;
    rule Class "class\s+([A-Za-z0-9_]+)" 1 0 0 0 0 0;
    rule Interface "interface\s+([A-Za-z0-9_]+)" 1 0 0 0 0 0 ].

Definition cPatterns : list LanguagePattern :=
  [ rule Function "^[A-Za-z0-9_]+\s+([A-Za-z0-9_]+)\s*\(" 1 0 0 0 0 0;
    rule Struct "struct\s+([A-Za-z0-9_]+)\s*{" 1 0 0 0 0 0;
    rule Define "#define\s+([A-Za-z0-9_]+)" 1 0 0 0 0 0 ].

Definition cppPatterns : list LanguagePattern :=
  [ rule Function "^[A-Za-z0-9_:<>]+\s+([A-Za-z0-9_]+)\s*\(" 1 0 0 0 0 0;
    rule Class "class\s+([A-Za-z0-9_]+)" 1 0 0 0 0 0;
    rule Struct "struct\s+([A-Za-z0-9_]+)\s*{" 1 0 0 0 0 0;
    rule Namespace "namespace\s+([A-Za-z0-9_]+)" 1 0 0 0 0 0 ].

Definition csharpPatterns : list LanguagePattern :=
  [ rule Class
      "\b(public|private|protected|internal)?\s+class\s+([A-Za-z0-9_]+)"
      2 0 1 0 0 0;
    rule Method
      "\b(public|private|protected|internal)?\s+[A-Za-z0-9_<>]+\s+([A-Za-z0-9_]+)\s*\("
      2 0 1 0 0 0;
    rule Interface
      "\b(public|private|protected|internal)?\s+interface\s+([A-Za-z0-9_]+)"
      2 0 1 0 0 0;
    rule Namespace "namespace\s+([A-Za-z0-9_\.]+)" 1 0 0 0 0 0 ].

Definition rubyPatterns : list LanguagePattern :=
  [ rule Class "^class\s+([A-Za-z0-9_]+)" 1 0 0 0 0 0;
    rule Function "^\s*def\s+([A-Za-z0-9_]+)" 1 0 0 0 0 0;
    rule Module "^module\s+([A-Za-z0-9_]+)" 1 0 0 0 0 0 ].

Definition phpPatterns : list LanguagePattern :=
  [ rule Class "class\s+([A-Za-z0-9_]+)" 1 0 0 0 0 0;
    rule Function "function\s+([A-Za-z0-9_]+)\s*\(" 1 0 0 0 0 0;
    rule Method
      "\b(public|private|protected)?\s+function\s+([A-Za-z0-9_]+)\s*\("
      2 0 1 0 0 0 ].

(** [languagePatternRegistry]: the map from a language to its rules. *)
Definition languagePatternRegistry : list (string * list LanguagePattern) :=
  [ ("go", goPatterns);
    ("python", pythonPatterns);
    ("java", javaPatterns);
    ("javascript", javascriptPatterns);
    ("typescript", typescriptPatterns);
    ("c", cPatterns);
    ("cpp", cppPatterns);
    ("csharp", csharpPatterns);
    ("ruby", rubyPatterns);
    ("php", phpPatterns) ].

Definition defaultPatterns : list LanguagePattern :=
  [ rule Function "\b(function|def|func)\s+([A-Za-z0-9_]+)\s*\(" 2 0 0 0 0 0;
    rule Class "\b(class)\s+([A-Za-z0-9_]+)" 2 0 0 0 0 0 ].

Fixpoint lookup {A : Type} (key : string) (m : list (string * A)) : option A :=
  match m with
  | [] => None
  | (k, v) :: rest => if String.eqb k key then Some v else lookup key rest
  end.

(** The rules that [CollectHeaders] selects for a language. *)
Definition patternsFor (language : string) : list LanguagePattern :=
  match lookup language languagePatternRegistry with
  | Some patterns => patterns
  | None => defaultPatterns
  end.

(** Every rule of the program. *)
Definition allPatterns : list LanguagePattern :=
  flat_map snd languagePatternRegistry ++ defaultPatterns.

(** *** [DetectLanguage] *)

(** [filepath.Ext]: the suffix from the last dot of the last element of the
    path, the elements being separated by slashes.  [r] is the path read
    from its end, [acc] the bytes passed. *)
Fixpoint extFrom (r : string) (acc : string) : string :=
  match r with
  | EmptyString => ""
  | String c r' =>
      if Ascii.eqb c "/" then ""
      else if Ascii.eqb c "." then String c acc
      else extFrom r' (String c acc)
  end.

Definition Ext (path : string) : string := extFrom (strings.reverse path) "".

(** [strings.ToLower] on the ASCII letters. *)
Fixpoint ToLower (s : string) : string :=
  match s with
  | EmptyString => ""
  | String c s' =>
      let n := N_of_ascii c in
      String (if ((65 <=? n) && (n <=? 90))%N then ascii_of_N (n + 32) else c)
             (ToLower s')
  end.

Definition extensionLanguages : list (string * string) :=
  [ (".go", "go"); (".js", "javascript"); (".ts", "typescript");
    (".py", "python"); (".java", "java"); (".c", "c"); (".h", "c");
    (".cpp", "cpp"); (".hpp", "cpp"); (".cs", "csharp"); (".rb", "ruby");
    (".php", "php"); (".pl", "perl"); (".sh", "bash"); (".html", "html");
    (".css", "css"); (".md", "markdown"); (".json", "json");
    (".yaml", "yaml"); (".yml", "yaml") ].

Definition DetectLanguage (path : string) : string :=
  match lookup (ToLower (Ext path)) extensionLanguages with
  | Some language => language
  | None => "plaintext"
  end.

(** *** Parameters and return types *)

Definition isOpenBracket (c : ascii) : bool := strings.inCutset c "<([{".
Definition isCloseBracket (c : ascii) : bool := strings.inCutset c ">)]}".

(** The loop of [splitParamsRespectingBrackets]; [cur] is the text since
    [start], read from its end. *)
Fixpoint splitParamsFrom (depth : Z) (cur : string) (s : string)
  : list string :=
  match s with
  | EmptyString =>
      match cur with
      | EmptyString => []
      | String _ _ => [strings.reverse cur]
      end
  | String c s' =>
      if isOpenBracket c then splitParamsFrom (depth + 1) (String c cur) s'
      else if isCloseBracket c then
        splitParamsFrom (depth - 1) (String c cur) s'
      else if Ascii.eqb c "," && (depth =? 0) then
        strings.reverse cur :: splitParamsFrom depth "" s'
      else splitParamsFrom depth (String c cur) s'
  end.

Definition splitParamsRespectingBrackets (paramStr : string) : list string :=
  splitParamsFrom 0 "" paramStr.

Definition lastOr (parts : list string) : string := List.last parts "".

Definition nonEmpty (s : string) : bool := negb (String.eqb s "").

(** The parameters that one group of a Go parameter list yields. *)
Definition goGroup (group : string) : list ParameterInfo :=
  let group := strings.TrimSpace group in
  if String.eqb group "" then []
  else
    let parts := strings.Fields group in
    if (2 <=? List.length parts)%nat then
      let paramType := lastOr parts in
      if (2 <? List.length parts)%nat ||
         strings.Contains (List.hd "" parts) ","
      then
        let nameList := strings.Join (List.removelast parts) " " in
        let names := strings.Split nameList "," in
        map (fun name => {| ParamName := name; ParamType := paramType |})
            (filter nonEmpty (map strings.TrimSpace names))
      else [ {| ParamName := List.hd "" parts; ParamType := paramType |} ]
    else if (List.length parts =? 1)%nat then
      [ {| ParamName := ""; ParamType := List.hd "" parts |} ]
    else [].

(** The name of a Python parameter without its default value. *)
Definition dropDefault (paramName : string) : string :=
  if strings.Contains paramName "="
  then strings.TrimSpace (List.hd "" (strings.SplitN2 paramName "="))
  else paramName.

Definition pythonGroup (group : string) : list ParameterInfo :=
  let group := strings.TrimSpace group in
  if String.eqb group "" then []
  else if strings.Contains group ":" then
    let parts := strings.SplitN2 group ":" in
    let paramName := strings.TrimSpace (List.hd "" parts) in
    let paramType :=
      if (1 <? List.length parts)%nat
      then strings.TrimSpace (List.nth 1 parts "") else "" in
    [ {| ParamName := dropDefault paramName; ParamType := paramType |} ]
  else [ {| ParamName := dropDefault group; ParamType := "" |} ].

Definition jsGroup (group : string) : list ParameterInfo :=
  let group := strings.TrimSpace group in
  if String.eqb group "" then []
  else if strings.Contains group ":" then
    let parts := strings.SplitN2 group ":" in
    let paramName := strings.TrimSpace (List.hd "" parts) in
    let paramType :=
      if (1 <? List.length parts)%nat
      then strings.TrimSpace (List.nth 1 parts "") else "" in
    [ {| ParamName := paramName; ParamType := paramType |} ]
  else [ {| ParamName := group; ParamType := "" |} ].

Definition genericGroup (p : string) : list ParameterInfo :=
  let p := strings.TrimSpace p in
  if String.eqb p "" then []
  else
    let parts := strings.Fields p in
    if (2 <=? List.length parts)%nat then
      [ {| ParamName := strings.Join (List.removelast parts) " ";
           ParamType := lastOr parts |} ]
    else if (List.length parts =? 1)%nat then
      [ {| ParamName := List.hd "" parts; ParamType := "" |} ]
    else [].

Definition parseParametersWithTypes (paramStr language : string)
  : list ParameterInfo :=
  if String.eqb (strings.TrimSpace paramStr) "" then []
  else if String.eqb language "go" then
    flat_map goGroup (splitParamsRespectingBrackets paramStr)
  else if String.eqb language "python" then
    flat_map pythonGroup (splitParamsRespectingBrackets paramStr)
  else if String.eqb language "javascript" || String.eqb language "typescript"
  then flat_map jsGroup (splitParamsRespectingBrackets paramStr)
  else flat_map genericGroup (strings.Split paramStr ",").

Definition parseReturnTypes (returnStr language : string) : list string :=
  let returnStr := strings.TrimSpace returnStr in
  if String.eqb returnStr "" then []
  else if String.eqb language "go" then
    if strings.HasPrefix returnStr "(" && strings.HasSuffix returnStr ")" then
      let inner := String.substring 1 (String.length returnStr - 2) returnStr in
      map strings.TrimSpace (strings.Split inner ",")
    else [returnStr]
  else [returnStr].

(** *** Members of a struct or class *)

Definition extractField (line : string) : string :=
  if strings.HasPrefix line "//" || strings.HasPrefix line "/*" ||
     String.eqb (strings.TrimSpace line) ""
  then ""
  else
    let idx := strings.Index line "//" in
    let line := if idx >=? 0 then String.substring 0 (Z.to_nat idx) line
                else line in
    let line := strings.TrimSpace line in
    match strings.Fields line with
    | [] => ""
    | part :: _ =>
        let fieldName := strings.Trim part ":," in
        if negb (String.eqb fieldName "{") &&
           negb (String.eqb fieldName "}") &&
           negb (String.eqb fieldName "struct") &&
           negb (String.eqb fieldName "class")
        then fieldName else ""
    end.

(** The loop of [extractMembers] over the lines from index [i] on: the
    fields found and the end line, if the block closes. *)
Fixpoint membersFrom (rest : list string) (i : Z) (insideBlock : bool)
         (braceCount : Z) : list HeaderElement * option Z :=
  match rest with
  | [] => ([], None)
  | raw :: rest' =>
      let line := strings.TrimSpace raw in
      let insideBlock := insideBlock || strings.Contains line "{" in
      if insideBlock then
        let braceCount :=
          braceCount + (strings.Count line "{" - strings.Count line "}") in
        let field :=
          if strings.Contains line ":" || strings.Contains line " "
          then extractField line else "" in
        let found := if nonEmpty field then [newHeader Field field (i + 1)]
                     else [] in
        if braceCount =? 0 then (found, Some (i + 1))
        else
          let '(more, endLine) := membersFrom rest' (i + 1) true braceCount in
          (found ++ more, endLine)
      else membersFrom rest' (i + 1) false braceCount
  end.

Definition extractMembers (header : HeaderElement) (startLine : Z)
           (lines : list string) : HeaderElement :=
  if startLine >=? Z.of_nat (List.length lines) then header
  else
    let '(fields, endLine) :=
      membersFrom (skipn (Z.to_nat (startLine - 1)) lines) (startLine - 1)
                  false 0 in
    let header := withChildren header (Children header ++ fields) in
    match endLine with
    | Some n => withEndLine header n
    | None => header
    end.

(** *** [CollectHeaders] *)

(** The variables of [CollectHeaders] that live across lines. *)
Record scanState : Type := mkScanState {
  headers : list HeaderElement;
  currentBlock : option HeaderElement;
  inImportBlock : bool;
  braceCount : Z;
  currentClass : string
}.

Definition initialState : scanState :=
  {| headers := []; currentBlock := None; inImportBlock := false;
     braceCount := 0; currentClass := "" |}.

(** [matches[g]] when the rule names the group [g] and the match has it. *)
Definition group (g : nat) (matches : list string) : option string :=
  if (0 <? g)%nat && (g <? List.length matches)%nat
  then Some (List.nth g matches "") else None.

Definition orElse (o : option string) (d : string) : string :=
  match o with
  | Some s => s
  | None => d
  end.

(** The children of a Python import statement. *)
Definition pythonImportChild (moduleFrom : string) (lineNum : Z)
           (item : string) : list HeaderElement :=
  let item := strings.TrimSpace item in
  let child (name alias : string) :=
    {| Type_ := Import; Name := name; LineNum := lineNum;
       Signature := alias; Scope := ""; Parent := moduleFrom;
       Children := []; EndLine := 0; Parameters := []; ReturnTypes := [];
       ValueType := ""; Value := "" |} in
  if nonEmpty moduleFrom && String.eqb item "*" then [child "*" ""]
  else if strings.Contains item " as " then
    let parts := strings.Split item " as " in
    [child (strings.TrimSpace (List.nth 0 parts ""))
           (strings.TrimSpace (List.nth 1 parts ""))]
  else if nonEmpty item then [child item ""]
  else [].

(** The value of a constant or variable: the third group without a
    trailing comment. *)
Definition valueOf (text : string) : string :=
  let value := strings.TrimSpace text in
  let idx := strings.Index value "//" in
  if idx >=? 0
  then strings.TrimSpace (String.substring 0 (Z.to_nat idx) value)
  else value.

(** The header that a matching rule yields, before the members of a struct
    or class are added. *)
Definition buildHeader (language : string) (pattern : LanguagePattern)
           (matches : list string) (trimmedLine : string) (lineNum : Z)
           (currentClass : string) : HeaderElement :=
  let type := ElementType pattern in
  let name := List.nth (NameGroup pattern) matches "" in
  let signature := orElse (group (SignatureGroup pattern) matches) trimmedLine in
  let scope := orElse (group (ScopeGroup pattern) matches) "" in
  let parent := orElse (group (ParentGroup pattern) matches) "" in
  let parent :=
    if String.eqb language "python" && HeaderType_eqb type Method &&
       String.eqb parent "" && nonEmpty currentClass
    then currentClass else parent in
  let parameters :=
    match group (ParamsGroup pattern) matches with
    | Some text => parseParametersWithTypes text language
    | None => []
    end in
  let returns :=
    match group (ReturnsGroup pattern) matches with
    | Some text => parseReturnTypes text language
    | None => []
    end in
  let children :=
    if String.eqb language "python" && HeaderType_eqb type Import
    then flat_map (pythonImportChild parent lineNum) (strings.Split name ",")
    else [] in
  let isValue := HeaderType_eqb type Constant || HeaderType_eqb type Variable_ in
  let valueType :=
    if isValue && (2 <? List.length matches)%nat
    then List.nth 2 matches "" else "" in
  let value :=
    if isValue && (3 <? List.length matches)%nat &&
       nonEmpty (List.nth 3 matches "")
    then valueOf (List.nth 3 matches "") else "" in
  {| Type_ := type; Name := name; LineNum := lineNum;
     Signature := signature; Scope := scope; Parent := parent;
     Children := children; EndLine := 0; Parameters := parameters;
     ReturnTypes := returns; ValueType := valueType; Value := value |}.

(** Whether a rule matches the line: [len(matches) > NameGroup] and
    [NameGroup > 0]. *)
Definition ruleMatches (pattern : LanguagePattern) (matches : list string)
  : bool :=
  (NameGroup pattern <? List.length matches)%nat && (0 <? NameGroup pattern)%nat.

(** The loop over the rules for one line.  A header that opens an import
    block is kept in [currentBlock] and the loop goes on with the next
    rule; any other header is appended to the result and ends the loop. *)
Fixpoint tryPatterns (language : string) (lines : list string)
         (trimmedLine : string) (lineNum : Z)
         (patterns : list LanguagePattern) (st : scanState) : scanState :=
  match patterns with
  | [] => st
  | pattern :: rest =>
      let matches := regexp.FindStringSubmatch (Pattern pattern) trimmedLine in
      if ruleMatches pattern matches then
        let header := buildHeader language pattern matches trimmedLine
                                  lineNum (currentClass st) in
        let class :=
          if String.eqb language "python" &&
             HeaderType_eqb (ElementType pattern) Class
          then Name header else currentClass st in
        if HeaderType_eqb (Type_ header) Import &&
           String.eqb (List.nth 0 matches "") "import ("
        then
          tryPatterns language lines trimmedLine lineNum rest
                      {| headers := headers st;
                         currentBlock := Some header;
                         inImportBlock := true;
                         braceCount := braceCount st;
                         currentClass := class |}
        else
          let header :=
            if HeaderType_eqb (Type_ header) Struct ||
               HeaderType_eqb (Type_ header) Class
            then extractMembers header lineNum lines else header in
          {| headers := headers st ++ [header];
             currentBlock := currentBlock st;
             inImportBlock := inImportBlock st;
             braceCount := braceCount st;
             currentClass := class |}
      else tryPatterns language lines trimmedLine lineNum rest st
  end.

(** The lines that the comment filter passes over. *)
Definition skipped (trimmedLine : string) : bool :=
  String.eqb trimmedLine "" ||
  strings.HasPrefix trimmedLine "//" ||
  strings.HasPrefix trimmedLine "#" ||
  strings.HasPrefix trimmedLine "/*".

Definition quoteCutset : string :=
  String " " (String (strings.byte 9) (String (strings.byte 34) "")).

Definition blankCutset : string := String " " (String (strings.byte 9) "").

(** A line inside an import block. *)
Definition importBlockLine (trimmedLine : string) (lineNum : Z)
           (st : scanState) : scanState :=
  if String.eqb trimmedLine ")" then
    match currentBlock st with
    | Some block =>
        {| headers := headers st ++ [withEndLine block lineNum];
           currentBlock := None; inImportBlock := false;
           braceCount := braceCount st; currentClass := currentClass st |}
    | None =>
        {| headers := headers st; currentBlock := None;
           inImportBlock := false;
           braceCount := braceCount st; currentClass := currentClass st |}
    end
  else if negb (strings.HasPrefix trimmedLine "//") && nonEmpty trimmedLine
  then
    let importName := strings.Trim trimmedLine quoteCutset in
    match currentBlock st with
    | Some block =>
        {| headers := headers st;
           currentBlock :=
             Some (withChildren block
                     (Children block ++ [newHeader Import importName lineNum]));
           inImportBlock := true;
           braceCount := braceCount st; currentClass := currentClass st |}
    | None => st
    end
  else st.

(** The body of the scanning loop for the line [line] with number
    [lineNum]. *)
Definition scanLine (language : string) (patterns : list LanguagePattern)
           (lines : list string) (st : scanState) (lineNum : Z)
           (line : string) : scanState :=
  let trimmedLine := strings.TrimSpace line in
  if skipped trimmedLine then st
  else
    let class :=
      if String.eqb language "python" &&
         (strings.len line - strings.len (strings.TrimLeft line blankCutset)
          =? 0) &&
         nonEmpty trimmedLine
      then "" else currentClass st in
    let st :=
      {| headers := headers st; currentBlock := currentBlock st;
         inImportBlock := inImportBlock st;
         braceCount := braceCount st +
                       (strings.Count trimmedLine "{" -
                        strings.Count trimmedLine "}");
         currentClass := class |} in
    if inImportBlock st then importBlockLine trimmedLine lineNum st
    else tryPatterns language lines trimmedLine lineNum patterns st.

(** The scanning loop: [lineNum] counts the lines read so far. *)
Fixpoint scanAll (language : string) (patterns : list LanguagePattern)
         (lines : list string) (st : scanState) (lineNum : Z)
         (scanned : list string) : scanState :=
  match scanned with
  | [] => st
  | line :: rest =>
      scanAll language patterns lines
              (scanLine language patterns lines st (lineNum + 1) line)
              (lineNum + 1) rest
  end.

(** The headers that a file with the given content yields, and whether
    the scanner stopped with an error. *)
Definition collectFrom (language content : string)
  : list HeaderElement * bool :=
  let lines := strings.Split content strings.newline in
  let '(scanned, stopped) := bufio.scanLines content in
  (headers (scanAll language (patternsFor language) lines initialState 0
                    scanned),
   stopped).

Definition CollectHeaders (fs : FileSystem) (path : string)
  : result (list HeaderElement) :=
  match fs path with
  | Missing => Err "failed to open file"
  | Unreadable => Err "failed to read file for block processing"
  | Readable content =>
      let '(found, stopped) := collectFrom (DetectLanguage path) content in
      if stopped then Err "error scanning file" else Ok found
  end.

(** *** Statements about [CollectHeaders] *)

(** No rule of the language matches any line of the text. *)
Definition noLineMatches (language content : string) : bool :=
  forallb
    (fun line =>
       forallb
         (fun pattern =>
            negb (ruleMatches pattern
                    (regexp.FindStringSubmatch (Pattern pattern)
                                               (strings.TrimSpace line))))
         (patternsFor language))
    (map bufio.dropCR (bufio.linesOf content)).

(** No rule of [patterns] matches the line. *)
Definition unmatched (patterns : list LanguagePattern) (line : string) : Prop :=
  forall pattern, In pattern patterns ->
    ruleMatches pattern
      (regexp.FindStringSubmatch (Pattern pattern) (strings.TrimSpace line))
    = false.

(** A file system that holds one file, whatever the path. *)
Definition oneFile (content : string) : FileSystem := fun _ => Readable content.

Fixpoint repeatByte (c : ascii) (n : nat) : string :=
  match n with
  | O => ""
  | S k => String c (repeatByte c k)
  end.

(** A text of one line of 65536 bytes. *)
Definition longLine : string := repeatByte "x" (Z.to_nat bufio.MaxScanTokenSize).

(** The Go line of the scenario of the specification. *)
Definition saveMethodLine : string :=
  "func (r *Repo) Save(id int, name string) (bool, error) {".

(** A line of C that holds a define directive after other text. *)
Definition defineAfterText : string := "x #define FOO 1".

(** [h] stems from a line of the text that the comment filter lets through
    and that a rule of the language matches. *)
Definition fromRule (language : string) (scanned : list string)
           (h : HeaderElement) : Prop :=
  exists line pattern,
    1 <= LineNum h /\
    nth_error scanned (Z.to_nat (LineNum h - 1)) = Some line /\
    skipped (strings.TrimSpace line) = false /\
    In pattern (patternsFor language) /\
    ElementType pattern = Type_ h /\
    ruleMatches pattern
      (regexp.FindStringSubmatch (Pattern pattern) (strings.TrimSpace line))
    = true.

(** Every header collected so far, and the open import block if there is
    one, stems from a line that passed the filter and matched a rule. *)
Definition originInv (language : string) (scanned : list string)
           (st : scanState) : Prop :=
  Forall (fromRule language scanned) (headers st) /\
  (forall block, currentBlock st = Some block ->
                 fromRule language scanned block).

(** The header that [defineAfterText] yields. *)
Definition defineAfterTextHeader : HeaderElement :=
  {| Type_ := Define; Name := "FOO"; LineNum := 1;
     Signature := defineAfterText; Scope := ""; Parent := "";
     Children := []; EndLine := 0; Parameters := []; ReturnTypes := [];
     ValueType := ""; Value := "" |}.

(** A line of a Markdown file, a language without rules in the registry,
    and the header that the default rules yield for it. *)
Definition functionInText : string := "function foo(".

Definition functionInTextHeader : HeaderElement :=
  {| Type_ := Function; Name := "foo"; LineNum := 1;
     Signature := functionInText; Scope := ""; Parent := "";
     Children := []; EndLine := 0; Parameters := []; ReturnTypes := [];
     ValueType := ""; Value := "" |}.

(** The Define rule of the C rules. *)
Definition defineRule : LanguagePattern :=
  rule Define "#define\s+([A-Za-z0-9_]+)" 1 0 0 0 0 0.

(** A byte that is no ASCII white space. *)
Definition wordByte (c : ascii) : bool := negb (strings.isAsciiSpace c).

(** A word: a non-empty string without ASCII white space. *)
Definition isWord (s : string) : Prop :=
  s <> "" /\ strings.allBytes wordByte s = true.

(** The header of the Python line [import os]. *)
Definition importOsHeader : HeaderElement :=
  {| Type_ := Import; Name := "os"; LineNum := 1;
     Signature := "import os"; Scope := ""; Parent := "";
     Children := [newHeader Import "os" 1]; EndLine := 0;
     Parameters := []; ReturnTypes := []; ValueType := ""; Value := "" |}.

(** The Method rule of the Python rules. *)
Definition pythonMethodRule : LanguagePattern :=
  rule Method
    "^\s+def\s+([A-Za-z0-9_]+)\s*\((self|cls)(?:,\s*(.*?))?\)(?:\s*->\s*([A-Za-z0-9_\[\],\s\.]+))?:"
    1 0 0 0 3 4.

(** An indented Python method definition, and the header it yields. *)
Definition indentedDef : string := "    def area(self):".

Definition indentedDefHeader : HeaderElement :=
  {| Type_ := Function; Name := "area"; LineNum := 1;
     Signature := "def area(self):"; Scope := ""; Parent := "";
     Children := []; EndLine := 0;
     Parameters := [ {| ParamName := "self"; ParamType := "" |} ];
     ReturnTypes := []; ValueType := ""; Value := "" |}.

(** [byLine a b]: [a] is on a line no later than [b]. *)
Definition byLine (a b : HeaderElement) : Prop := LineNum a <= LineNum b.

(** The headers collected up to line [n] are in line order, and an open
    import block is on a line no earlier than any of them. *)
Definition orderInv (n : Z) (st : scanState) : Prop :=
  StronglySorted byLine (headers st) /\
  Forall (fun h => LineNum h <= n) (headers st) /\
  (forall block, currentBlock st = Some block ->
     inImportBlock st = true /\ LineNum block <= n /\
     Forall (fun h => LineNum h <= LineNum block) (headers st)).

(** A Python file of a class with one method, and its headers. *)
Definition shapeFile : string :=
  ("class Shape:" ++ strings.newline ++
   "    def area(self):" ++ strings.newline)%string.

Definition shapeHeaders : list HeaderElement :=
  [ {| Type_ := Class; Name := "Shape"; LineNum := 1;
       Signature := "class Shape:"; Scope := ""; Parent := "";
       Children := []; EndLine := 0; Parameters := [];
       ReturnTypes := []; ValueType := ""; Value := "" |};
    {| Type_ := Function; Name := "area"; LineNum := 2;
       Signature := "def area(self):"; Scope := ""; Parent := "";
       Children := []; EndLine := 0;
       Parameters := [ {| ParamName := "self"; ParamType := "" |} ];
       ReturnTypes := []; ValueType := ""; Value := "" |} ].

(** What a child [c] of a reported header [h] looks like: it has no
    children of its own, and it is either a field of a struct or class,
    on a line from the line of [h] to its end line (when the end was
    found), or an import under an import. *)
Definition childOf (h c : HeaderElement) : Prop :=
  Children c = [] /\
  ((Type_ c = Field /\ (Type_ h = Struct \/ Type_ h = Class) /\
    Name c <> "" /\ LineNum h <= LineNum c /\
    (EndLine h <> 0 -> LineNum c <= EndLine h)) \/
   (Type_ c = Import /\ Type_ h = Import)).

(** Every header collected so far, and the open import block if there is
    one, has children of this kind only. *)
Definition childInv (st : scanState) : Prop :=
  Forall (fun h => Forall (childOf h) (Children h)) (headers st) /\
  (forall block, currentBlock st = Some block ->
     Type_ block = Import /\ Forall (childOf block) (Children block)).

(** A Go struct of two fields, and its header. *)
Definition pointFile : string :=
  ("type Point struct {" ++ strings.newline ++
   "    X int" ++ strings.newline ++
   "    Y int" ++ strings.newline ++
   "}" ++ strings.newline)%string.

Definition pointHeader : HeaderElement :=
  {| Type_ := Struct; Name := "Point"; LineNum := 1;
     Signature := "type Point struct {"; Scope := ""; Parent := "";
     Children := [ newHeader Field "type" 1; newHeader Field "X" 2;
                   newHeader Field "Y" 3 ];
     EndLine := 4; Parameters := [];
     ReturnTypes := []; ValueType := ""; Value := "" |}.

(** A Go struct on the only line of a file without a final line feed. *)
Definition oneLineStruct : string := "type T struct { X int }".

(** A byte that is neither a dot nor a slash. *)
Definition plainExtByte (c : ascii) : bool :=
  negb (Ascii.eqb c "." || Ascii.eqb c "/").

(** An extension: a dot and then bytes that are neither dots nor slashes. *)
Definition isExtension (s : string) : bool :=
  match s with
  | String c e => Ascii.eqb c "." && strings.allBytes plainExtByte e
  | EmptyString => false
  end.

(** *** [ReadFiles] *)

Record FileContent : Type := mkFileContent {
  Path : string;
  Content : string;
  Language : string
}.

(** The loop of [ReadFiles]; [results] holds the files read so far. *)
Fixpoint readLoop (fs : FileSystem) (results : list FileContent)
         (paths : list string) : result (list FileContent) :=
  match paths with
  | [] => Ok results
  | path :: paths' =>
      match fs path with
      | Readable data =>
          readLoop fs
            (results ++ [{| Path := path; Content := data;
                            Language := DetectLanguage path |}])
            paths'
      | _ => Err "read failed"
      end
  end.

Definition ReadFiles (fs : FileSystem) (paths : list string)
  : result (list FileContent) :=
  readLoop fs [] paths.

(** The entry of [ReadFiles] for a path with the given content. *)
Definition fileOf (fs : FileSystem) (path : string) : FileContent :=
  {| Path := path;
     Content := match fs path with
                | Readable data => data
                | _ => ""
                end;
     Language := DetectLanguage path |}.

Definition readable (fs : FileSystem) (path : string) : bool :=
  match fs path with
  | Readable _ => true
  | _ => false
  end.

(** *** [FormatHeaders] *)

(** The text of a [HeaderType], as [%s] prints it. *)
Definition typeName (t : HeaderType) : string :=
  match t with
  | Function => "Function" | Method => "Method" | Class => "Class"
  | Interface => "Interface" | Variable_ => "Variable"
  | Constant => "Constant" | Import => "Import" | Field => "Field"
  | Enum => "Enum" | Struct => "Struct" | Package => "Package"
  | Namespace => "Namespace" | Module => "Module" | Define => "Define"
  end.

Definition formatParam (p : ParameterInfo) : string :=
  if nonEmpty (ParamType p) then
    if nonEmpty (ParamName p)
    then (ParamName p ++ " " ++ ParamType p)%string
    else ParamType p
  else ParamName p.

(** The signature of a function or method. *)
Definition formatSignature (header : HeaderElement) : string :=
  ((if nonEmpty (Parent header)
    then Parent header ++ "." ++ Name header ++ "("
    else Name header ++ "(") ++
   strings.Join (map formatParam (Parameters header)) ", " ++
   ")" ++
   match ReturnTypes header with
   | [] => ""
   | [returns] => " " ++ returns
   | returns => " (" ++ strings.Join returns ", " ++ ")"
   end)%string.

(** The start of the line of a header: [Line n: Scope Type: ] or
    [Line n: Type: ]. *)
Definition linePrefix (header : HeaderElement) : string :=
  (if nonEmpty (Scope header)
   then "Line " ++ Itoa (LineNum header) ++ ": " ++ Scope header ++ " " ++
        typeName (Type_ header) ++ ": "
   else "Line " ++ Itoa (LineNum header) ++ ": " ++
        typeName (Type_ header) ++ ": ")%string.

Definition formatImportChild (child : HeaderElement) : string :=
  (if nonEmpty (Parent child) then
     if nonEmpty (Signature child)
     then "    from " ++ Parent child ++ " import " ++ Name child ++
          " as " ++ Signature child ++ strings.newline
     else "    from " ++ Parent child ++ " import " ++ Name child ++
          strings.newline
   else
     if nonEmpty (Signature child)
     then "    import " ++ Name child ++ " as " ++ Signature child ++
          strings.newline
     else "    import " ++ Name child ++ strings.newline)%string.

(** What [FormatHeaders] writes for one header. *)
Definition formatHeader (header : HeaderElement) : string :=
  match Type_ header with
  | Function | Method =>
      (linePrefix header ++ formatSignature header ++ strings.newline)%string
  | Constant | Variable_ =>
      let valueInfo :=
        (if nonEmpty (ValueType header) && nonEmpty (Value header)
         then ValueType header ++ " = " ++ Value header
         else if nonEmpty (ValueType header) then ValueType header
         else if nonEmpty (Value header) then "= " ++ Value header
         else Name header)%string in
      (linePrefix header ++ Name header ++ " " ++ valueInfo ++
       strings.newline)%string
  | Import =>
      ("Line " ++ Itoa (LineNum header) ++ ": " ++
       typeName (Type_ header) ++ ":" ++ strings.newline ++
       match Children header with
       | [] => "    " ++ Name header ++ strings.newline
       | children => String.concat "" (map formatImportChild children)
       end)%string
  | Struct | Class =>
      (linePrefix header ++ Name header ++ strings.newline ++
       String.concat ""
         (map (fun child => "    " ++ Name child ++ strings.newline)
              (Children header)))%string
  | _ => (linePrefix header ++ Name header ++ strings.newline)%string
  end.

Definition FormatHeaders (headers : list HeaderElement) : string :=
  String.concat "" (map formatHeader headers).

Definition noHeaders : string := "No headers found.".

Definition CollectHeadersAsString (fs : FileSystem) (path : string)
  : result string :=
  match CollectHeaders fs path with
  | Err err => Err err
  | Ok headers =>
      if Z.of_nat (List.length headers) =? 0 then Ok noHeaders
      else Ok (FormatHeaders headers)
  end.

End finder.

(* ================================================================= *)
(** ** The part of package [search] that uses package [finder] *)

Module searchFiles.

Record SearchFile : Type := mkSearchFile {
  Path : string;
  Language : string;
  Snippets : list search.CodeSnippet
}.

(** The loop of [SearchInFiles] over the files that are left, over the
    package [regexp] given by [compile]; [result] is [result.Files].  The
    function returns the files gathered and the error, if one stopped it;
    [None] is a panic of [searchInFile]. *)
Fixpoint searchLoop (compile : search.Compiler) (fs : FileSystem)
         (pattern : string) (opts : search.Options)
         (result : list SearchFile) (files : list string)
  : option (list SearchFile * option string) :=
  match files with
  | [] => Some (result, None)
  | file :: files' =>
      match search.searchInFileWith compile fs file pattern opts with
      | None => None
      | Some (Err err) => Some (result, Some err)
      | Some (Ok snippets) =>
          if Z.of_nat (List.length snippets) >? 0 then
            searchLoop compile fs pattern opts
              (result ++
               [{| Path := file;
                   Language := finder.DetectLanguage file;
                   Snippets := search.mergeOverlappingSnippets snippets |}])
              files'
          else searchLoop compile fs pattern opts result files'
      end
  end.

Definition SearchInFilesWith (compile : search.Compiler) (fs : FileSystem)
           (files : list string) (pattern : string) (opts : search.Options)
  : option (list SearchFile * option string) :=
  searchLoop compile fs pattern opts [] files.

(** [SearchInFiles] over the modelled package. *)
Definition SearchInFiles : FileSystem -> list string -> string ->
                           search.Options ->
                           option (list SearchFile * option string) :=
  SearchInFilesWith search.regexpCompiler.

(** The lines of a file, as [searchInFile] reads them. *)
Definition linesOfFile (fs : FileSystem) (path : string) : list string :=
  match fs path with
  | Readable data => fst (bufio.scanLines data)
  | _ => []
  end.

(** [inFile n s]: the snippet [s] is a non-empty range of lines of a file
    of [n] lines. *)
Definition inFile (n : Z) (s : search.CodeSnippet) : Prop :=
  1 <= search.StartLine s /\ search.StartLine s <= search.EndLine s /\
  search.EndLine s <= n.

(** The condition under which [extractSnippet] builds the snippet of the
    match on line [i] (counted from 0): the whole-function mode, or a
    number of context lines that is not negative and that can be added to
    [i] within the range of [int]. *)
Definition contextFits (opts : search.Options) (i : Z) : Prop :=
  search.EntireFunction opts = true \/
  (0 <= search.ContextLines opts /\ i + search.ContextLines opts <= maxInt).

(** A file of ten lines with matches of [Save] on its lines 1, 2 and 10, and
    what a search for [Save] without context lines gives for it. *)
Definition savesFile : string :=
  ("Save" ++ strings.newline ++ "Save()" ++ strings.newline ++
   "a" ++ strings.newline ++ "b" ++ strings.newline ++
   "c" ++ strings.newline ++ "d" ++ strings.newline ++
   "e" ++ strings.newline ++ "f" ++ strings.newline ++
   "g" ++ strings.newline ++ "Save!" ++ strings.newline)%string.

Definition savesFound : list SearchFile :=
  [ {| Path := "a.go"; Language := "go";
       Snippets :=
         [ {| search.StartLine := 1; search.EndLine := 2;
              search.Content := ("Save" ++ strings.newline ++ "Save()")%string;
              search.MatchInfo := "Multiple matches between lines 1-2" |};
           {| search.StartLine := 10; search.EndLine := 10;
              search.Content := "Save!";
              search.MatchInfo := "Match at line 10" |} ] |} ].

End searchFiles.

(* ================================================================= *)
(** ** The part of package [output] that uses [finder] and [search] *)

Module outputFormat.

(** [FormatFiles]: each file in a code fence that names its language and
    its path. *)
Definition formatFile (file : finder.FileContent) : string :=
  ("```" ++ finder.Language file ++ " filename=" ++ finder.Path file ++
   strings.newline ++ finder.Content file ++ strings.newline ++
   "```" ++ strings.newline ++ strings.newline)%string.

Definition FormatFiles (files : list finder.FileContent) : string :=
  String.concat "" (map formatFile files).

Record Stats : Type := mkStats {
  FileCount : Z;
  SnippetCount : Z;
  CharCount : Z;
  LineCount : Z;
  EstimatedTokens : Z
}.

Definition CalculateStats (content : string) : Stats :=
  let charCount := strings.len content in
  {| FileCount := 0;
     SnippetCount := Z.quot (strings.Count content "```") 2;
     CharCount := charCount;
     LineCount := strings.Count content strings.newline + 1;
     EstimatedTokens := Z.quot (charCount + 3) 4 |}.

(** The conversion of the snippets of a file at the start of
    [FormatSearchResults]. *)
Definition formattingOf (file : searchFiles.SearchFile)
           (snippet : search.CodeSnippet) : output.formattingSnippet :=
  {| output.StartLine := search.StartLine snippet;
     output.EndLine := search.EndLine snippet;
     output.Content := search.Content snippet;
     output.Language := searchFiles.Language file;
     output.Path := searchFiles.Path file |}.

(** The snippets that [FormatSearchResults] writes for a file whose path
    no other file of the result has: the merged snippets of the file. *)
Definition snippetsToWrite (file : searchFiles.SearchFile)
  : list output.formattingSnippet :=
  output.mergeFormattingSnippets
    (map (formattingOf file) (searchFiles.Snippets file)).

(** What [FormatSearchResults] writes for one snippet. *)
Definition formatSnippet (snippet : output.formattingSnippet) : string :=
  ("```" ++ output.Language snippet ++ " filename=" ++ output.Path snippet ++
   " (lines " ++ Itoa (output.StartLine snippet) ++ "-" ++
   Itoa (output.EndLine snippet) ++ ")" ++ strings.newline ++
   output.Content snippet ++ strings.newline ++
   "```" ++ strings.newline ++ strings.newline)%string.

(** A byte other than the backquote. *)
Definition notBackquote (c : ascii) : bool := negb (Ascii.eqb c "`").

(** A file without a backquote in its language, path and content. *)
Definition fenceFree (file : finder.FileContent) : Prop :=
  strings.allBytes notBackquote (finder.Language file) = true /\
  strings.allBytes notBackquote (finder.Path file) = true /\
  strings.allBytes notBackquote (finder.Content file) = true.

End outputFormat.

(* ================================================================= *)
(** ** Package [template] *)

Module template.

Record Parser : Type := mkParser {
  BasePath : string
}.

(** What the parser sees of the machine: the files; for a path that
    cannot be opened, whether it does not exist ([os.IsNotExist]); the text
    of the error of a path that cannot be read; and the answer of
    [finder.FindFilesByGlob], which walks the directory tree. *)
Record World : Type := mkWorld {
  files : FileSystem;
  notExist : string -> bool;
  errorText : string -> string;
  FindFilesByGlob : string -> string -> result (list string)
}.

(** The expression of the tags. *)
Definition tagPattern : regexp.compiled := regexp.MustCompile "{{([^}]+)}}".

Definition resolveFile (w : World) (p : Parser) (filePath : string)
  : result string :=
  let fullPath :=
    if strings.HasPrefix filePath "/" then filePath
    else (BasePath p ++ "/" ++ filePath)%string in
  match files w fullPath with
  | Readable content =>
      Ok ("```" ++ finder.DetectLanguage filePath ++ strings.newline ++
          content ++ strings.newline ++ "```")%string
  | Unreadable => Err (errorText w fullPath)
  | Missing =>
      if notExist w fullPath then Ok "" else Err (errorText w fullPath)
  end.

(** The error of [finder.ReadFiles]: that of the first path that cannot
    be read. *)
Definition readError (w : World) (paths : list string) : string :=
  match List.find (fun path => negb (finder.readable (files w) path)) paths with
  | Some path => errorText w path
  | None => ""
  end.

Definition resolveGlob (w : World) (p : Parser) (pattern : string)
  : result string :=
  match FindFilesByGlob w (BasePath p) pattern with
  | Err err => Err err
  | Ok found =>
      if Z.of_nat (List.length found) =? 0 then Ok ""
      else
        match finder.ReadFiles (files w) found with
        | Err _ => Err (readError w found)
        | Ok fileContents => Ok (outputFormat.FormatFiles fileContents)
        end
  end.

Definition resolveTag (w : World) (p : Parser) (tag : string)
  : result string :=
  if strings.Contains tag "*" then resolveGlob w p tag
  else resolveFile w p tag.

(** What replaces a tag: its content, or a comment with the error. *)
Definition replacementOf (w : World) (p : Parser) (content : string)
  : string :=
  match resolveTag w p content with
  | Ok replacement => replacement
  | Err err =>
      ("<!-- Failed to resolve " ++ content ++ ": " ++ err ++ " -->")%string
  end.

(** The loop over the tags of a line. *)
Fixpoint replaceTags (w : World) (p : Parser) (line : string)
         (processedLine : string) (matches : list (list string)) : string :=
  match matches with
  | [] => processedLine
  | match_ :: matches' =>
      let fullTag := List.nth 0 match_ "" in
      let content := strings.TrimSpace (List.nth 1 match_ "") in
      let replacement := replacementOf w p content in
      replaceTags w p line
        (if String.eqb fullTag line then replacement
         else strings.Replace1 processedLine fullTag replacement)
        matches'
  end.

(** What [ProcessReader] writes for one line. *)
Definition processLine (w : World) (p : Parser) (line : string) : string :=
  let matches := regexp.FindAllStringSubmatch tagPattern line in
  if Z.of_nat (List.length matches) =? 0 then (line ++ strings.newline)%string
  else
    let processedLine := replaceTags w p line line matches in
    if strings.HasSuffix processedLine strings.newline then processedLine
    else (processedLine ++ strings.newline)%string.

(** [ProcessReader] on a reader that delivers [content]. *)
Definition ProcessReader (w : World) (p : Parser) (content : string)
  : result string :=
  let '(lines, stopped) := bufio.scanLines content in
  if stopped then Err "error reading template: bufio.Scanner: token too long"
  else Ok (String.concat "" (map (processLine w p) lines)).

Definition Process (w : World) (p : Parser) (templatePath : string)
  : result string :=
  match files w templatePath with
  | Missing =>
      Err ("failed to open template file: " ++ errorText w templatePath)
  | Unreadable =>
      Err ("error reading template: " ++ errorText w templatePath)
  | Readable content => ProcessReader w p content
  end.

(** A byte other than the opening brace. *)
Definition notBrace (c : ascii) : bool := negb (Ascii.eqb c "{").

(** A line that the scanner hands on as it is and that holds no tag: it
    fits the buffer, does not end in a carriage return and has no opening
    brace. *)
Definition plainLine (line : string) : Prop :=
  bufio.tooLong line = false /\
  bufio.dropCR line = line /\
  strings.allBytes notBrace line = true.

(** The text with a line feed after its last line. *)
Definition withFinalNewline (content : string) : string :=
  if String.eqb content "" || strings.HasSuffix content strings.newline
  then content else (content ++ strings.newline)%string.

(** A world with one file, [a.go], under the base path [src]. *)
Definition smallWorld : World :=
  {| files := fun path =>
                if String.eqb path "src/a.go" then Readable "package a"
                else Missing;
     notExist := fun _ => true;
     errorText := fun _ => "no such file or directory";
     FindFilesByGlob := fun _ _ => Ok [] |}.

(** A byte other than the closing brace. *)
Definition notClose (c : ascii) : bool := negb (Ascii.eqb c "}").

(** The line that is the tag with the given text between the braces. *)
Definition tagLine (name : string) : string := ("{{" ++ name ++ "}}")%string.

(** The position after the text [x] that starts at offset [off] after the
    byte [prev] and is followed by [y]. *)
Fixpoint cursorAfter (prev : option ascii) (x y : string) (off : nat)
  : regexp.cursor :=
  match x with
  | EmptyString =>
      {| regexp.before := prev; regexp.after := y; regexp.offset := off |}
  | String c x' => cursorAfter (Some c) x' y (S off)
  end.

End template.

(* ================================================================= *)
(** ** Properties of [sortSlice] for a comparison of integer keys *)

Section SortSliceFacts.
Context {A : Type} (key : A -> Z).

Let less (a b : A) : bool := key a <? key b.
Let asc (a b : A) : Prop := key a <= key b.
Let desc (a b : A) : Prop := key b <= key a.

Lemma insertBack_perm (x : A) (before : list A) :
  Permutation (insertBack less x before) (x :: before).
Proof.
  induction before as [|y before IH]; simpl.
  - apply Permutation_refl.
  - destruct (less x y).
    + eapply perm_trans; [apply perm_skip, IH | apply perm_swap].
    + apply Permutation_refl.
Qed.

Lemma fold_insertBack_perm (data before : list A) :
  Permutation (fold_left (fun b x => insertBack less x b) data before)
              (rev data ++ before).
Proof.
  revert before.
  induction data as [|x data IH]; intros before; simpl.
  - apply Permutation_refl.
  - eapply perm_trans; [apply IH|].
    rewrite <- app_assoc. simpl.
    apply Permutation_app_head, insertBack_perm.
Qed.

Lemma sortSlice_perm (data : list A) :
  Permutation (sortSlice less data) data.
Proof.
  unfold sortSlice.
  eapply perm_trans; [apply Permutation_sym, Permutation_rev|].
  eapply perm_trans; [apply fold_insertBack_perm|].
  rewrite app_nil_r. apply Permutation_sym, Permutation_rev.
Qed.

Lemma insertBack_desc (x : A) (before : list A) :
  StronglySorted desc before ->
  StronglySorted desc (insertBack less x before).
Proof.
  induction 1 as [|y before Hs IH Hy]; simpl.
  - repeat constructor.
  - destruct (less x y) eqn:E; unfold less in E.
    + constructor; [exact IH|].
      eapply Permutation_Forall;
        [apply Permutation_sym, insertBack_perm|].
      constructor; [unfold desc; lia | exact Hy].
    + constructor; [constructor; assumption|].
      assert (Hxy : key y <= key x) by lia.
      constructor; [exact Hxy|].
      eapply Forall_impl; [|exact Hy].
      unfold desc. intros; lia.
Qed.

Lemma fold_insertBack_desc (data before : list A) :
  StronglySorted desc before ->
  StronglySorted desc (fold_left (fun b x => insertBack less x b) data before).
Proof.
  revert before.
  induction data as [|x data IH]; intros before H; simpl.
  - exact H.
  - apply IH, insertBack_desc, H.
Qed.

Lemma StronglySorted_snoc (R : A -> A -> Prop) (l : list A) (x : A) :
  StronglySorted R l -> Forall (fun y => R y x) l ->
  StronglySorted R (l ++ [x]).
Proof.
  induction 1 as [|y l Hs IH Hy]; intros Hx; simpl.
  - repeat constructor.
  - inversion Hx; subst.
    constructor; [apply IH; assumption|].
    apply Forall_app; split; [exact Hy | repeat constructor; assumption].
Qed.

Lemma desc_rev_asc (l : list A) :
  StronglySorted desc l -> StronglySorted asc (rev l).
Proof.
  induction 1 as [|y l Hs IH Hy]; simpl.
  - constructor.
  - apply StronglySorted_snoc; [exact IH|].
    apply Forall_rev. exact Hy.
Qed.

(** The result of [sortSlice] is in non-decreasing key order. *)
Lemma sortSlice_sorted (data : list A) :
  StronglySorted asc (sortSlice less data).
Proof.
  unfold sortSlice. apply desc_rev_asc, fold_insertBack_desc. constructor.
Qed.

(** A slice that is already in non-decreasing key order is left as it is. *)
Lemma fold_insertBack_sorted (data before : list A) :
  Sorted asc (rev before ++ data) ->
  fold_left (fun b x => insertBack less x b) data before = rev data ++ before.
Proof.
  revert before.
  induction data as [|x data IH]; intros before H; simpl.
  - reflexivity.
  - assert (E : insertBack less x before = x :: before).
    { destruct before as [|y before]; [reflexivity|].
      simpl. simpl in H. rewrite <- app_assoc in H. simpl in H.
      assert (Hyx : asc y x).
      { clear IH. induction (rev before) as [|z r IHr]; simpl in H.
        - inversion H as [|? ? ? Hd]; subst. inversion Hd; subst. assumption.
        - inversion H; subst. apply IHr. assumption. }
      unfold asc in Hyx. unfold less.
      destruct (key x <? key y) eqn:E; [lia | reflexivity]. }
    rewrite E, IH.
    + rewrite <- app_assoc. reflexivity.
    + simpl. rewrite <- app_assoc. exact H.
Qed.

Lemma sortSlice_sorted_id (data : list A) :
  Sorted asc data -> sortSlice less data = data.
Proof.
  intros H. unfold sortSlice.
  rewrite fold_insertBack_sorted by exact H.
  rewrite app_nil_r. apply rev_involutive.
Qed.

(** Two lists in strictly increasing key order with the same elements are
    equal. *)
Lemma strictly_sorted_perm_eq (l1 l2 : list A) :
  StronglySorted (fun a b => key a < key b) l1 ->
  StronglySorted (fun a b => key a < key b) l2 ->
  Permutation l1 l2 -> l1 = l2.
Proof.
  intros H1. revert l2.
  induction H1 as [|a t1 Hs1 IH Ha]; intros l2 H2 HP.
  - apply Permutation_nil in HP. subst. reflexivity.
  - destruct H2 as [|b t2 Hs2 Hb].
    + apply Permutation_sym, Permutation_nil in HP. discriminate.
    + assert (Eab : a = b).
      { assert (Ia : In a (b :: t2))
          by (eapply Permutation_in; [exact HP | left; reflexivity]).
        assert (Ib : In b (a :: t1))
          by (eapply Permutation_in;
              [apply Permutation_sym; exact HP | left; reflexivity]).
        destruct Ia as [Ia|Ia]; [congruence|].
        destruct Ib as [Ib|Ib]; [congruence|].
        rewrite Forall_forall in Ha, Hb.
        specialize (Ha _ Ib). specialize (Hb _ Ia). lia. }
      subst b. f_equal. apply IH; [exact Hs2|].
      eapply Permutation_cons_inv. exact HP.
Qed.

Lemma sorted_nodup_strict (l : list A) :
  StronglySorted asc l -> NoDup (map key l) ->
  StronglySorted (fun a b => key a < key b) l.
Proof.
  induction 1 as [|a l Hs IH Ha]; intros Hn; simpl in Hn.
  - constructor.
  - inversion Hn as [|? ? Hnotin Hn']; subst.
    constructor; [apply IH; exact Hn'|].
    rewrite Forall_forall in *. intros b Hb.
    specialize (Ha b Hb). unfold asc in Ha.
    assert (key a <> key b).
    { intros E. apply Hnotin. rewrite E. apply in_map. exact Hb. }
    lia.
Qed.

(** With pairwise distinct keys the sorted slice does not depend on the
    order of the input. *)
Lemma sortSlice_perm_eq (l1 l2 : list A) :
  Permutation l1 l2 -> NoDup (map key l1) ->
  sortSlice less l1 = sortSlice less l2.
Proof.
  intros HP Hn.
  assert (P1 := sortSlice_perm l1). assert (P2 := sortSlice_perm l2).
  apply strictly_sorted_perm_eq.
  - apply sorted_nodup_strict; [apply sortSlice_sorted|].
    eapply Permutation_NoDup; [|exact Hn].
    apply Permutation_map, Permutation_sym, P1.
  - apply sorted_nodup_strict; [apply sortSlice_sorted|].
    eapply Permutation_NoDup; [|exact Hn].
    apply Permutation_map.
    eapply perm_trans; [exact HP | apply Permutation_sym, P2].
  - eapply perm_trans; [exact P1|].
    eapply perm_trans; [exact HP | apply Permutation_sym, P2].
Qed.
End SortSliceFacts.


(* ================================================================= *)
(** ** [mergeOverlappingSnippets] *)

Import search.

Lemma wrap64_id (z : Z) : isInt z -> wrap64 z = z.
Proof.
  unfold isInt, minInt, maxInt, wrap64. intros H.
  rewrite Z.mod_small; lia.
Qed.

Lemma mergeLoop_run (result : list CodeSnippet) (previous : CodeSnippet)
      (rest : list CodeSnippet) :
  mergeLoop result previous rest = result ++ mergeRun previous rest.
Proof.
  revert result previous.
  induction rest as [|current rest IH]; intros result previous; simpl.
  - reflexivity.
  - destruct (adjacent previous current).
    + apply IH.
    + rewrite IH, <- app_assoc. reflexivity.
Qed.

Lemma mergeInto_StartLine (p c : CodeSnippet) :
  StartLine (mergeInto p c) = StartLine p.
Proof.
  unfold mergeInto.
  destruct (EndLine c >? EndLine p);
    destruct (negb _); reflexivity.
Qed.

Lemma mergeInto_EndLine (p c : CodeSnippet) :
  EndLine (mergeInto p c) = Z.max (EndLine p) (EndLine c).
Proof.
  unfold mergeInto.
  destruct (EndLine c >? EndLine p) eqn:E;
    destruct (negb _); simpl; lia.
Qed.

Lemma mergeRun_head (p : CodeSnippet) (rest : list CodeSnippet) :
  exists p' tl, mergeRun p rest = p' :: tl /\ StartLine p' = StartLine p.
Proof.
  revert p.
  induction rest as [|c rest IH]; intros p; simpl.
  - exists p, []. split; reflexivity.
  - destruct (adjacent p c).
    + destruct (IH (mergeInto p c)) as (p' & tl & E & Hs).
      exists p', tl. split; [exact E|].
      rewrite Hs. apply mergeInto_StartLine.
    + exists p, (mergeRun c rest). split; reflexivity.
Qed.

(** The accepted snippets come out in start-line order. *)
Lemma mergeRun_byStart (p : CodeSnippet) (rest : list CodeSnippet) :
  StronglySorted byStart (p :: rest) -> Sorted byStart (mergeRun p rest).
Proof.
  revert p.
  induction rest as [|c rest IH]; intros p H; simpl.
  - repeat constructor.
  - inversion H as [|? ? Hrest Hp]; subst.
    inversion Hrest as [|? ? Hrest' Hc]; subst.
    inversion Hp as [|? ? Hpc Hprest]; subst.
    destruct (adjacent p c).
    + apply IH. constructor; [exact Hrest'|].
      eapply Forall_impl; [|exact Hprest].
      unfold byStart. intros a Ha. rewrite mergeInto_StartLine. exact Ha.
    + constructor; [apply IH; exact Hrest|].
      destruct (mergeRun_head c rest) as (p' & tl & E & Hs).
      rewrite E. constructor. unfold byStart in *. lia.
Qed.

(** The accepted snippets are apart, when no [EndLine + 3] overflows. *)
Lemma mergeRun_apart (p : CodeSnippet) (rest : list CodeSnippet) :
  Forall (fun s => minInt <= EndLine s <= maxInt - adjacencyBuffer) (p :: rest) ->
  Sorted apart (mergeRun p rest).
Proof.
  revert p.
  induction rest as [|c rest IH]; intros p H; simpl.
  - repeat constructor.
  - inversion H as [|? ? Hp Hrest]; subst.
    inversion Hrest as [|? ? Hc Hrest']; subst.
    destruct (adjacent p c) eqn:E.
    + apply IH. constructor; [|exact Hrest'].
      rewrite mergeInto_EndLine. lia.
    + constructor; [apply IH; exact Hrest|].
      destruct (mergeRun_head c rest) as (p' & tl & E' & Hs).
      rewrite E'. constructor. unfold apart. rewrite Hs.
      unfold adjacent in E. rewrite wrap64_id in E.
      * lia.
      * unfold isInt, adjacencyBuffer, minInt, maxInt in *. lia.
Qed.

(** On a list that already has the merged shape the loop accepts every
    snippet as it is. *)
Lemma mergeRun_merged (p : CodeSnippet) (rest : list CodeSnippet) :
  Forall wfSnippet (p :: rest) -> Sorted apart (p :: rest) ->
  mergeRun p rest = p :: rest.
Proof.
  revert p.
  induction rest as [|c rest IH]; intros p Hwf H; simpl.
  - reflexivity.
  - inversion H as [|? ? Hrest Hd]; subst. inversion Hd; subst.
    inversion Hwf as [|? ? Hp Hwf']; subst.
    inversion Hwf' as [|? ? Hc ?]; subst.
    assert (E : adjacent p c = false).
    { unfold adjacent. unfold apart, adjacencyBuffer in *.
      destruct Hp as [_ Hpe]. destruct Hc as [Hcs _].
      unfold isInt, minInt, maxInt in *.
      rewrite wrap64_id by (unfold isInt, minInt, maxInt; lia).
      lia. }
    rewrite E. f_equal. apply IH; assumption.
Qed.

Lemma mergeOverlappingSnippets_run (l : list CodeSnippet) :
  (1 < Z.of_nat (List.length l)) ->
  exists first rest,
    sortSlice lessStart l = first :: rest /\
    mergeOverlappingSnippets l = mergeRun first rest.
Proof.
  intros Hlen. unfold mergeOverlappingSnippets.
  destruct (Z.of_nat (List.length l) <=? 1) eqn:E; [lia|].
  destruct (sortSlice lessStart l) as [|first rest] eqn:Es.
  - pose proof (sortSlice_perm StartLine l) as P.
    unfold lessStart in Es. rewrite Es in P.
    apply Permutation_nil in P. subst l. simpl in Hlen. lia.
  - exists first, rest. split; [reflexivity|]. apply mergeLoop_run.
Qed.

Lemma short_list_cases {A : Type} (l : list A) :
  Z.of_nat (List.length l) <= 1 -> l = [] \/ exists a, l = [a].
Proof.
  destruct l as [|a [|b l]]; simpl; intros H.
  - left; reflexivity.
  - right; exists a; reflexivity.
  - lia.
Qed.

(** C3, as the specification states it, fails: two snippets that start on
    the same line are merged into different content in the two input
    orders. *)
Lemma merge_order_counterexample :
  Permutation [tieShort; tieLong] [tieLong; tieShort] /\
  mergeOverlappingSnippets [tieShort; tieLong] =
    [ {| StartLine := 1; EndLine := 2;
         Content := ("a" ++ strings.newline ++ "c")%string;
         MatchInfo := "m" |} ] /\
  mergeOverlappingSnippets [tieLong; tieShort] = [tieLong] /\
  mergeOverlappingSnippets [tieShort; tieLong] <>
    mergeOverlappingSnippets [tieLong; tieShort].
Proof.
  split; [apply perm_swap|].
  split; [reflexivity|].
  split; [reflexivity|].
  vm_compute. discriminate.
Qed.

(** C3, amended: for snippets with pairwise distinct start lines,
    [mergeOverlappingSnippets] returns the same output sequence on every
    ordering of the input. *)
Theorem merge_order_independent (l l' : list CodeSnippet) :
  Permutation l l' -> NoDup (map StartLine l) ->
  mergeOverlappingSnippets l = mergeOverlappingSnippets l'.
Proof.
  intros HP Hn.
  assert (El : List.length l = List.length l') by (apply Permutation_length, HP).
  unfold mergeOverlappingSnippets. rewrite <- El.
  destruct (Z.of_nat (List.length l) <=? 1) eqn:E.
  - apply Z.leb_le in E. destruct (short_list_cases l E) as [->|[a ->]].
    + apply Permutation_nil in HP. subst. reflexivity.
    + apply Permutation_length_1_inv in HP. subst. reflexivity.
  - pose proof (sortSlice_perm_eq StartLine l l' HP Hn) as Es.
    unfold lessStart. rewrite Es. reflexivity.
Qed.

Lemma merge_order_independent_witness :
  Permutation farApart (rev farApart) /\
  NoDup (map StartLine farApart) /\
  mergeOverlappingSnippets farApart = mergeOverlappingSnippets (rev farApart).
Proof.
  assert (P : Permutation farApart (rev farApart)) by apply Permutation_rev.
  assert (N : NoDup (map StartLine farApart)).
  { simpl. repeat constructor; simpl; intuition discriminate. }
  split; [exact P|]. split; [exact N|].
  exact (merge_order_independent farApart (rev farApart) P N).
Defined.

(** The shape of the output for snippets whose end lines leave room for
    the adjacency buffer: [EndLine + 3] is then computed without overflow. *)
Lemma mergeOverlappingSnippets_shape (l : list CodeSnippet) :
  Forall wfSnippet l ->
  Forall (fun s => EndLine s <= maxInt - adjacencyBuffer) l ->
  mergedShape (mergeOverlappingSnippets l).
Proof.
  intros Hwf Hb.
  destruct (Z_le_gt_dec (Z.of_nat (List.length l)) 1) as [Hs|Hl].
  - unfold mergeOverlappingSnippets.
    apply Z.leb_le in Hs. rewrite Hs. apply Z.leb_le in Hs.
    destruct (short_list_cases l Hs) as [->|[a ->]];
      split; repeat constructor.
  - destruct (mergeOverlappingSnippets_run l) as (first & rest & Es & ->);
      [lia|].
    pose proof (sortSlice_perm StartLine l) as P.
    pose proof (sortSlice_sorted StartLine l) as S.
    unfold lessStart in Es. rewrite Es in P, S.
    split.
    + apply mergeRun_byStart. exact S.
    + apply mergeRun_apart.
      eapply Permutation_Forall; [apply Permutation_sym; exact P|].
      rewrite Forall_forall in *. intros s Hin.
      destruct (Hwf s Hin) as [_ [Hlo _]]. specialize (Hb s Hin).
      split; [exact Hlo | exact Hb].
Qed.

(** C4: the output of [mergeOverlappingSnippets] is sorted by start line,
    and each snippet starts more than the 3-line adjacency buffer after the
    end of the snippet before it.  The input is what the only call, in
    [SearchInFiles], passes: snippets of one file, whose line numbers lie
    between 1 and the number [n] of lines of the file.  [n] is the length
    of a slice of strings in memory, far below [maxInt - 3]. *)
Theorem merge_shape (n : Z) (l : list CodeSnippet) :
  n <= maxInt - adjacencyBuffer ->
  Forall (searchFiles.inFile n) l ->
  mergedShape (mergeOverlappingSnippets l).
Proof.
  intros Hn Hall.
  apply mergeOverlappingSnippets_shape.
  - eapply Forall_impl; [|exact Hall].
    unfold searchFiles.inFile, wfSnippet, isInt, minInt, maxInt,
      adjacencyBuffer in *.
    intros s Hs. lia.
  - eapply Forall_impl; [|exact Hall].
    unfold searchFiles.inFile. intros s Hs. cbv beta. lia.
Qed.

Lemma merge_shape_witness :
  30 <= maxInt - adjacencyBuffer /\
  Forall (searchFiles.inFile 30) overlappingInFile /\
  mergedShape (mergeOverlappingSnippets overlappingInFile) /\
  List.length (mergeOverlappingSnippets overlappingInFile) = 2%nat.
Proof.
  assert (N : 30 <= maxInt - adjacencyBuffer)
    by (unfold maxInt, adjacencyBuffer; lia).
  assert (B : Forall (searchFiles.inFile 30) overlappingInFile).
  { repeat constructor; simpl; lia. }
  split; [exact N|]. split; [exact B|].
  split; [|reflexivity].
  exact (merge_shape 30 overlappingInFile N B).
Defined.

(** C7: merging is idempotent.  A list of snippets that is sorted by start
    line and whose consecutive snippets are more than the 3-line adjacency
    buffer apart is returned unchanged by [mergeOverlappingSnippets]. *)
Theorem merge_idempotent (l : list CodeSnippet) :
  Forall wfSnippet l -> mergedShape l -> mergeOverlappingSnippets l = l.
Proof.
  intros Hwf [Hs Ha].
  destruct (Z_le_gt_dec (Z.of_nat (List.length l)) 1) as [Hle|Hl].
  - unfold mergeOverlappingSnippets.
    apply Z.leb_le in Hle. rewrite Hle. reflexivity.
  - destruct (mergeOverlappingSnippets_run l) as (first & rest & Es & ->);
      [lia|].
    unfold lessStart in Es.
    rewrite (sortSlice_sorted_id StartLine l Hs) in Es. subst l.
    apply mergeRun_merged; assumption.
Qed.

Lemma merge_idempotent_witness :
  Forall wfSnippet farApart /\ mergedShape farApart /\
  mergeOverlappingSnippets farApart = farApart.
Proof.
  assert (W : Forall wfSnippet farApart).
  { repeat constructor; simpl; unfold minInt, maxInt; lia. }
  assert (M : mergedShape farApart).
  { split; repeat constructor;
      unfold byStart, apart, adjacencyBuffer; simpl; lia. }
  split; [exact W|]. split; [exact M|].
  exact (merge_idempotent farApart W M).
Defined.

(* ================================================================= *)
(** ** [strings.Split] and [strings.Join] on lines *)

Lemma splitFrom_newline_step (c : ascii) (s : string) :
  strings.splitFrom strings.newline 0 (String c s) =
  let r := strings.splitFrom strings.newline 0 s in
  if Ascii.ascii_dec (strings.byte 10) c
  then ("", fst r :: snd r)
  else (String c (fst r), snd r).
Proof.
  change strings.newline with (String (strings.byte 10) "").
  cbn [strings.splitFrom String.prefix String.length Nat.sub].
  destruct (Ascii.ascii_dec (strings.byte 10) c).
  - assert (P : String.prefix "" s = true) by (destruct s; reflexivity).
    rewrite P.
    destruct (strings.splitFrom (String (strings.byte 10) "") 0 s); reflexivity.
  - destruct (strings.splitFrom (String (strings.byte 10) "") 0 s); reflexivity.
Qed.

Lemma splitFrom_newline_join (s : string) :
  strings.Join (fst (strings.splitFrom strings.newline 0 s)
                  :: snd (strings.splitFrom strings.newline 0 s))
               strings.newline = s.
Proof.
  unfold strings.Join.
  induction s as [|c s IH].
  - reflexivity.
  - rewrite splitFrom_newline_step. cbv zeta.
    destruct (strings.splitFrom strings.newline 0 s) as [p ps].
    cbn [fst snd] in *.
    destruct (Ascii.ascii_dec (strings.byte 10) c) as [E|E]; cbn [fst snd].
    + change (String.concat strings.newline ("" :: p :: ps))
        with (strings.newline ++ String.concat strings.newline (p :: ps))%string.
      rewrite IH. subst c. reflexivity.
    + destruct ps as [|q ps]; cbn [String.concat] in *.
      * rewrite IH. reflexivity.
      * cbn [String.append]. rewrite IH. reflexivity.
Qed.

(** Joining the lines of a text gives the text back. *)
Lemma Join_Split_newline (s : string) :
  strings.Join (strings.Split s strings.newline) strings.newline = s.
Proof.
  unfold strings.Split.
  pose proof (splitFrom_newline_join s) as H.
  destruct (strings.splitFrom strings.newline 0 s) as [p ps]. exact H.
Qed.

(* ================================================================= *)
(** ** [mergeFormattingSnippets] *)

(** C6: the formatting merge pass turns two snippets of one file with the
    line ranges [5,10] and [9,15] into a single snippet with the range
    [5,15], in either input order.  The overlap computed is 1, below half
    of the smaller range (5), and the snippets are joined by the branch
    that extends the end line; the content kept is that of the first
    snippet. *)
Theorem formatting_merge_5_10_9_15 (c1 c2 lang path : string) :
  let a := {| output.StartLine := 5; output.EndLine := 10;
              output.Content := c1;
              output.Language := lang; output.Path := path |} in
  let b := {| output.StartLine := 9; output.EndLine := 15;
              output.Content := c2;
              output.Language := lang; output.Path := path |} in
  let merged := {| output.StartLine := 5; output.EndLine := 15;
                   output.Content := c1;
                   output.Language := lang; output.Path := path |} in
  output.mergeFormattingSnippets [a; b] = [merged] /\
  output.mergeFormattingSnippets [b; a] = [merged].
Proof.
  intros a b merged.
  assert (E : output.mergeStep a b = (merged, false)).
  { unfold output.mergeStep, a, b, merged. cbn [output.StartLine output.EndLine
      output.Content output.Language output.Path].
    change (output.significantOverlap _ _) with false. cbv iota.
    change (9 >? 10) with false. change (15 >? 10) with true. cbv iota.
    change (wrap64 (15 - 15)) with 0.
    replace (Z.of_nat (List.length (strings.Split c2 strings.newline)) >=? 0)
      with true
      by (symmetry; apply Z.geb_le; lia).
    unfold lastElems. rewrite Z.sub_0_r, Nat2Z.id, skipn_all, app_nil_r.
    rewrite Join_Split_newline. reflexivity. }
  split.
  - unfold output.mergeFormattingSnippets. cbn [List.length].
    change (Z.of_nat 2 <=? 1) with false. cbv iota.
    change (sortSlice output.lessStart [a; b]) with [a; b].
    cbn [output.mergeLoop]. rewrite E. reflexivity.
  - unfold output.mergeFormattingSnippets. cbn [List.length].
    change (Z.of_nat 2 <=? 1) with false. cbv iota.
    change (sortSlice output.lessStart [b; a]) with [a; b].
    cbn [output.mergeLoop]. rewrite E. reflexivity.
Qed.

(* ================================================================= *)
(** ** [findFunctionBounds] and [extractSnippet] *)

Lemma scanUp_bounds (lines : list string) (n : nat) :
  (n < List.length lines)%nat ->
  exists s, scanUp lines n = Some s /\ 0 <= s <= Z.of_nat n.
Proof.
  induction n as [|k IH]; intros Hn.
  - exists 0. split; [reflexivity | lia].
  - cbn [scanUp].
    destruct (nth_error lines (S k)) as [line|] eqn:E.
    + destruct (strings.Contains line "func " ||
                strings.Contains line "function ").
      * exists (Z.of_nat (S k)). split; [reflexivity | lia].
      * destruct IH as (s & Es & Hs); [lia|].
        exists s. split; [exact Es | lia].
    + apply nth_error_None in E. lia.
Qed.

Lemma scanDown_bounds (rest : list string) (i matchLine bracketCount : Z) :
  let e := scanDown rest i matchLine bracketCount in
  e = 0 \/ (matchLine < e /\ i <= e < i + Z.of_nat (List.length rest)).
Proof.
  revert i bracketCount.
  induction rest as [|line rest IH]; intros i bracketCount; cbn [scanDown].
  - left; reflexivity.
  - cbv zeta.
    destruct ((bracketCount +
               (strings.Count line "{" - strings.Count line "}") <=? 0) &&
              (i >? matchLine)) eqn:E.
    + right. apply andb_true_iff in E. destruct E as [_ E].
      cbn [List.length]. lia.
    + destruct (IH (i + 1)
                   (bracketCount +
                    (strings.Count line "{" - strings.Count line "}")))
        as [H|H].
      * left; exact H.
      * right. cbn [List.length]. lia.
Qed.

Lemma findFunctionBounds_bounds (lines : list string) (matchLine : Z) :
  0 <= matchLine < Z.of_nat (List.length lines) ->
  exists start end_,
    findFunctionBounds lines matchLine = Some (start, end_) /\
    0 <= start <= matchLine /\ start <= end_ <= Z.of_nat (List.length lines) - 1.
Proof.
  intros Hm. unfold findFunctionBounds.
  assert (Hs : exists s,
             (if matchLine >? 0 then scanUp lines (Z.to_nat matchLine)
              else Some matchLine) = Some s /\ 0 <= s <= matchLine).
  { destruct (matchLine >? 0) eqn:E.
    - destruct (scanUp_bounds lines (Z.to_nat matchLine)) as (s & Es & Hs);
        [lia|].
      exists s. split; [exact Es | lia].
    - exists matchLine. split; [reflexivity | lia]. }
  destruct Hs as (s & -> & Hs).
  replace (s <? 0) with false by (symmetry; apply Z.ltb_ge; lia).
  cbn [andb].
  eexists s, _. split; [reflexivity|]. split; [exact Hs|].
  pose proof (scanDown_bounds (skipn (Z.to_nat s) lines) s matchLine 0) as Hd.
  cbv zeta in Hd. rewrite length_skipn in Hd.
  destruct Hd as [H0|Hd].
  - rewrite H0. cbn [Z.eqb]. unfold min.
    destruct (Z.of_nat (List.length lines) - 1 <? s + 20) eqn:E; lia.
  - destruct (scanDown (skipn (Z.to_nat s) lines) s matchLine 0 =? 0) eqn:E.
    + apply Z.eqb_eq in E. lia.
    + lia.
Qed.

(** C10: on an in-range match line [findFunctionBounds] returns bounds
    with [0 <= start <= end <= len(lines) - 1], so neither is [-1]; in
    whole-function mode [extractSnippet] therefore returns the snippet of
    the function-bounds branch, never that of the context-lines fallback,
    and that snippet has [1 <= StartLine <= EndLine]. *)
Theorem extractSnippet_whole_function (lines : list string) (matchLine : Z) :
  0 <= matchLine < Z.of_nat (List.length lines) ->
  exists start end_,
    findFunctionBounds lines matchLine = Some (start, end_) /\
    0 <= start <= end_ /\ end_ <= Z.of_nat (List.length lines) - 1 /\
    start <> -1 /\ end_ <> -1 /\
    forall opts : Options,
      EntireFunction opts = true ->
      exists s,
        extractSnippet lines matchLine opts = Some s /\
        snippetOf lines start end_
                  ("Function containing match at line " ++
                   Itoa (matchLine + 1))%string = Some s /\
        1 <= StartLine s <= EndLine s.
Proof.
  intros Hm.
  destruct (findFunctionBounds_bounds lines matchLine Hm)
    as (start & end_ & E & Hs & He).
  exists start, end_.
  split; [exact E|]. split; [lia|]. split; [lia|].
  split; [lia|]. split; [lia|].
  intros opts Hf. unfold extractSnippet. rewrite Hf, E.
  replace (start =? -1) with false by (symmetry; apply Z.eqb_neq; lia).
  replace (end_ =? -1) with false by (symmetry; apply Z.eqb_neq; lia).
  cbn [negb andb].
  unfold snippetOf, sliceOf.
  replace ((0 <=? start) && (start <=? end_ + 1) &&
           (end_ + 1 <=? Z.of_nat (List.length lines))) with true.
  - eexists. split; [reflexivity|]. split; [reflexivity|].
    cbn [StartLine EndLine]. lia.
  - symmetry. rewrite !andb_true_iff, !Z.leb_le. lia.
Qed.

Lemma extractSnippet_whole_function_witness :
  0 <= 1 < Z.of_nat (List.length ["func f() {"; "x"; "}"]) /\
  exists start end_,
    findFunctionBounds ["func f() {"; "x"; "}"] 1 = Some (start, end_) /\
    0 <= start <= end_ /\
    end_ <= Z.of_nat (List.length ["func f() {"; "x"; "}"]) - 1 /\
    start <> -1 /\ end_ <> -1 /\
    forall opts : Options,
      EntireFunction opts = true ->
      exists s,
        extractSnippet ["func f() {"; "x"; "}"] 1 opts = Some s /\
        snippetOf ["func f() {"; "x"; "}"] start end_
                  ("Function containing match at line " ++ Itoa (1 + 1))%string
          = Some s /\
        1 <= StartLine s <= EndLine s.
Proof.
  assert (H : 0 <= 1 < Z.of_nat (List.length ["func f() {"; "x"; "}"]))
    by (simpl; lia).
  split; [exact H|].
  exact (extractSnippet_whole_function ["func f() {"; "x"; "}"] 1 H).
Defined.

(* ================================================================= *)
(** ** Parameters and return types *)

(** C1 (the code departs from the claim): on the Go parameter string
    [a, b int] the splitter cuts at the comma first, so the group [a] is
    read as an unnamed parameter of type [a]; only [b] gets the type
    [int].  The branch of [goGroup] for names joined by commas is never
    reached with a comma in its input. *)
Theorem go_shared_type_group :
  finder.parseParametersWithTypes "a, b int" "go" =
    [ {| finder.ParamName := ""; finder.ParamType := "a" |};
      {| finder.ParamName := "b"; finder.ParamType := "int" |} ].
Proof. vm_compute. reflexivity. Qed.

(** The groups that reach [goGroup] hold no comma outside brackets. *)
Lemma go_two_parameters :
  finder.parseParametersWithTypes "x int, y string" "go" =
    [ {| finder.ParamName := "x"; finder.ParamType := "int" |};
      {| finder.ParamName := "y"; finder.ParamType := "string" |} ].
Proof. vm_compute. reflexivity. Qed.

(* ================================================================= *)
(** ** [CollectHeaders] on single lines *)

(** Every expression of the registry and of the default rules compiles,
    so no [regexp.MustCompile] of the program panics. *)
Lemma registry_compiles :
  forallb (fun pattern => regexp.compiles (finder.Pattern pattern))
          finder.allPatterns = true.
Proof. vm_compute. reflexivity. Qed.

(** C2 (the code departs from the claim): for the line of the scenario the
    Go Method rule yields the type, name, parent and parameters that the
    claim lists, but the return types are the single string
    [bool, error)].  The rule's expression takes the opening parenthesis
    of the result list outside its last group and the closing one inside
    it, so [parseReturnTypes] never sees a list in parentheses. *)
Theorem save_method_header :
  finder.CollectHeaders (finder.oneFile finder.saveMethodLine) "repo.go" =
    Ok
      [ {| finder.Type_ := finder.Method;
           finder.Name := "Save";
           finder.LineNum := 1;
           finder.Signature := finder.saveMethodLine;
           finder.Scope := "";
           finder.Parent := "Repo";
           finder.Children := [];
           finder.EndLine := 0;
           finder.Parameters :=
             [ {| finder.ParamName := "id"; finder.ParamType := "int" |};
               {| finder.ParamName := "name"; finder.ParamType := "string" |} ];
           finder.ReturnTypes := ["bool, error)"];
           finder.ValueType := "";
           finder.Value := "" |} ].
Proof. vm_compute. reflexivity. Qed.

(** What [parseReturnTypes] does with a result list in parentheses, which
    the rules never hand to it. *)
Lemma parseReturnTypes_tuple :
  finder.parseReturnTypes "(bool, error)" "go" = ["bool"; "error"].
Proof. vm_compute. reflexivity. Qed.

(** C9, as stated, fails: the expression of the Define rule is not
    anchored, so a line of a C file that holds a define directive after
    other text passes the comment filter and yields a Define header. *)
Lemma define_counterexample :
  finder.CollectHeaders (finder.oneFile finder.defineAfterText) "a.c" =
    Ok [finder.defineAfterTextHeader] /\
  finder.Type_ finder.defineAfterTextHeader = finder.Define.
Proof. split; [vm_compute|]; reflexivity. Qed.

(** C8, as stated, fails: a file that can be opened and read, and none of
    whose lines matches a rule, makes [CollectHeaders] return an error when
    one of its lines has 65536 bytes or more, because the line scanner
    stops with [bufio.ErrTooLong]. *)
Lemma long_line_counterexample :
  finder.oneFile finder.longLine "a.go" = Readable finder.longLine /\
  finder.noLineMatches (finder.DetectLanguage "a.go") finder.longLine = true /\
  finder.CollectHeaders (finder.oneFile finder.longLine) "a.go" =
    Err "error scanning file".
Proof.
  split; [reflexivity|].
  split; vm_compute; reflexivity.
Qed.

(* ================================================================= *)
(** ** The line scanner *)

Lemma scanTokens_stopped (raw : list string) :
  snd (bufio.scanTokens raw) = existsb bufio.tooLong raw.
Proof.
  induction raw as [|r raw IH]; cbn [bufio.scanTokens existsb].
  - reflexivity.
  - destruct (bufio.tooLong r); cbn [orb].
    + reflexivity.
    + destruct (bufio.scanTokens raw) as [ls e]. exact IH.
Qed.

Lemma scanTokens_lines (raw : list string) :
  existsb bufio.tooLong raw = false ->
  fst (bufio.scanTokens raw) = map bufio.dropCR raw.
Proof.
  induction raw as [|r raw IH]; cbn [bufio.scanTokens existsb map].
  - reflexivity.
  - destruct (bufio.tooLong r); cbn [orb]; intros H.
    + discriminate.
    + destruct (bufio.scanTokens raw) as [ls e]. cbn [fst] in *.
      rewrite IH by exact H. reflexivity.
Qed.

Lemma scanLines_spec (content : string) :
  bufio.scanLines content =
    (fst (bufio.scanLines content), bufio.hasLongLine content) /\
  (bufio.hasLongLine content = false ->
   fst (bufio.scanLines content) =
     map bufio.dropCR (bufio.linesOf content)).
Proof.
  unfold bufio.scanLines, bufio.hasLongLine. split.
  - rewrite <- scanTokens_stopped.
    destruct (bufio.scanTokens (bufio.linesOf content)); reflexivity.
  - apply scanTokens_lines.
Qed.

(* ================================================================= *)
(** ** [CollectHeaders]: files without a matching line *)

Section NoMatch.
Variables (language : string) (lines : list string).

Lemma tryPatterns_unmatched (patterns : list finder.LanguagePattern)
      (line : string) (lineNum : Z) (st : finder.scanState) :
  finder.unmatched patterns line ->
  finder.tryPatterns language lines (strings.TrimSpace line) lineNum patterns st
  = st.
Proof.
  induction patterns as [|p patterns IH]; intros H; cbn [finder.tryPatterns].
  - reflexivity.
  - cbv zeta. rewrite (H p) by (left; reflexivity).
    apply IH. intros q Hq. apply H. right. exact Hq.
Qed.

Lemma scanLine_unmatched (patterns : list finder.LanguagePattern)
      (line : string) (lineNum : Z) (st : finder.scanState) :
  finder.unmatched patterns line ->
  finder.headers st = [] -> finder.inImportBlock st = false ->
  let st' := finder.scanLine language patterns lines st lineNum line in
  finder.headers st' = [] /\ finder.inImportBlock st' = false.
Proof.
  intros H Hh Hi. unfold finder.scanLine. cbv zeta.
  destruct (finder.skipped (strings.TrimSpace line)); cbv iota;
    [split; assumption|].
  cbn [finder.inImportBlock]. rewrite Hi.
  rewrite tryPatterns_unmatched by exact H.
  cbn [finder.headers finder.inImportBlock]. split; [exact Hh | reflexivity].
Qed.

Lemma scanAll_unmatched (patterns : list finder.LanguagePattern)
      (scanned : list string) (lineNum : Z) (st : finder.scanState) :
  Forall (finder.unmatched patterns) scanned ->
  finder.headers st = [] -> finder.inImportBlock st = false ->
  finder.headers
    (finder.scanAll language patterns lines st lineNum scanned) = [].
Proof.
  revert lineNum st.
  induction scanned as [|line scanned IH]; intros lineNum st H Hh Hi;
    cbn [finder.scanAll].
  - exact Hh.
  - inversion H as [|? ? Hl Hs]; subst.
    destruct (scanLine_unmatched patterns line (lineNum + 1) st Hl Hh Hi)
      as [Hh' Hi'].
    apply IH; assumption.
Qed.
End NoMatch.

Lemma noLineMatches_unmatched (language content : string) :
  finder.noLineMatches language content = true ->
  Forall (finder.unmatched (finder.patternsFor language))
         (map bufio.dropCR (bufio.linesOf content)).
Proof.
  unfold finder.noLineMatches, finder.unmatched. intros H.
  rewrite forallb_forall in H. apply Forall_forall. intros line Hl.
  specialize (H line Hl). rewrite forallb_forall in H.
  intros pattern Hp. specialize (H pattern Hp).
  apply negb_true_iff in H. exact H.
Qed.

(** C8, amended: [CollectHeaders] returns an error exactly when the file
    cannot be opened, cannot be read, or has a line of 65536 bytes or more
    (the limit of the line scanner); for every readable file without such
    a line in which no line matches any rule of the selected language, it
    returns an empty header sequence and no error. *)
Theorem CollectHeaders_errors (fs : FileSystem) (path : string) :
  (isErr (finder.CollectHeaders fs path) = true <->
   fs path = Missing \/ fs path = Unreadable \/
   exists content,
     fs path = Readable content /\ bufio.hasLongLine content = true)
  /\
  (forall content,
     fs path = Readable content ->
     bufio.hasLongLine content = false ->
     finder.noLineMatches (finder.DetectLanguage path) content = true ->
     finder.CollectHeaders fs path = Ok []).
Proof.
  unfold finder.CollectHeaders, finder.collectFrom.
  destruct (fs path) as [| |content] eqn:E.
  - split.
    + split; [intros _; left; reflexivity | reflexivity].
    + intros content H. discriminate.
  - split.
    + split; [intros _; right; left; reflexivity | reflexivity].
    + intros content H. discriminate.
  - destruct (scanLines_spec content) as [Es El].
    rewrite Es. cbv iota beta.
    split.
    + destruct (bufio.hasLongLine content) eqn:L; cbn [isErr].
      * split; [intros _|reflexivity].
        right; right. exists content. split; [reflexivity | exact L].
      * split; [discriminate|].
        intros [H|[H|(c & Hc & Hl)]]; try discriminate.
        injection Hc as <-. congruence.
    + intros c Hc Hlong Hno. injection Hc as <-.
      rewrite Hlong in *. f_equal.
      apply scanAll_unmatched; [|reflexivity|reflexivity].
      rewrite El by reflexivity.
      apply noLineMatches_unmatched. exact Hno.
Qed.

Lemma CollectHeaders_errors_witness :
  finder.oneFile "x := 1" "main.go" = Readable "x := 1" /\
  bufio.hasLongLine "x := 1" = false /\
  finder.noLineMatches (finder.DetectLanguage "main.go") "x := 1" = true /\
  finder.CollectHeaders (finder.oneFile "x := 1") "main.go" = Ok [].
Proof.
  assert (R : finder.oneFile "x := 1" "main.go" = Readable "x := 1")
    by reflexivity.
  assert (L : bufio.hasLongLine "x := 1" = false) by (vm_compute; reflexivity).
  assert (N : finder.noLineMatches (finder.DetectLanguage "main.go") "x := 1"
              = true) by (vm_compute; reflexivity).
  split; [exact R|]. split; [exact L|]. split; [exact N|].
  exact (proj2 (CollectHeaders_errors (finder.oneFile "x := 1") "main.go")
               "x := 1" R L N).
Defined.

(* ================================================================= *)
(** ** [CollectHeaders]: where a header comes from *)

Lemma fromRule_same (language : string) (scanned : list string)
      (h h' : finder.HeaderElement) :
  finder.Type_ h' = finder.Type_ h -> finder.LineNum h' = finder.LineNum h ->
  finder.fromRule language scanned h -> finder.fromRule language scanned h'.
Proof.
  unfold finder.fromRule. intros -> ->. exact (fun H => H).
Qed.

Lemma extractMembers_same (h : finder.HeaderElement) (startLine : Z)
      (lines : list string) :
  finder.Type_ (finder.extractMembers h startLine lines) = finder.Type_ h /\
  finder.LineNum (finder.extractMembers h startLine lines) = finder.LineNum h.
Proof.
  unfold finder.extractMembers.
  destruct (startLine >=? Z.of_nat (List.length lines)); [split; reflexivity|].
  destruct (finder.membersFrom _ _ _ _) as [fields [n|]]; split; reflexivity.
Qed.

Section Origin.
Variables (language : string) (lines scanned : list string).

Lemma tryPatterns_origin (patterns : list finder.LanguagePattern)
      (line : string) (lineNum : Z) (st : finder.scanState) :
  incl patterns (finder.patternsFor language) ->
  1 <= lineNum ->
  nth_error scanned (Z.to_nat (lineNum - 1)) = Some line ->
  finder.skipped (strings.TrimSpace line) = false ->
  finder.originInv language scanned st ->
  finder.originInv language scanned (finder.tryPatterns language lines (strings.TrimSpace line)
                                lineNum patterns st).
Proof.
  intros Hincl Hnum Hnth Hskip. revert st.
  induction patterns as [|p patterns IH]; intros st Hinv;
    cbn [finder.tryPatterns].
  - exact Hinv.
  - assert (Hp : In p (finder.patternsFor language))
      by (apply Hincl; left; reflexivity).
    assert (Hrest : incl patterns (finder.patternsFor language))
      by (intros q Hq; apply Hincl; right; exact Hq).
    cbv zeta.
    destruct (finder.ruleMatches p _) eqn:Hm; [|apply IH; assumption].
    set (header := finder.buildHeader language p _ _ lineNum _).
    assert (Hh : finder.fromRule language scanned header).
    { exists line, p. repeat split; try assumption. }
    destruct Hinv as [Hhs Hb].
    destruct (finder.HeaderType_eqb (finder.Type_ header) finder.Import &&
              (List.nth 0 _ "" =? "import (")%string).
    + apply IH; [exact Hrest|]. split; cbn [finder.headers finder.currentBlock].
      * exact Hhs.
      * intros block [= <-]. exact Hh.
    + split; cbn [finder.headers finder.currentBlock]; [|exact Hb].
      apply Forall_app. split; [exact Hhs|]. constructor; [|constructor].
      destruct (finder.HeaderType_eqb (finder.Type_ header) finder.Struct ||
                finder.HeaderType_eqb (finder.Type_ header) finder.Class).
      * destruct (extractMembers_same header lineNum lines) as [Et El].
        eapply fromRule_same; [exact Et | exact El | exact Hh].
      * exact Hh.
Qed.

Lemma importBlockLine_origin (trimmedLine : string) (lineNum : Z)
      (st : finder.scanState) :
  finder.originInv language scanned st ->
  finder.originInv language scanned (finder.importBlockLine trimmedLine lineNum st).
Proof.
  intros [Hhs Hb]. unfold finder.originInv, finder.importBlockLine.
  destruct (trimmedLine =? ")")%string.
  - destruct (finder.currentBlock st) as [block|] eqn:E;
      split; cbn [finder.headers finder.currentBlock];
      try exact Hhs; try discriminate.
    apply Forall_app. split; [exact Hhs|]. constructor; [|constructor].
    eapply fromRule_same; [| |apply Hb; reflexivity]; reflexivity.
  - destruct (negb _ && _); cbv iota; [|split; assumption].
    destruct (finder.currentBlock st) as [block|] eqn:E.
    + split; cbn [finder.headers finder.currentBlock]; [exact Hhs|].
      intros b [= <-].
      eapply fromRule_same; [| |apply Hb; reflexivity]; reflexivity.
    + split; [exact Hhs|].
      intros b Hb'. first [apply Hb; exact Hb' | congruence].
Qed.

Lemma scanLine_origin (line : string) (lineNum : Z) (st : finder.scanState) :
  1 <= lineNum ->
  nth_error scanned (Z.to_nat (lineNum - 1)) = Some line ->
  finder.originInv language scanned st ->
  finder.originInv language scanned (finder.scanLine language (finder.patternsFor language) lines
                             st lineNum line).
Proof.
  intros Hnum Hnth Hinv. unfold finder.scanLine. cbv zeta.
  destruct (finder.skipped (strings.TrimSpace line)) eqn:Hskip; [exact Hinv|].
  cbn [finder.inImportBlock].
  destruct (finder.inImportBlock st).
  - apply importBlockLine_origin. exact Hinv.
  - apply tryPatterns_origin; try assumption.
    apply incl_refl.
Qed.

Lemma scanAll_origin (done rest : list string) (st : finder.scanState) :
  scanned = done ++ rest ->
  finder.originInv language scanned st ->
  finder.originInv language scanned (finder.scanAll language (finder.patternsFor language) lines st
                            (Z.of_nat (List.length done)) rest).
Proof.
  revert done st.
  induction rest as [|line rest IH]; intros done st Hs Hinv;
    cbn [finder.scanAll].
  - exact Hinv.
  - assert (El : List.length (done ++ [line]) = S (List.length done))
      by (rewrite length_app; cbn [List.length]; lia).
    replace (Z.of_nat (List.length done) + 1)
      with (Z.of_nat (List.length (done ++ [line]))) by lia.
    apply IH.
    + rewrite <- app_assoc. exact Hs.
    + apply scanLine_origin; [lia| |exact Hinv].
      replace (Z.to_nat (Z.of_nat (List.length (done ++ [line])) - 1))
        with (List.length done) by lia.
      rewrite Hs, nth_error_app2 by lia.
      rewrite Nat.sub_diag. reflexivity.
Qed.
End Origin.

Lemma collectFrom_origin (language content : string) (h : finder.HeaderElement) :
  In h (fst (finder.collectFrom language content)) ->
  finder.fromRule language (fst (bufio.scanLines content)) h.
Proof.
  unfold finder.collectFrom.
  destruct (bufio.scanLines content) as [scanned stopped] eqn:E.
  cbn [fst]. intros Hin.
  pose proof (scanAll_origin language
                (strings.Split content strings.newline) scanned
                [] scanned finder.initialState eq_refl) as H.
  cbn [List.length] in H.
  destruct H as [H _].
  - split; [constructor | discriminate].
  - rewrite Forall_forall in H. apply H. exact Hin.
Qed.

(** The Define rule is a rule of the language C only. *)
Lemma define_rule_only_c (language : string) (pattern : finder.LanguagePattern) :
  In pattern (finder.patternsFor language) ->
  finder.ElementType pattern = finder.Define ->
  language = "c" /\ pattern = finder.defineRule.
Proof.
  unfold finder.patternsFor, finder.languagePatternRegistry.
  cbn [finder.lookup].
  repeat match goal with
         | |- context [String.eqb ?k language] =>
             destruct (String.eqb_spec k language)
         end;
    cbv [finder.goPatterns finder.pythonPatterns finder.javaPatterns
         finder.javascriptPatterns finder.typescriptPatterns finder.cPatterns
         finder.cppPatterns finder.csharpPatterns finder.rubyPatterns
         finder.phpPatterns finder.defaultPatterns In];
    intros Hin Ht;
    repeat match goal with
           | H : _ \/ _ |- _ => destruct H
           | H : False |- _ => destruct H
           end;
    subst; try discriminate Ht.
  split; reflexivity.
Qed.

(** C9, amended: [CollectHeaders] emits a top-level Define header only
    for a line of a C file whose trimmed text does not begin with [#] (such
    lines never reach the rules) and holds a define directive further on;
    a line that begins with a define directive never yields one. *)
Theorem define_header_origin (fs : FileSystem) (path : string)
        (found : list finder.HeaderElement) (h : finder.HeaderElement) :
  finder.CollectHeaders fs path = Ok found ->
  In h found ->
  finder.Type_ h = finder.Define ->
  finder.DetectLanguage path = "c" /\
  exists content line,
    fs path = Readable content /\
    1 <= finder.LineNum h /\
    nth_error (map bufio.dropCR (bufio.linesOf content))
              (Z.to_nat (finder.LineNum h - 1)) = Some line /\
    strings.HasPrefix (strings.TrimSpace line) "#" = false /\
    regexp.MatchString (finder.Pattern finder.defineRule)
                       (strings.TrimSpace line) = true.
Proof.
  unfold finder.CollectHeaders. intros Hc Hin Ht.
  destruct (fs path) as [| |content] eqn:E; try discriminate.
  pose proof (collectFrom_origin (finder.DetectLanguage path) content h) as Ho.
  destruct (scanLines_spec content) as [Es El].
  destruct (finder.collectFrom (finder.DetectLanguage path) content)
    as [hs stopped] eqn:Ec.
  assert (Hstop : stopped = bufio.hasLongLine content).
  { unfold finder.collectFrom in Ec. rewrite Es in Ec.
    injection Ec as _ <-. reflexivity. }
  destruct stopped; [discriminate|]. injection Hc as <-.
  cbn [fst] in Ho. specialize (Ho Hin).
  rewrite El in Ho by (symmetry; exact Hstop).
  destruct Ho as (line & pattern & Hnum & Hnth & Hskip & Hp & Hty & Hm).
  rewrite Ht in Hty.
  destruct (define_rule_only_c _ _ Hp Hty) as [Hlang ->].
  split; [exact Hlang|].
  exists content, line.
  split; [reflexivity|]. split; [exact Hnum|]. split; [exact Hnth|].
  split.
  - unfold finder.skipped in Hskip.
    apply orb_false_iff in Hskip. destruct Hskip as [Hskip _].
    apply orb_false_iff in Hskip. destruct Hskip as [_ Hskip].
    exact Hskip.
  - unfold finder.ruleMatches, regexp.FindStringSubmatch in Hm.
    unfold regexp.MatchString.
    destruct (regexp.search _ _); [reflexivity|].
    cbn in Hm. discriminate.
Qed.

Lemma define_header_origin_witness :
  finder.DetectLanguage "a.c" = "c" /\
  exists content line,
    finder.oneFile finder.defineAfterText "a.c" = Readable content /\
    1 <= 1 /\
    nth_error (map bufio.dropCR (bufio.linesOf content)) (Z.to_nat (1 - 1))
      = Some line /\
    strings.HasPrefix (strings.TrimSpace line) "#" = false /\
    regexp.MatchString (finder.Pattern finder.defineRule)
                       (strings.TrimSpace line) = true.
Proof.
  exact (define_header_origin
           (finder.oneFile finder.defineAfterText) "a.c"
           [finder.defineAfterTextHeader]
           finder.defineAfterTextHeader
           ltac:(vm_compute; reflexivity)
           ltac:(left; reflexivity)
           ltac:(reflexivity)).
Defined.

(* ================================================================= *)
(** ** The fuzzy mode of [searchInFile] *)








(** *** What a literal matches *)





Lemma allBytes_stripPrefix (f : ascii -> bool) (p text rest : string) :
  strings.allBytes f text = true -> stripPrefix p text = Some rest ->
  strings.allBytes f rest = true.
Proof.
  revert text. induction p as [|a p IH]; intros text H E; cbn [stripPrefix] in E.
  - injection E as <-. exact H.
  - destruct text as [|d text]; [discriminate|].
    destruct (Ascii.eqb a d); [|discriminate].
    cbn [strings.allBytes] in H. apply andb_true_iff in H.
    apply (IH text); [apply H | exact E].
Qed.







(** *** What the repeated dot matches *)










Lemma afterFold_notNewline (c : ascii) (text rest : string) :
  strings.allBytes notNewline text = true ->
  afterFold c text = Some rest ->
  strings.allBytes notNewline rest = true.
Proof.
  intros Hnl H. unfold afterFold in H.
  destruct text as [|d tail]; [discriminate|].
  destruct (equalFold c d).
  - injection H as <-. cbn [strings.allBytes] in Hnl.
    apply andb_true_iff in Hnl. apply Hnl.
  - destruct (equalFold c "k");
      [exact (allBytes_stripPrefix _ _ _ _ Hnl H)|].
    destruct (equalFold c "s"); [|discriminate].
    exact (allBytes_stripPrefix _ _ _ _ Hnl H).
Qed.









(** *** The lines that the scanner delivers hold no line feed *)










(* ================================================================= *)
(** ** More on [mergeOverlappingSnippets] *)

Lemma mergeRun_covers (p : CodeSnippet) (rest : list CodeSnippet) :
  StronglySorted byStart (p :: rest) ->
  (exists o, In o (mergeRun p rest) /\
             StartLine o = StartLine p /\ EndLine p <= EndLine o) /\
  (forall s, In s rest -> exists o, In o (mergeRun p rest) /\ covers o s).
Proof.
  revert p.
  induction rest as [|c rest IH]; intros p H; cbn [mergeRun].
  - split.
    + exists p. split; [left; reflexivity | split; [reflexivity | lia]].
    + intros s [].
  - inversion H as [|? ? Hrest Hp]; subst.
    inversion Hrest as [|? ? Hrest' Hc]; subst.
    inversion Hp as [|? ? Hpc Hprest]; subst.
    destruct (adjacent p c).
    + destruct (IH (mergeInto p c)) as [(o & Ho & Hos & Hoe) Hcov].
      { constructor; [exact Hrest'|].
        eapply Forall_impl; [|exact Hprest].
        unfold byStart. intros a Ha. rewrite mergeInto_StartLine. exact Ha. }
      rewrite mergeInto_StartLine in Hos. rewrite mergeInto_EndLine in Hoe.
      split.
      * exists o. split; [exact Ho | split; [exact Hos | lia]].
      * intros s [<-|Hs]; [|apply Hcov; exact Hs].
        exists o. split; [exact Ho|]. unfold covers, byStart in *. lia.
    + destruct (IH c Hrest) as [(o & Ho & Hos & Hoe) Hcov].
      split.
      * exists p. split; [left; reflexivity | split; [reflexivity | lia]].
      * intros s [<-|Hs].
        -- exists o. split; [right; exact Ho|]. unfold covers. lia.
        -- destruct (Hcov s Hs) as (o' & Ho' & Hc').
           exists o'. split; [right; exact Ho' | exact Hc'].
Qed.

(** X1: merging loses no line range.  Every input snippet lies within the
    line range of some snippet of the output of
    [mergeOverlappingSnippets]. *)
Theorem merge_covers_input (l : list CodeSnippet) (s : CodeSnippet) :
  In s l ->
  exists o, In o (mergeOverlappingSnippets l) /\ covers o s.
Proof.
  intros Hin.
  destruct (Z_le_gt_dec (Z.of_nat (List.length l)) 1) as [Hs|Hl].
  - unfold mergeOverlappingSnippets.
    apply Z.leb_le in Hs. rewrite Hs.
    exists s. split; [exact Hin | unfold covers; lia].
  - destruct (mergeOverlappingSnippets_run l) as (first & rest & Es & ->);
      [lia|].
    pose proof (sortSlice_perm StartLine l) as P.
    pose proof (sortSlice_sorted StartLine l) as S.
    unfold lessStart in Es. rewrite Es in P, S.
    destruct (mergeRun_covers first rest S) as [(o & Ho & Hos & Hoe) Hcov].
    assert (Hin' : In s (first :: rest))
      by (eapply Permutation_in; [apply Permutation_sym; exact P | exact Hin]).
    destruct Hin' as [<-|Hin'].
    + exists o. split; [exact Ho | unfold covers; lia].
    + apply Hcov. exact Hin'.
Qed.

Lemma merge_covers_input_witness :
  In tieShort [tieLong; tieShort] /\
  exists o, In o (mergeOverlappingSnippets [tieLong; tieShort]) /\
            covers o tieShort.
Proof.
  assert (H : In tieShort [tieLong; tieShort]) by (right; left; reflexivity).
  split; [exact H|].
  exact (merge_covers_input [tieLong; tieShort] tieShort H).
Defined.

Lemma mergeRun_endpoints (p : CodeSnippet) (rest : list CodeSnippet) :
  forall o, In o (mergeRun p rest) ->
    (exists s, In s (p :: rest) /\ StartLine o = StartLine s) /\
    (exists s, In s (p :: rest) /\ EndLine o = EndLine s).
Proof.
  revert p.
  induction rest as [|c rest IH]; intros p o Ho; cbn [mergeRun] in Ho.
  - destruct Ho as [<-|[]].
    split; exists p; (split; [left; reflexivity | reflexivity]).
  - destruct (adjacent p c).
    + destruct (IH _ _ Ho) as [(s & Hs & Es) (e & He & Ee)].
      split.
      * destruct Hs as [<-|Hs].
        -- exists p. split; [left; reflexivity|].
           rewrite Es. apply mergeInto_StartLine.
        -- exists s. split; [right; right; exact Hs | exact Es].
      * destruct He as [<-|He].
        -- rewrite mergeInto_EndLine in Ee.
           destruct (Z.max_spec (EndLine p) (EndLine c)) as [[_ E]|[_ E]];
             rewrite E in Ee.
           ++ exists c. split; [right; left; reflexivity | exact Ee].
           ++ exists p. split; [left; reflexivity | exact Ee].
        -- exists e. split; [right; right; exact He | exact Ee].
    + destruct Ho as [<-|Ho].
      * split; exists p; (split; [left; reflexivity | reflexivity]).
      * destruct (IH _ _ Ho) as [(s & Hs & Es) (e & He & Ee)].
        split; [exists s | exists e]; (split; [right; assumption | assumption]).
Qed.

(** X2: merging invents no line number and adds no snippet.  The output
    of [mergeOverlappingSnippets] is no longer than its input, and every
    output snippet starts on the start line of an input snippet and ends on
    the end line of an input snippet. *)
Theorem merge_endpoints_from_input (l : list CodeSnippet) :
  (List.length (mergeOverlappingSnippets l) <= List.length l)%nat /\
  forall o, In o (mergeOverlappingSnippets l) ->
    (exists s, In s l /\ StartLine o = StartLine s) /\
    (exists s, In s l /\ EndLine o = EndLine s).
Proof.
  destruct (Z_le_gt_dec (Z.of_nat (List.length l)) 1) as [Hs|Hl].
  - unfold mergeOverlappingSnippets.
    apply Z.leb_le in Hs. rewrite Hs.
    split; [lia|]. intros o Ho. split; exists o; (split; [exact Ho|reflexivity]).
  - destruct (mergeOverlappingSnippets_run l) as (first & rest & Es & ->);
      [lia|].
    pose proof (sortSlice_perm StartLine l) as P.
    unfold lessStart in Es. rewrite Es in P.
    split.
    + rewrite <- (Permutation_length P).
      clear. revert first.
      induction rest as [|c rest IH]; intros p; cbn [mergeRun List.length].
      * lia.
      * destruct (adjacent p c); cbn [List.length].
        -- specialize (IH (mergeInto p c)). cbn [List.length] in IH. lia.
        -- specialize (IH c). cbn [List.length] in IH. lia.
    + intros o Ho.
      destruct (mergeRun_endpoints first rest o Ho)
        as [(s & Hs & Es') (e & He & Ee)].
      split; [exists s | exists e];
        (split; [eapply Permutation_in; [exact P | assumption] | assumption]).
Qed.

(* ================================================================= *)
(** ** More on [mergeFormattingSnippets] *)

(** What one round of the loop does to [previous], for snippets in start
    order: the start line, language and path stay, the end line does not
    shrink, the content is that of one of the two snippets; [current] is
    appended only when it starts after [previous] ends, and otherwise its
    range is taken into [previous]. *)
Lemma formatting_mergeStep_spec (p c : output.formattingSnippet) :
  output.byStart p c ->
  exists p' appended,
    output.mergeStep p c = (p', appended) /\
    output.StartLine p' = output.StartLine p /\
    output.EndLine p <= output.EndLine p' /\
    (output.Content p' = output.Content p \/
     output.Content p' = output.Content c) /\
    (appended = true ->
       p' = p /\ output.EndLine p < output.StartLine c) /\
    (appended = false -> output.EndLine c <= output.EndLine p').
Proof.
  unfold output.byStart. intros Hs.
  unfold output.mergeStep.
  destruct (output.significantOverlap _ _).
  - eexists _, false. split; [reflexivity|].
    cbn [output.StartLine output.EndLine output.Content].
    unfold min, max.
    refine (conj _ (conj _ (conj _ (conj _ _)))).
    + destruct (Z.ltb_spec (output.StartLine p) (output.StartLine c)); lia.
    + destruct (Z.gtb_spec (output.EndLine p) (output.EndLine c)); lia.
    + destruct (_ >=? _); [right | left]; reflexivity.
    + discriminate.
    + intros _.
      destruct (Z.gtb_spec (output.EndLine p) (output.EndLine c)); lia.
  - destruct (Z.gtb_spec (output.StartLine c) (output.EndLine p)) as [Hgt|Hle].
    + exists p, true. split; [reflexivity|].
      refine (conj _ (conj _ (conj _ (conj _ _))));
        [reflexivity | lia | left; reflexivity | | discriminate].
      intros _. split; [reflexivity | lia].
    + destruct (Z.gtb_spec (output.EndLine c) (output.EndLine p)) as [Hgt|Hle'].
      * cbn [output.StartLine output.EndLine output.Content
             output.Language output.Path].
        rewrite Z.sub_diag. change (wrap64 0) with 0.
        replace (Z.of_nat (List.length
                   (strings.Split (output.Content c) strings.newline)) >=? 0)
          with true by (symmetry; apply Z.geb_le; lia).
        eexists _, false. split; [reflexivity|].
        cbn [output.StartLine output.EndLine output.Content].
        refine (conj _ (conj _ (conj _ (conj _ _))));
          [reflexivity | lia | | discriminate | intros _; lia].
        left. unfold lastElems.
        rewrite Z.sub_0_r, Nat2Z.id, skipn_all, app_nil_r.
        apply Join_Split_newline.
      * exists p, false. split; [reflexivity|].
        refine (conj _ (conj _ (conj _ (conj _ _))));
          [reflexivity | lia | left; reflexivity | discriminate
          | intros _; lia].
Qed.

Lemma formatting_mergeLoop_run (result : list output.formattingSnippet)
      (previous : output.formattingSnippet)
      (rest : list output.formattingSnippet) :
  output.mergeLoop result previous rest
  = result ++ output.mergeRun previous rest.
Proof.
  revert result previous.
  induction rest as [|current rest IH]; intros result previous; simpl.
  - reflexivity.
  - destruct (output.mergeStep previous current) as [p' [|]].
    + rewrite IH, <- app_assoc. reflexivity.
    + apply IH.
Qed.

Lemma mergeFormattingSnippets_run (l : list output.formattingSnippet) :
  1 < Z.of_nat (List.length l) ->
  exists first rest,
    sortSlice output.lessStart l = first :: rest /\
    output.mergeFormattingSnippets l = output.mergeRun first rest.
Proof.
  intros Hlen. unfold output.mergeFormattingSnippets.
  replace (Z.of_nat (List.length l) <=? 1) with false
    by (symmetry; apply Z.leb_gt; exact Hlen).
  destruct (sortSlice output.lessStart l) as [|first rest] eqn:Es.
  - pose proof (sortSlice_perm output.StartLine l) as P.
    unfold output.lessStart in Es. rewrite Es in P.
    apply Permutation_nil in P. subst l. simpl in Hlen. lia.
  - exists first, rest. split; [reflexivity|].
    rewrite formatting_mergeLoop_run. reflexivity.
Qed.

(** The run from [p] over a slice in start order: its head starts where
    [p] starts and ends no earlier; its members are in start order, each
    ending before the next starts; every snippet of the slice lies in the
    range of a member; and every member has the content of [p] or of a
    snippet of the slice. *)
Lemma formatting_mergeRun_spec (p : output.formattingSnippet)
      (rest : list output.formattingSnippet) :
  StronglySorted output.byStart (p :: rest) ->
  exists o tail,
    output.mergeRun p rest = o :: tail /\
    output.StartLine o = output.StartLine p /\
    output.EndLine p <= output.EndLine o /\
    Sorted output.before (o :: tail) /\
    (forall s, In s rest ->
       exists o', In o' (o :: tail) /\ output.covers o' s) /\
    (forall o', In o' (o :: tail) ->
       exists s, In s (p :: rest) /\ output.Content o' = output.Content s).
Proof.
  revert p.
  induction rest as [|c rest IH]; intros p H; cbn [output.mergeRun].
  - exists p, []. repeat split; try lia.
    + repeat constructor.
    + intros s [].
    + intros o' [<-|[]]. exists p. split; [left|]; reflexivity.
  - inversion H as [|? ? Hrest Hp]; subst.
    inversion Hrest as [|? ? Hrest' Hc]; subst.
    inversion Hp as [|? ? Hpc Hprest]; subst.
    destruct (formatting_mergeStep_spec p c Hpc)
      as (p' & appended & E & Hs & He & Hcont & Happ & Hmerged).
    rewrite E. destruct appended.
    + destruct (Happ eq_refl) as [-> Hlt]. clear Happ Hmerged.
      destruct (IH c Hrest) as (o & tail & Er & Hos & Hoe & Hsorted & Hcov & Hfrom).
      rewrite Er.
      exists p, (o :: tail). repeat split; try lia.
      * constructor; [exact Hsorted|]. constructor.
        unfold output.before. lia.
      * intros s [<-|Hin].
        -- exists o. split; [right; left; reflexivity|].
           unfold output.covers. lia.
        -- destruct (Hcov s Hin) as (o' & Ho' & Hc').
           exists o'. split; [right; exact Ho' | exact Hc'].
      * intros o' [<-|Hin].
        -- exists p. split; [left|]; reflexivity.
        -- destruct (Hfrom o' Hin) as (s & Hs' & Es).
           exists s. split; [right; exact Hs' | exact Es].
    + specialize (Hmerged eq_refl). clear Happ.
      destruct (IH p') as (o & tail & Er & Hos & Hoe & Hsorted & Hcov & Hfrom).
      { constructor; [exact Hrest'|].
        eapply Forall_impl; [|exact Hprest].
        unfold output.byStart. intros a Ha. rewrite Hs. exact Ha. }
      rewrite Er.
      exists o, tail. repeat split; try lia; [exact Hsorted| |].
      * intros s [<-|Hin]; [|apply Hcov; exact Hin].
        exists o. split; [left; reflexivity|].
        unfold output.covers, output.byStart in *. lia.
      * intros o' Hin.
        destruct (Hfrom o' Hin) as (s & [<-|Hs'] & Es).
        -- destruct Hcont as [Hc'|Hc']; rewrite Hc' in Es.
           ++ exists p. split; [left; reflexivity | exact Es].
           ++ exists c. split; [right; left; reflexivity | exact Es].
        -- exists s. split; [right; right; exact Hs' | exact Es].
Qed.

(** X3: the snippets that [mergeFormattingSnippets] returns do not touch:
    each one ends on a line before the line the next one starts on, so
    they are in line order and no line number is in two of them. *)
Theorem formatting_merge_disjoint (l : list output.formattingSnippet) :
  Sorted output.before (output.mergeFormattingSnippets l).
Proof.
  destruct (Z_le_gt_dec (Z.of_nat (List.length l)) 1) as [Hshort|Hlen].
  { unfold output.mergeFormattingSnippets.
    apply Z.leb_le in Hshort. rewrite Hshort. apply Z.leb_le in Hshort.
    destruct l as [|a [|b l]]; [constructor | repeat constructor |].
    cbn [List.length] in Hshort. lia. }
  apply Z.gt_lt in Hlen.
  destruct (mergeFormattingSnippets_run l Hlen) as (first & rest & Es & ->).
  pose proof (sortSlice_sorted output.StartLine l) as S.
  unfold output.lessStart in Es. rewrite Es in S.
  destruct (formatting_mergeRun_spec first rest S)
    as (o & tail & -> & _ & _ & Hsorted & _).
  exact Hsorted.
Qed.

(** X4: formatting drops no line range.  Every input snippet lies within
    the line range of some snippet that [mergeFormattingSnippets] returns. *)
Theorem formatting_merge_covers_input (l : list output.formattingSnippet)
        (s : output.formattingSnippet) :
  In s l ->
  exists o, In o (output.mergeFormattingSnippets l) /\ output.covers o s.
Proof.
  intros Hin.
  destruct (Z_le_gt_dec (Z.of_nat (List.length l)) 1) as [Hshort|Hlen].
  { unfold output.mergeFormattingSnippets.
    apply Z.leb_le in Hshort. rewrite Hshort.
    exists s. split; [exact Hin | unfold output.covers; lia]. }
  apply Z.gt_lt in Hlen.
  destruct (mergeFormattingSnippets_run l Hlen) as (first & rest & Es & ->).
  pose proof (sortSlice_perm output.StartLine l) as P.
  pose proof (sortSlice_sorted output.StartLine l) as S.
  unfold output.lessStart in Es. rewrite Es in P, S.
  destruct (formatting_mergeRun_spec first rest S)
    as (o & tail & -> & Hos & Hoe & _ & Hcov & _).
  assert (Hin' : In s (first :: rest))
    by (eapply Permutation_in; [apply Permutation_sym; exact P | exact Hin]).
  destruct Hin' as [<-|Hin'].
  - exists o. split; [left; reflexivity | unfold output.covers; lia].
  - apply Hcov. exact Hin'.
Qed.

Lemma formatting_merge_covers_input_witness :
  let a := {| output.StartLine := 5; output.EndLine := 10;
              output.Content := "a";
              output.Language := "go"; output.Path := "f.go" |} in
  let b := {| output.StartLine := 9; output.EndLine := 15;
              output.Content := "b";
              output.Language := "go"; output.Path := "f.go" |} in
  In b [b; a] /\
  exists o, In o (output.mergeFormattingSnippets [b; a]) /\ output.covers o b.
Proof.
  intros a b.
  assert (H : In b [b; a]) by (left; reflexivity).
  split; [exact H|].
  exact (formatting_merge_covers_input [b; a] b H).
Defined.

(** X5: formatting never builds new text.  The content of every snippet
    that [mergeFormattingSnippets] returns is the content of one of the
    input snippets, unchanged: when a snippet's range is extended over a
    later snippet, by the branch that means to append lines, the number of
    lines to add is computed after the end line has been overwritten and is
    always zero. *)
Theorem formatting_merge_content_from_input
        (l : list output.formattingSnippet) (o : output.formattingSnippet) :
  In o (output.mergeFormattingSnippets l) ->
  exists s, In s l /\ output.Content o = output.Content s.
Proof.
  intros Hin.
  destruct (Z_le_gt_dec (Z.of_nat (List.length l)) 1) as [Hshort|Hlen].
  { unfold output.mergeFormattingSnippets in Hin.
    apply Z.leb_le in Hshort. rewrite Hshort in Hin.
    exists o. split; [exact Hin | reflexivity]. }
  apply Z.gt_lt in Hlen.
  destruct (mergeFormattingSnippets_run l Hlen) as (first & rest & Es & E).
  rewrite E in Hin.
  pose proof (sortSlice_perm output.StartLine l) as P.
  pose proof (sortSlice_sorted output.StartLine l) as S.
  unfold output.lessStart in Es. rewrite Es in P, S.
  destruct (formatting_mergeRun_spec first rest S)
    as (o0 & tail & Er & _ & _ & _ & _ & Hfrom).
  rewrite Er in Hin.
  destruct (Hfrom o Hin) as (s & Hs & Ec).
  exists s. split; [eapply Permutation_in; [exact P | exact Hs] | exact Ec].
Qed.

Lemma formatting_merge_content_from_input_witness :
  let a := {| output.StartLine := 5; output.EndLine := 10;
              output.Content := "a";
              output.Language := "go"; output.Path := "f.go" |} in
  let b := {| output.StartLine := 9; output.EndLine := 15;
              output.Content := "b";
              output.Language := "go"; output.Path := "f.go" |} in
  let merged := {| output.StartLine := 5; output.EndLine := 15;
                   output.Content := "a";
                   output.Language := "go"; output.Path := "f.go" |} in
  In merged (output.mergeFormattingSnippets [b; a]) /\
  exists s, In s [b; a] /\ output.Content merged = output.Content s.
Proof.
  intros a b merged.
  assert (H : In merged (output.mergeFormattingSnippets [b; a]))
    by (left; reflexivity).
  split; [exact H|].
  exact (formatting_merge_content_from_input [b; a] merged H).
Defined.

(* ================================================================= *)
(** ** More on [extractSnippet] and [findFunctionBounds] *)

Lemma snippetOf_in_range (lines : list string) (start end_ : Z) (info : string) :
  0 <= start -> start <= end_ + 1 -> end_ + 1 <= Z.of_nat (List.length lines) ->
  snippetOf lines start end_ info =
    Some {| StartLine := start + 1; EndLine := end_ + 1;
            Content := linesBetween lines (start + 1) (end_ + 1);
            MatchInfo := info |}.
Proof.
  intros H0 H1 H2. unfold snippetOf, sliceOf, linesBetween.
  replace ((0 <=? start) && (start <=? end_ + 1) &&
           (end_ + 1 <=? Z.of_nat (List.length lines))) with true
    by (symmetry; rewrite !andb_true_iff, !Z.leb_le; lia).
  replace (end_ + 1 - (start + 1) + 1) with (end_ + 1 - start) by lia.
  replace (start + 1 - 1) with start by lia.
  reflexivity.
Qed.

Lemma snippetOf_panics (lines : list string) (start end_ : Z) (info : string) :
  end_ + 1 < start -> snippetOf lines start end_ info = None.
Proof.
  intros H. unfold snippetOf, sliceOf.
  replace (start <=? end_ + 1) with false by (symmetry; apply Z.leb_gt; lia).
  rewrite andb_false_r. reflexivity.
Qed.

(** The snippet of the context-lines branch, for a context of [c >= 0]
    lines. *)
Lemma contextSnippet_spec (lines : list string) (matchLine : Z)
      (opts : Options) :
  0 <= matchLine < Z.of_nat (List.length lines) ->
  0 <= ContextLines opts ->
  matchLine + ContextLines opts <= maxInt ->
  exists s,
    contextSnippet lines matchLine opts = Some s /\
    StartLine s = Z.max 1 (matchLine + 1 - ContextLines opts) /\
    EndLine s = Z.min (Z.of_nat (List.length lines))
                      (matchLine + 1 + ContextLines opts) /\
    StartLine s <= matchLine + 1 <= EndLine s /\
    Content s = linesBetween lines (StartLine s) (EndLine s) /\
    MatchInfo s = ("Match at line " ++ Itoa (matchLine + 1))%string.
Proof.
  intros Hm Hc Hmax.
  unfold contextSnippet.
  rewrite !wrap64_id by (unfold isInt, minInt, maxInt in *; lia).
  set (start := max 0 (matchLine - ContextLines opts)).
  set (end_ := min (Z.of_nat (List.length lines) - 1)
                   (matchLine + ContextLines opts)).
  assert (Hs : start = Z.max 0 (matchLine - ContextLines opts)).
  { unfold start, max.
    destruct (Z.gtb_spec 0 (matchLine - ContextLines opts)); lia. }
  assert (He : end_ = Z.min (Z.of_nat (List.length lines) - 1)
                            (matchLine + ContextLines opts)).
  { unfold end_, min.
    destruct (Z.ltb_spec (Z.of_nat (List.length lines) - 1)
                         (matchLine + ContextLines opts)); lia. }
  rewrite snippetOf_in_range by lia.
  eexists. split; [reflexivity|].
  cbn [StartLine EndLine Content MatchInfo].
  repeat split; try lia.
Qed.

(** A sum of two [int]s above [maxInt] wraps around. *)
Lemma wrap64_over (z : Z) :
  maxInt < z -> z <= 2 * maxInt + 1 -> wrap64 z = z - 2 ^ 64.
Proof.
  unfold maxInt, wrap64. intros H1 H2.
  replace (z + 2 ^ 63) with (z - 2 ^ 63 + 1 * 2 ^ 64) by lia.
  rewrite Z_mod_plus_full, Z.mod_small; lia.
Qed.

(** When [matchLine + ContextLines] exceeds [maxInt], the end of the slice
    expression of the context-lines branch is negative: the expression
    panics. *)
Lemma contextSnippet_overflow (lines : list string) (matchLine : Z)
      (opts : Options) :
  0 <= matchLine <= maxInt ->
  0 <= ContextLines opts <= maxInt ->
  maxInt < matchLine + ContextLines opts ->
  contextSnippet lines matchLine opts = None.
Proof.
  intros Hm Hc Hover. unfold contextSnippet.
  rewrite (wrap64_id (matchLine - ContextLines opts))
    by (unfold isInt, minInt, maxInt in *; lia).
  rewrite wrap64_over by (unfold maxInt in *; lia).
  apply snippetOf_panics.
  unfold max, min.
  destruct (Z.gtb_spec 0 (matchLine - ContextLines opts));
    destruct (Z.ltb_spec (Z.of_nat (List.length lines) - 1)
                         (matchLine + ContextLines opts - 2 ^ 64));
    unfold maxInt in *; lia.
Qed.

(** X6: the context mode.  For a match on an in-range line and a context
    of [c >= 0] lines, [extractSnippet] returns the lines from [c] before
    the match to [c] after it, cut at the first and the last line of the
    file: the snippet holds the match line, and its content is these lines
    joined by newlines.  This is so as long as the sum of the index of the
    match line and [c] is at most [maxInt]; when it is larger, the sum
    wraps around to a negative number and the slice expression of
    [extractSnippet] panics. *)
Theorem extractSnippet_context (lines : list string) (matchLine : Z)
        (opts : Options) :
  EntireFunction opts = false ->
  0 <= matchLine < Z.of_nat (List.length lines) ->
  isInt matchLine ->
  isInt (ContextLines opts) ->
  0 <= ContextLines opts ->
  (matchLine + ContextLines opts <= maxInt ->
   exists s,
     extractSnippet lines matchLine opts = Some s /\
     StartLine s = Z.max 1 (matchLine + 1 - ContextLines opts) /\
     EndLine s = Z.min (Z.of_nat (List.length lines))
                       (matchLine + 1 + ContextLines opts) /\
     StartLine s <= matchLine + 1 <= EndLine s /\
     Content s = linesBetween lines (StartLine s) (EndLine s) /\
     MatchInfo s = ("Match at line " ++ Itoa (matchLine + 1))%string) /\
  (maxInt < matchLine + ContextLines opts ->
   extractSnippet lines matchLine opts = None).
Proof.
  intros Hf Hm Him Hic Hc.
  unfold extractSnippet. rewrite Hf.
  split.
  - intros Hmax. apply contextSnippet_spec; assumption.
  - intros Hover. apply contextSnippet_overflow.
    + unfold isInt in Him. lia.
    + unfold isInt in Hic. lia.
    + exact Hover.
Qed.

Lemma extractSnippet_context_witness :
  (exists s,
     extractSnippet ["a"; "b"; "c"; "d"] 0
       {| ContextLines := 1; EntireFunction := false; FuzzySearch := false |}
       = Some s /\
     StartLine s = Z.max 1 (0 + 1 - 1) /\
     EndLine s = Z.min (Z.of_nat (List.length ["a"; "b"; "c"; "d"]))
                       (0 + 1 + 1) /\
     StartLine s <= 0 + 1 <= EndLine s /\
     Content s = linesBetween ["a"; "b"; "c"; "d"] (StartLine s) (EndLine s) /\
     MatchInfo s = ("Match at line " ++ Itoa (0 + 1))%string) /\
  extractSnippet ["a"; "b"; "c"; "d"] 1
    {| ContextLines := maxInt; EntireFunction := false;
       FuzzySearch := false |} = None.
Proof.
  assert (I0 : isInt 0) by (unfold isInt, minInt, maxInt; lia).
  assert (I1 : isInt 1) by (unfold isInt, minInt, maxInt; lia).
  assert (IM : isInt maxInt) by (unfold isInt, minInt, maxInt; lia).
  assert (L0 : 0 <= 0 < Z.of_nat (List.length ["a"; "b"; "c"; "d"]))
    by (simpl; lia).
  assert (L1 : 0 <= 1 < Z.of_nat (List.length ["a"; "b"; "c"; "d"]))
    by (simpl; lia).
  split.
  - refine (proj1 (extractSnippet_context ["a"; "b"; "c"; "d"] 0
                     {| ContextLines := 1; EntireFunction := false;
                        FuzzySearch := false |} eq_refl L0 I0 I1 _) _).
    + simpl. lia.
    + unfold maxInt. simpl. lia.
  - refine (proj2 (extractSnippet_context ["a"; "b"; "c"; "d"] 1
                     {| ContextLines := maxInt; EntireFunction := false;
                        FuzzySearch := false |} eq_refl L1 I1 IM _) _).
    + unfold maxInt. simpl. lia.
    + unfold maxInt. simpl. lia.
Defined.

(** With a negative number of context lines the start of the slice
    expression of the context-lines branch lies after its end, or its end
    is negative: the expression panics.  The bound on the number of lines
    covers every slice that fits in memory. *)
Lemma contextSnippet_negative (lines : list string) (matchLine : Z)
      (opts : Options) :
  0 <= matchLine < Z.of_nat (List.length lines) ->
  2 * Z.of_nat (List.length lines) <= maxInt ->
  isInt (ContextLines opts) ->
  ContextLines opts < 0 ->
  contextSnippet lines matchLine opts = None.
Proof.
  intros Hm Hn Hic Hc.
  unfold contextSnippet.
  rewrite (wrap64_id (matchLine + ContextLines opts))
    by (unfold isInt, minInt, maxInt in *; lia).
  destruct (Z_le_gt_dec (matchLine - ContextLines opts) maxInt) as [Hle|Hgt].
  - rewrite wrap64_id by (unfold isInt, minInt, maxInt in *; lia).
    apply snippetOf_panics.
    unfold max, min.
    destruct (Z.gtb_spec 0 (matchLine - ContextLines opts));
      destruct (Z.ltb_spec (Z.of_nat (List.length lines) - 1)
                           (matchLine + ContextLines opts)); lia.
  - rewrite wrap64_over by (unfold isInt, minInt, maxInt in *; lia).
    apply snippetOf_panics.
    unfold max, min.
    destruct (Z.gtb_spec 0 (matchLine - ContextLines opts - 2 ^ 64));
      destruct (Z.ltb_spec (Z.of_nat (List.length lines) - 1)
                           (matchLine + ContextLines opts));
      unfold isInt, minInt, maxInt in *; lia.
Qed.

(** The first loop of [findFunctionBounds] stops on the closest line at or
    above the match line that holds [func ] or [function ]; the first line
    of the file is taken without being looked at. *)
Lemma scanUp_spec (lines : list string) (n : nat) :
  (n < List.length lines)%nat ->
  exists s : nat,
    scanUp lines n = Some (Z.of_nat s) /\ (s <= n)%nat /\
    (s = 0%nat \/
     exists line, nth_error lines s = Some line /\ startsFunction line = true) /\
    (forall j line, (s < j <= n)%nat -> nth_error lines j = Some line ->
                    startsFunction line = false).
Proof.
  induction n as [|k IH]; intros Hn.
  - exists 0%nat. repeat split; [lia | left; reflexivity | intros; lia].
  - cbn [scanUp].
    destruct (nth_error lines (S k)) as [line|] eqn:E.
    + fold (startsFunction line).
      destruct (startsFunction line) eqn:Ek.
      * exists (S k). repeat split; [lia | | intros; lia].
        right. exists line. split; [exact E | exact Ek].
      * destruct IH as (s & Es & Hs & Hkey & Hnone); [lia|].
        exists s. repeat split; [exact Es | lia | exact Hkey |].
        intros j l Hj Hl.
        destruct (Nat.eq_dec j (S k)) as [->|Hne].
        -- congruence.
        -- apply (Hnone j l); [lia | exact Hl].
    + apply nth_error_None in E. lia.
Qed.

(** X7: the bounds that [findFunctionBounds] returns for an in-range match
    line.  The start is the closest line at or above the match that holds
    [func ] or [function ], or the first line of the file.  The end is
    either a line after the match, or the fallback: 20 lines after the
    start, cut at the last line.  So the match line lies within the bounds
    whenever it is at most 20 lines below the start. *)
Theorem findFunctionBounds_spec (lines : list string) (matchLine : Z) :
  0 <= matchLine < Z.of_nat (List.length lines) ->
  exists (start : nat) (end_ : Z),
    findFunctionBounds lines matchLine = Some (Z.of_nat start, end_) /\
    Z.of_nat start <= matchLine /\
    (start = 0%nat \/
     exists line,
       nth_error lines start = Some line /\ startsFunction line = true) /\
    (forall j line, (start < j)%nat -> Z.of_nat j <= matchLine ->
       nth_error lines j = Some line -> startsFunction line = false) /\
    (matchLine < end_ \/
     end_ = Z.min (Z.of_nat (List.length lines) - 1) (Z.of_nat start + 20)) /\
    (matchLine - Z.of_nat start <= 20 -> matchLine <= end_).
Proof.
  intros Hm. unfold findFunctionBounds.
  assert (Hs : exists s : nat,
             (if matchLine >? 0 then scanUp lines (Z.to_nat matchLine)
              else Some matchLine) = Some (Z.of_nat s) /\
             Z.of_nat s <= matchLine /\
             (s = 0%nat \/
              exists line, nth_error lines s = Some line /\
                           startsFunction line = true) /\
             (forall j line, (s < j)%nat -> Z.of_nat j <= matchLine ->
                nth_error lines j = Some line -> startsFunction line = false)).
  { destruct (Z.gtb_spec matchLine 0) as [Hpos|H0].
    - destruct (scanUp_spec lines (Z.to_nat matchLine))
        as (s & Es & Hs & Hkey & Hnone); [lia|].
      exists s. repeat split; [exact Es | lia | exact Hkey |].
      intros j line Hj Hjm. apply Hnone. lia.
    - exists 0%nat. assert (matchLine = 0) as -> by lia.
      repeat split; [lia | left; reflexivity | intros; lia]. }
  destruct Hs as (s & -> & Hsm & Hkey & Hnone).
  replace (Z.of_nat s <? 0) with false by (symmetry; apply Z.ltb_ge; lia).
  cbn [andb].
  eexists s, _. split; [reflexivity|].
  split; [exact Hsm|]. split; [exact Hkey|]. split; [exact Hnone|].
  pose proof (scanDown_bounds (skipn (Z.to_nat (Z.of_nat s)) lines)
                              (Z.of_nat s) matchLine 0) as Hd.
  cbv zeta in Hd.
  assert (Hmin : min (Z.of_nat (List.length lines) - 1) (Z.of_nat s + 20)
                 = Z.min (Z.of_nat (List.length lines) - 1) (Z.of_nat s + 20)).
  { unfold min.
    destruct (Z.ltb_spec (Z.of_nat (List.length lines) - 1)
                         (Z.of_nat s + 20)); lia. }
  destruct Hd as [H0|Hd].
  - rewrite H0. cbn [Z.eqb]. rewrite Hmin. split; [right; reflexivity | lia].
  - destruct (Z.eqb_spec
                (scanDown (skipn (Z.to_nat (Z.of_nat s)) lines)
                          (Z.of_nat s) matchLine 0) 0) as [E|E].
    + lia.
    + split; [left; lia | lia].
Qed.

Lemma findFunctionBounds_spec_witness :
  0 <= 1 < Z.of_nat (List.length ["func f() {"; "x"; "}"]) /\
  exists (start : nat) (end_ : Z),
    findFunctionBounds ["func f() {"; "x"; "}"] 1
      = Some (Z.of_nat start, end_) /\
    Z.of_nat start <= 1 /\
    (start = 0%nat \/
     exists line,
       nth_error ["func f() {"; "x"; "}"] start = Some line /\
       startsFunction line = true) /\
    (forall j line, (start < j)%nat -> Z.of_nat j <= 1 ->
       nth_error ["func f() {"; "x"; "}"] j = Some line ->
       startsFunction line = false) /\
    (1 < end_ \/
     end_ = Z.min (Z.of_nat (List.length ["func f() {"; "x"; "}"]) - 1)
                  (Z.of_nat start + 20)) /\
    (1 - Z.of_nat start <= 20 -> 1 <= end_).
Proof.
  assert (H : 0 <= 1 < Z.of_nat (List.length ["func f() {"; "x"; "}"]))
    by (simpl; lia).
  split; [exact H|].
  exact (findFunctionBounds_spec ["func f() {"; "x"; "}"] 1 H).
Defined.

(** X8: a match on the last line of the file, in whole-function mode.  No
    line after the match can close the function, so [extractSnippet] ends
    the snippet 20 lines after the function start: when the start found
    is more than 20 lines above the match, the snippet leaves out the match
    line, while its description still names that line. *)
Theorem extractSnippet_match_on_last_line (lines : list string)
        (matchLine : Z) (opts : Options) :
  EntireFunction opts = true ->
  0 <= matchLine ->
  matchLine = Z.of_nat (List.length lines) - 1 ->
  exists s,
    extractSnippet lines matchLine opts = Some s /\
    1 <= StartLine s <= matchLine + 1 /\
    EndLine s = Z.min (matchLine + 1) (StartLine s + 20) /\
    (StartLine s + 20 < matchLine + 1 -> EndLine s < matchLine + 1) /\
    Content s = linesBetween lines (StartLine s) (EndLine s) /\
    MatchInfo s = ("Function containing match at line " ++
                   Itoa (matchLine + 1))%string.
Proof.
  intros Hf H0 Hlast.
  destruct (findFunctionBounds_bounds lines matchLine) as
    (start & end_ & E & Hs & He); [lia|].
  assert (Eend : end_ = Z.min matchLine (start + 20)).
  { unfold findFunctionBounds in E.
    destruct (if matchLine >? 0 then scanUp lines (Z.to_nat matchLine)
              else Some matchLine) as [s|]; [|discriminate].
    destruct (s <? 0);
      [discriminate|].
    injection E as <- <-.
    pose proof (scanDown_bounds (skipn (Z.to_nat s) lines) s matchLine 0) as Hd.
    cbv zeta in Hd. rewrite length_skipn in Hd.
    destruct Hd as [Hd|Hd]; [|lia].
    rewrite Hd. cbn [Z.eqb]. unfold min.
    destruct (Z.ltb_spec (Z.of_nat (List.length lines) - 1) (s + 20)); lia. }
  unfold extractSnippet. rewrite Hf, E.
  replace (start =? -1) with false by (symmetry; apply Z.eqb_neq; lia).
  replace (end_ =? -1) with false by (symmetry; apply Z.eqb_neq; lia).
  cbn [negb andb].
  rewrite snippetOf_in_range by lia.
  eexists. split; [reflexivity|].
  cbn [StartLine EndLine Content MatchInfo].
  repeat split; try lia.
Qed.

Lemma extractSnippet_match_on_last_line_witness :
  EntireFunction {| ContextLines := 0; EntireFunction := true;
                    FuzzySearch := false |} = true /\
  exists s,
    extractSnippet ["func f() {"; "x"; "}"] 2
      {| ContextLines := 0; EntireFunction := true; FuzzySearch := false |}
      = Some s /\
    1 <= StartLine s <= 2 + 1 /\
    EndLine s = Z.min (2 + 1) (StartLine s + 20) /\
    (StartLine s + 20 < 2 + 1 -> EndLine s < 2 + 1) /\
    Content s = linesBetween ["func f() {"; "x"; "}"] (StartLine s) (EndLine s) /\
    MatchInfo s = ("Function containing match at line " ++ Itoa (2 + 1))%string.
Proof.
  split; [reflexivity|].
  refine (extractSnippet_match_on_last_line ["func f() {"; "x"; "}"] 2
            {| ContextLines := 0; EntireFunction := true;
               FuzzySearch := false |} eq_refl _ _).
  - lia.
  - reflexivity.
Defined.

(* ================================================================= *)
(** ** [searchInFile] and [SearchInFiles] *)

(** Where the context fits, [extractSnippet] returns a snippet of the
    file. *)
Lemma extractSnippet_inFile (lines : list string) (matchLine : Z)
      (opts : Options) :
  0 <= matchLine < Z.of_nat (List.length lines) ->
  searchFiles.contextFits opts matchLine ->
  exists s, extractSnippet lines matchLine opts = Some s /\
            searchFiles.inFile (Z.of_nat (List.length lines)) s.
Proof.
  intros Hm Hfits. unfold extractSnippet.
  destruct (EntireFunction opts) eqn:Hf.
  - destruct (findFunctionBounds_bounds lines matchLine Hm)
      as (start & end_ & E & Hs & He).
    rewrite E.
    replace (start =? -1) with false by (symmetry; apply Z.eqb_neq; lia).
    replace (end_ =? -1) with false by (symmetry; apply Z.eqb_neq; lia).
    cbn [negb andb].
    rewrite snippetOf_in_range by lia.
    eexists. split; [reflexivity|].
    unfold searchFiles.inFile. cbn [StartLine EndLine]. lia.
  - destruct Hfits as [Hfits|[Hc Hmax]]; [congruence|].
    destruct (contextSnippet_spec lines matchLine opts Hm Hc Hmax)
      as (s & -> & Hs & He & Hin & _).
    exists s. split; [reflexivity|].
    unfold searchFiles.inFile. lia.
Qed.

(** Where it does not fit, [extractSnippet] panics. *)
Lemma extractSnippet_panics (lines : list string) (matchLine : Z)
      (opts : Options) :
  0 <= matchLine < Z.of_nat (List.length lines) ->
  2 * Z.of_nat (List.length lines) <= maxInt ->
  isInt (ContextLines opts) ->
  EntireFunction opts = false ->
  ContextLines opts < 0 \/ maxInt < matchLine + ContextLines opts ->
  extractSnippet lines matchLine opts = None.
Proof.
  intros Hm Hn Hic Hf Hbad. unfold extractSnippet. rewrite Hf.
  destruct (Z_lt_ge_dec (ContextLines opts) 0) as [Hneg|Hpos].
  - apply contextSnippet_negative; assumption.
  - destruct Hbad as [Hbad|Hbad]; [lia|].
    apply contextSnippet_overflow; [| |exact Hbad];
      unfold isInt in Hic; lia.
Qed.

(** So a snippet that [extractSnippet] returns is a snippet of the file. *)
Lemma extractSnippet_Some_inFile (lines : list string) (matchLine : Z)
      (opts : Options) (s : CodeSnippet) :
  0 <= matchLine < Z.of_nat (List.length lines) ->
  2 * Z.of_nat (List.length lines) <= maxInt ->
  isInt (ContextLines opts) ->
  extractSnippet lines matchLine opts = Some s ->
  searchFiles.inFile (Z.of_nat (List.length lines)) s.
Proof.
  intros Hm Hn Hic E.
  assert (Hdec : searchFiles.contextFits opts matchLine \/
                 (EntireFunction opts = false /\
                  (ContextLines opts < 0 \/
                   maxInt < matchLine + ContextLines opts))).
  { unfold searchFiles.contextFits.
    destruct (EntireFunction opts); [left; left; reflexivity|].
    destruct (Z_lt_ge_dec (ContextLines opts) 0) as [Hneg|Hpos];
      [right; split; [reflexivity | left; exact Hneg]|].
    destruct (Z_le_gt_dec (matchLine + ContextLines opts) maxInt)
      as [Hle|Hgt].
    - left. right. lia.
    - right. split; [reflexivity | right; lia]. }
  destruct Hdec as [Hfits|[Hf Hbad]].
  - destruct (extractSnippet_inFile lines matchLine opts Hm Hfits)
      as (s' & E' & Hin).
    rewrite E' in E. injection E as <-. exact Hin.
  - rewrite (extractSnippet_panics lines matchLine opts Hm Hn Hic Hf Hbad)
      in E.
    discriminate.
Qed.

(** The loop of [searchInFile] over the lines from index [i] on: one
    snippet for each line that matches, each within the file. *)
Lemma snippetsFrom_spec (matches : string -> bool) (lines : list string)
      (opts : Options) (rest : list string) (i : Z) :
  0 <= i -> i + Z.of_nat (List.length rest) <= Z.of_nat (List.length lines) ->
  (forall k line,
     nth_error rest k = Some line -> matches line = true ->
     searchFiles.contextFits opts (i + Z.of_nat k)) ->
  exists snippets,
    snippetsFrom matches lines opts i rest = Some snippets /\
    List.length snippets = List.length (filter matches rest) /\
    Forall (searchFiles.inFile (Z.of_nat (List.length lines))) snippets.
Proof.
  revert i.
  induction rest as [|line rest IH]; intros i H0 Hlen Hfits;
    cbn [snippetsFrom filter].
  - exists []. repeat split. constructor.
  - cbn [List.length] in Hlen.
    destruct (IH (i + 1)) as (snippets & E & Hn & Hall); [lia | lia | |].
    { intros k l Hk Hl.
      replace (i + 1 + Z.of_nat k) with (i + Z.of_nat (S k)) by lia.
      apply (Hfits (S k) l); assumption. }
    rewrite E.
    destruct (matches line) eqn:Hline.
    + destruct (extractSnippet_inFile lines i opts) as (s & -> & Hs);
        [lia | |].
      { replace i with (i + Z.of_nat 0) by (cbn; lia).
        apply (Hfits 0%nat line); [reflexivity | exact Hline]. }
      exists (s :: snippets). split; [reflexivity|].
      split; [cbn [List.length]; lia | constructor; assumption].
    + exists snippets. repeat split; assumption.
Qed.

(** The loop panics when the context of a matching line does not fit. *)
Lemma snippetsFrom_panics (matches : string -> bool) (lines : list string)
      (opts : Options) (rest : list string) (i : Z) (k : nat)
      (line : string) :
  2 * Z.of_nat (List.length lines) <= maxInt ->
  isInt (ContextLines opts) ->
  EntireFunction opts = false ->
  0 <= i -> i + Z.of_nat (List.length rest) <= Z.of_nat (List.length lines) ->
  nth_error rest k = Some line -> matches line = true ->
  ContextLines opts < 0 \/ maxInt < i + Z.of_nat k + ContextLines opts ->
  snippetsFrom matches lines opts i rest = None.
Proof.
  intros Hn Hic Hf. revert i k.
  induction rest as [|l rest IH]; intros i k H0 Hlen Hk Hline Hbad.
  - destruct k; discriminate Hk.
  - cbn [List.length] in Hlen. cbn [snippetsFrom].
    destruct k as [|k]; cbn [nth_error] in Hk.
    + injection Hk as ->. rewrite Hline.
      rewrite (extractSnippet_panics lines i opts);
        [reflexivity | lia | exact Hn | exact Hic | exact Hf |].
      destruct Hbad as [Hbad|Hbad]; [left; exact Hbad | right].
      cbn in Hbad. lia.
    + assert (E : snippetsFrom matches lines opts (i + 1) rest = None).
      { apply (IH (i + 1) k); [lia | lia | exact Hk | exact Hline |].
        destruct Hbad as [Hbad|Hbad]; [left; exact Hbad | right]. lia. }
      rewrite E.
      destruct (matches l); [|reflexivity].
      destruct (extractSnippet lines i opts); reflexivity.
Qed.

(** Every snippet that the loop returns is a snippet of the file. *)
Lemma snippetsFrom_inFile (matches : string -> bool) (lines : list string)
      (opts : Options) (rest : list string) (i : Z)
      (snippets : list CodeSnippet) :
  2 * Z.of_nat (List.length lines) <= maxInt ->
  isInt (ContextLines opts) ->
  0 <= i -> i + Z.of_nat (List.length rest) <= Z.of_nat (List.length lines) ->
  snippetsFrom matches lines opts i rest = Some snippets ->
  Forall (searchFiles.inFile (Z.of_nat (List.length lines))) snippets.
Proof.
  intros Hn Hic. revert i snippets.
  induction rest as [|l rest IH]; intros i snippets H0 Hlen E;
    cbn [snippetsFrom] in E.
  - injection E as <-. constructor.
  - cbn [List.length] in Hlen.
    destruct (matches l).
    + destruct (extractSnippet lines i opts) as [s|] eqn:Es;
        [|discriminate].
      destruct (snippetsFrom matches lines opts (i + 1) rest)
        as [more|] eqn:Em; [|discriminate].
      injection E as <-.
      constructor.
      * apply (extractSnippet_Some_inFile lines i opts s); try assumption.
        lia.
      * apply (IH (i + 1) more); [lia | lia | exact Em].
    + apply (IH (i + 1) snippets); [lia | lia | exact E].
Qed.

(** X9: [searchInFile] on a readable file with an expression that
    compiles, whatever [regexp.Compile] and [MatchString] do.  When for
    every matching line the search runs in whole-function mode, or with a
    context of [c >= 0] lines whose sum with the index of the line is at
    most [maxInt], the function does not panic and returns one snippet for
    each line that matches, and each snippet is a non-empty range of lines
    of the file. *)
Theorem searchInFile_snippets (compile : Compiler) (fs : FileSystem)
        (path pattern : string) (opts : Options) (data : string)
        (matches : string -> bool) :
  fs path = Readable data ->
  compile (expressionOf pattern opts) = Some matches ->
  (forall i line,
     nth_error (fst (bufio.scanLines data)) i = Some line ->
     matches line = true ->
     searchFiles.contextFits opts (Z.of_nat i)) ->
  exists snippets,
    searchInFileWith compile fs path pattern opts = Some (Ok snippets) /\
    List.length snippets
    = List.length (filter matches (fst (bufio.scanLines data))) /\
    Forall (searchFiles.inFile
              (Z.of_nat (List.length (fst (bufio.scanLines data)))))
           snippets.
Proof.
  intros Hfs Hre Hfits. unfold searchInFileWith. rewrite Hfs, Hre. cbv zeta.
  destruct (snippetsFrom_spec matches (fst (bufio.scanLines data)) opts
              (fst (bufio.scanLines data)) 0)
    as (snippets & -> & Hn & Hall); [lia | lia | |].
  { intros k line Hk Hline. apply (Hfits k line); assumption. }
  exists snippets. repeat split; assumption.
Qed.

Lemma searchInFile_snippets_witness :
  let opts := {| ContextLines := 2; EntireFunction := false;
                 FuzzySearch := false |} in
  let data := ("x" ++ strings.newline ++ "Save" ++ strings.newline)%string in
  let n := Z.of_nat (List.length (fst (bufio.scanLines data))) in
  let matches := regexp.MatchString (regexp.MustCompile "Save") in
  finder.oneFile data "a.go" = Readable data /\
  regexpCompiler (expressionOf "Save" opts) = Some matches /\
  exists snippets,
    searchInFile (finder.oneFile data) "a.go" "Save" opts
    = Some (Ok snippets) /\
    List.length snippets
    = List.length (filter matches (fst (bufio.scanLines data))) /\
    Forall (searchFiles.inFile n) snippets.
Proof.
  intros opts data n matches.
  assert (H1 : finder.oneFile data "a.go" = Readable data) by reflexivity.
  assert (H2 : regexpCompiler (expressionOf "Save" opts) = Some matches)
    by reflexivity.
  assert (H3 : forall i line,
             nth_error (fst (bufio.scanLines data)) i = Some line ->
             matches line = true ->
             searchFiles.contextFits opts (Z.of_nat i)).
  { intros i line Hi _. right.
    assert (Hlt : (i < List.length (fst (bufio.scanLines data)))%nat)
      by (apply nth_error_Some; rewrite Hi; discriminate).
    change (List.length (fst (bufio.scanLines data))) with 2%nat in Hlt.
    split; [simpl; lia | unfold maxInt; simpl; lia]. }
  split; [exact H1|]. split; [exact H2|].
  exact (searchInFile_snippets regexpCompiler (finder.oneFile data) "a.go"
           "Save" opts data matches H1 H2 H3).
Defined.

(** X10: where the context of a matching line does not fit, the search
    panics.  Outside the whole-function mode, with [ContextLines < 0], or
    with a number of context lines whose sum with the index of a matching
    line exceeds [maxInt], [extractSnippet] asks for a slice whose start
    lies after its end or whose end is negative, so [searchInFile] stops
    with a run-time panic on every readable file that has such a matching
    line, whatever [regexp.Compile] and [MatchString] do.  The file has
    fewer than [2 ^ 62] lines, as every slice in memory has. *)
Theorem searchInFile_context_panics (compile : Compiler) (fs : FileSystem)
        (path pattern : string) (opts : Options) (data : string)
        (matches : string -> bool) (i : nat) (line : string) :
  fs path = Readable data ->
  compile (expressionOf pattern opts) = Some matches ->
  2 * Z.of_nat (List.length (fst (bufio.scanLines data))) <= maxInt ->
  isInt (ContextLines opts) ->
  EntireFunction opts = false ->
  nth_error (fst (bufio.scanLines data)) i = Some line ->
  matches line = true ->
  ContextLines opts < 0 \/ maxInt < Z.of_nat i + ContextLines opts ->
  searchInFileWith compile fs path pattern opts = None.
Proof.
  intros Hfs Hre Hn Hic Hf Hi Hline Hbad.
  unfold searchInFileWith. rewrite Hfs, Hre. cbv zeta.
  rewrite (snippetsFrom_panics matches _ opts _ 0 i line Hn Hic Hf);
    [reflexivity | lia | lia | exact Hi | exact Hline |].
  destruct Hbad as [Hbad|Hbad]; [left; exact Hbad | right; lia].
Qed.

Lemma searchInFile_context_panics_witness :
  let data := ("x" ++ strings.newline ++ "Save" ++ strings.newline)%string in
  searchInFile (finder.oneFile data) "a.go" "Save"
    {| ContextLines := -1; EntireFunction := false; FuzzySearch := false |}
  = None /\
  searchInFile (finder.oneFile data) "a.go" "Save"
    {| ContextLines := maxInt; EntireFunction := false;
       FuzzySearch := false |}
  = None.
Proof.
  intros data.
  assert (H1 : finder.oneFile data "a.go" = Readable data) by reflexivity.
  assert (H3 : 2 * Z.of_nat (List.length (fst (bufio.scanLines data)))
               <= maxInt) by (vm_compute; discriminate).
  assert (H5 : nth_error (fst (bufio.scanLines data)) 1 = Some "Save")
    by reflexivity.
  assert (H6 : regexp.MatchString (regexp.MustCompile "Save") "Save" = true)
    by reflexivity.
  split.
  - refine (searchInFile_context_panics regexpCompiler (finder.oneFile data)
              "a.go" "Save"
              {| ContextLines := -1; EntireFunction := false;
                 FuzzySearch := false |}
              data (regexp.MatchString (regexp.MustCompile "Save")) 1 "Save"
              H1 eq_refl H3 _ eq_refl H5 H6 _).
    + unfold isInt, minInt, maxInt. simpl. lia.
    + left. simpl. lia.
  - refine (searchInFile_context_panics regexpCompiler (finder.oneFile data)
              "a.go" "Save"
              {| ContextLines := maxInt; EntireFunction := false;
                 FuzzySearch := false |}
              data (regexp.MatchString (regexp.MustCompile "Save")) 1 "Save"
              H1 eq_refl H3 _ eq_refl H5 H6 _).
    + unfold isInt, minInt, maxInt. simpl. lia.
    + right. unfold maxInt. simpl. lia.
Defined.

Lemma mergeRun_inFile (n : Z) (p : CodeSnippet) (rest : list CodeSnippet) :
  Forall (searchFiles.inFile n) (p :: rest) ->
  Forall (searchFiles.inFile n) (mergeRun p rest).
Proof.
  revert p.
  induction rest as [|c rest IH]; intros p H; cbn [mergeRun].
  - exact H.
  - inversion H as [|? ? Hp Hrest]; subst.
    inversion Hrest as [|? ? Hc Hrest']; subst.
    destruct (adjacent p c).
    + apply IH. constructor; [|exact Hrest'].
      unfold searchFiles.inFile in *.
      rewrite mergeInto_StartLine, mergeInto_EndLine. lia.
    + constructor; [exact Hp | apply IH; exact Hrest].
Qed.

(** Merging the snippets of a file of [n] lines leaves snippets of the
    file, in the merged shape. *)
Lemma mergeOverlappingSnippets_inFile (n : Z) (l : list CodeSnippet) :
  n <= maxInt - adjacencyBuffer ->
  Forall (searchFiles.inFile n) l ->
  Forall (searchFiles.inFile n) (mergeOverlappingSnippets l) /\
  mergedShape (mergeOverlappingSnippets l) /\
  (l <> [] -> mergeOverlappingSnippets l <> []).
Proof.
  intros Hn Hall.
  destruct (Z_le_gt_dec (Z.of_nat (List.length l)) 1) as [Hs|Hl].
  - unfold mergeOverlappingSnippets.
    apply Z.leb_le in Hs. rewrite Hs. apply Z.leb_le in Hs.
    split; [exact Hall|]. split; [|trivial].
    destruct (short_list_cases l Hs) as [->|[a ->]];
      split; repeat constructor.
  - destruct (mergeOverlappingSnippets_run l) as (first & rest & Es & ->);
      [lia|].
    pose proof (sortSlice_perm StartLine l) as P.
    pose proof (sortSlice_sorted StartLine l) as S.
    unfold lessStart in Es. rewrite Es in P, S.
    assert (Hall' : Forall (searchFiles.inFile n) (first :: rest))
      by (eapply Permutation_Forall; [apply Permutation_sym; exact P
                                     | exact Hall]).
    split; [apply mergeRun_inFile; exact Hall'|].
    split.
    + split; [apply mergeRun_byStart; exact S|].
      apply mergeRun_apart.
      eapply Forall_impl; [|exact Hall'].
      unfold searchFiles.inFile, minInt, maxInt, adjacencyBuffer in *.
      intros a Ha. lia.
    + intros _. destruct (mergeRun_head first rest) as (p' & tl & -> & _).
      discriminate.
Qed.

(** What [searchLoop] adds to [result.Files]. *)
Lemma searchLoop_spec (compile : Compiler) (fs : FileSystem)
      (pattern : string) (opts : Options)
      (P : searchFiles.SearchFile -> Prop) (files : list string) :
  (forall file snippets,
     In file files ->
     searchInFileWith compile fs file pattern opts = Some (Ok snippets) ->
     snippets <> [] ->
     P {| searchFiles.Path := file;
          searchFiles.Language := finder.DetectLanguage file;
          searchFiles.Snippets := mergeOverlappingSnippets snippets |}) ->
  forall result found err,
    Forall P result ->
    searchFiles.searchLoop compile fs pattern opts result files
    = Some (found, err) ->
    Forall P found.
Proof.
  induction files as [|file files IH]; intros Hstep result found err Hres E;
    cbn [searchFiles.searchLoop] in E.
  - injection E as <- _. exact Hres.
  - destruct (searchInFileWith compile fs file pattern opts)
      as [[snippets|e]|] eqn:Es;
      [| injection E as <- _; exact Hres | discriminate].
    assert (Hstep' : forall file0 snippets0,
               In file0 files ->
               searchInFileWith compile fs file0 pattern opts
               = Some (Ok snippets0) ->
               snippets0 <> [] ->
               P {| searchFiles.Path := file0;
                    searchFiles.Language := finder.DetectLanguage file0;
                    searchFiles.Snippets :=
                      mergeOverlappingSnippets snippets0 |})
      by (intros f s Hin; apply Hstep; right; exact Hin).
    destruct (Z.of_nat (List.length snippets) >? 0) eqn:Hlen.
    + eapply (IH Hstep'); [|exact E].
      apply Forall_app. split; [exact Hres|].
      constructor; [|constructor].
      apply Hstep; [left; reflexivity | exact Es |].
      intros ->. discriminate.
    + eapply (IH Hstep'); [exact Hres | exact E].
Qed.

(** X11: what [SearchInFiles] gathers.  Whenever the search returns, that
    is, unless it panics, every file of the result, with or without an
    error beside it, is one of the files asked for, has the language of
    its path, and has at least one snippet; its snippets lie within the
    file, in start-line order, each starting more than the 3-line
    adjacency buffer after the end of the one before.  This holds for
    every number of context lines and whatever [regexp.Compile] and
    [MatchString] do; the files have fewer than [2 ^ 62] lines, as every
    slice in memory has. *)
Theorem SearchInFiles_files (compile : Compiler) (fs : FileSystem)
        (files : list string) (pattern : string) (opts : Options)
        (found : list searchFiles.SearchFile) (err : option string) :
  isInt (ContextLines opts) ->
  (forall file, In file files ->
     2 * Z.of_nat (List.length (searchFiles.linesOfFile fs file)) <= maxInt) ->
  searchFiles.SearchInFilesWith compile fs files pattern opts
  = Some (found, err) ->
  Forall (fun f =>
            In (searchFiles.Path f) files /\
            searchFiles.Language f
            = finder.DetectLanguage (searchFiles.Path f) /\
            searchFiles.Snippets f <> [] /\
            mergedShape (searchFiles.Snippets f) /\
            Forall (searchFiles.inFile
                      (Z.of_nat (List.length
                         (searchFiles.linesOfFile fs (searchFiles.Path f)))))
                   (searchFiles.Snippets f))
         found.
Proof.
  intros Hic Hfiles E. unfold searchFiles.SearchInFilesWith in E.
  eapply searchLoop_spec; [| constructor | exact E].
  intros file snippets Hin Es Hne.
  cbn [searchFiles.Path searchFiles.Language searchFiles.Snippets].
  pose proof (Hfiles file Hin) as Hn.
  unfold searchFiles.linesOfFile in *. unfold searchInFileWith in Es.
  destruct (fs file) as [| |data]; try discriminate.
  destruct (compile (expressionOf pattern opts)) as [matches|];
    [|discriminate].
  cbv zeta in Es.
  destruct (snippetsFrom matches (fst (bufio.scanLines data)) opts 0
              (fst (bufio.scanLines data))) as [snippets'|] eqn:Es';
    [|discriminate].
  injection Es as <-.
  assert (Hall : Forall (searchFiles.inFile
                           (Z.of_nat (List.length
                                        (fst (bufio.scanLines data)))))
                        snippets')
    by (apply (snippetsFrom_inFile matches (fst (bufio.scanLines data)) opts
                 (fst (bufio.scanLines data)) 0 snippets' Hn Hic);
        [lia | lia | exact Es']).
  assert (Hn' : Z.of_nat (List.length (fst (bufio.scanLines data)))
                <= maxInt - adjacencyBuffer)
    by (unfold maxInt, adjacencyBuffer in *; lia).
  destruct (mergeOverlappingSnippets_inFile _ snippets' Hn' Hall)
    as (Hin' & Hshape & Hnonempty).
  split; [exact Hin|]. split; [reflexivity|].
  split; [apply Hnonempty; exact Hne|]. split; [exact Hshape | exact Hin'].
Qed.

Lemma SearchInFiles_files_witness :
  let opts := {| ContextLines := 0; EntireFunction := false;
                 FuzzySearch := false |} in
  let fs := finder.oneFile searchFiles.savesFile in
  searchFiles.SearchInFiles fs ["a.go"] "Save" opts
  = Some (searchFiles.savesFound, None) /\
  Forall (fun f =>
            In (searchFiles.Path f) ["a.go"] /\
            searchFiles.Language f
            = finder.DetectLanguage (searchFiles.Path f) /\
            searchFiles.Snippets f <> [] /\
            mergedShape (searchFiles.Snippets f) /\
            Forall (searchFiles.inFile
                      (Z.of_nat (List.length
                         (searchFiles.linesOfFile fs (searchFiles.Path f)))))
                   (searchFiles.Snippets f))
         searchFiles.savesFound.
Proof.
  intros opts fs.
  assert (H : searchFiles.SearchInFilesWith regexpCompiler fs ["a.go"]
                "Save" opts
              = Some (searchFiles.savesFound, None))
    by (vm_compute; reflexivity).
  split; [exact H|].
  refine (SearchInFiles_files regexpCompiler fs ["a.go"] "Save" opts
            searchFiles.savesFound None _ _ H).
  - unfold isInt, minInt, maxInt. simpl. lia.
  - intros file _. vm_compute. discriminate.
Defined.

Lemma searchLoop_app (compile : Compiler) (fs : FileSystem)
      (pattern : string) (opts : Options)
      (xs ys : list string) (result : list searchFiles.SearchFile) :
  searchFiles.searchLoop compile fs pattern opts result (xs ++ ys)
  = match searchFiles.searchLoop compile fs pattern opts result xs with
    | Some (found, None) =>
        searchFiles.searchLoop compile fs pattern opts found ys
    | other => other
    end.
Proof.
  revert result.
  induction xs as [|x xs IH]; intros result; cbn [searchFiles.searchLoop app].
  - reflexivity.
  - destruct (searchInFileWith compile fs x pattern opts)
      as [[snippets|e]|];
      [|reflexivity|reflexivity].
    destruct (Z.of_nat (List.length snippets) >? 0); apply IH.
Qed.

(** X12: [SearchInFiles] stops at the first file that cannot be read.  For
    a list of files with a missing or unreadable file in it, the search
    does what it does on the files before that one and, unless it has
    stopped on them already, returns what they gave together with the
    read error; the files after it are not looked at. *)
Theorem SearchInFiles_unreadable (fs : FileSystem)
        (before after : list string) (bad pattern : string) (opts : Options) :
  (forall data, fs bad <> Readable data) ->
  searchFiles.SearchInFiles fs (before ++ bad :: after) pattern opts
  = match searchFiles.SearchInFiles fs before pattern opts with
    | Some (found, None) => Some (found, Some "read failed")
    | other => other
    end.
Proof.
  intros Hbad.
  unfold searchFiles.SearchInFiles, searchFiles.SearchInFilesWith.
  rewrite searchLoop_app.
  destruct (searchFiles.searchLoop regexpCompiler fs pattern opts [] before)
    as [[found [e|]]|]; try reflexivity.
  cbn [searchFiles.searchLoop]. unfold searchInFileWith.
  destruct (fs bad) as [| |data]; try reflexivity.
  destruct (Hbad data eq_refl).
Qed.

Lemma SearchInFiles_unreadable_witness :
  let fs := fun path : string =>
              if String.eqb path "a.go" then Readable "Save" else Missing in
  let opts := {| ContextLines := 0; EntireFunction := false;
                 FuzzySearch := false |} in
  (fs "b.go" = Missing) /\
  searchFiles.SearchInFiles fs (["a.go"] ++ "b.go" :: ["a.go"]) "Save" opts
  = match searchFiles.SearchInFiles fs ["a.go"] "Save" opts with
    | Some (found, None) => Some (found, Some "read failed")
    | other => other
    end.
Proof.
  intros fs opts.
  split; [reflexivity|].
  refine (SearchInFiles_unreadable fs ["a.go"] ["a.go"] "b.go" "Save" opts _).
  intros data H. discriminate H.
Defined.

(* ================================================================= *)
(** ** Strings read from their end *)

Lemma append_nil_r (s : string) : (s ++ "")%string = s.
Proof. induction s as [|c s IH]; cbn; [reflexivity | rewrite IH; reflexivity]. Qed.

Lemma append_assoc (a b c : string) :
  ((a ++ b) ++ c)%string = (a ++ (b ++ c))%string.
Proof. induction a as [|x a IH]; cbn; [reflexivity | rewrite IH; reflexivity]. Qed.

Lemma rev_acc_app (s acc : string) :
  strings.rev_acc s acc = (strings.reverse s ++ acc)%string.
Proof.
  unfold strings.reverse. revert acc.
  induction s as [|c s IH]; intros acc; cbn [strings.rev_acc].
  - reflexivity.
  - rewrite IH, (IH (String c "")), append_assoc. reflexivity.
Qed.

Lemma reverse_cons (c : ascii) (s : string) :
  strings.reverse (String c s) = (strings.reverse s ++ String c "")%string.
Proof. unfold strings.reverse at 1. cbn [strings.rev_acc]. apply rev_acc_app. Qed.

Lemma reverse_app (a b : string) :
  strings.reverse (a ++ b) = (strings.reverse b ++ strings.reverse a)%string.
Proof.
  induction a as [|c a IH]; cbn [String.append].
  - rewrite append_nil_r. reflexivity.
  - rewrite !reverse_cons, IH, append_assoc. reflexivity.
Qed.

Lemma reverse_involutive (s : string) : strings.reverse (strings.reverse s) = s.
Proof.
  induction s as [|c s IH]; [reflexivity|].
  rewrite reverse_cons, reverse_app, IH. reflexivity.
Qed.

Lemma reverse_nonempty (c : ascii) (s : string) :
  strings.reverse (String c s) <> "".
Proof.
  rewrite reverse_cons. destruct (strings.reverse s); discriminate.
Qed.

(* ================================================================= *)
(** ** Splitting a parameter list *)

Lemma splitParamsFrom_nil (depth : Z) (cur s : string) :
  finder.splitParamsFrom depth cur s = [] -> cur = "" /\ s = "".
Proof.
  revert depth cur.
  induction s as [|c s IH]; intros depth cur; cbn [finder.splitParamsFrom].
  - destruct cur; [split; reflexivity | discriminate].
  - destruct (finder.isOpenBracket c);
      [intros H; apply IH in H; destruct H; discriminate|].
    destruct (finder.isCloseBracket c);
      [intros H; apply IH in H; destruct H; discriminate|].
    destruct (Ascii.eqb c "," && (depth =? 0)); [discriminate|].
    intros H; apply IH in H; destruct H; discriminate.
Qed.

Lemma splitParamsFrom_join (depth : Z) (cur s : string) :
  let pieces := finder.splitParamsFrom depth cur s in
  (strings.reverse cur ++ s)%string = strings.Join pieces "," \/
  (strings.reverse cur ++ s)%string = (strings.Join pieces "," ++ ",")%string.
Proof.
  cbv zeta. revert depth cur.
  assert (Hpush : forall c cur s,
             (strings.reverse (String c cur) ++ s)%string
             = (strings.reverse cur ++ String c s)%string)
    by (intros; rewrite reverse_cons, append_assoc; reflexivity).
  induction s as [|c s IH]; intros depth cur; cbn [finder.splitParamsFrom].
  - left. rewrite append_nil_r. destruct cur; reflexivity.
  - destruct (finder.isOpenBracket c); [rewrite <- Hpush; apply IH|].
    destruct (finder.isCloseBracket c); [rewrite <- Hpush; apply IH|].
    destruct (Ascii.eqb c "," && (depth =? 0)) eqn:E;
      [|rewrite <- Hpush; apply IH].
    apply andb_true_iff in E. destruct E as [E _].
    apply Ascii.eqb_eq in E. subst c.
    destruct (finder.splitParamsFrom depth "" s) as [|r rs] eqn:Er.
    + apply splitParamsFrom_nil in Er. destruct Er as [_ ->].
      right. reflexivity.
    + specialize (IH depth ""). rewrite Er in IH.
      change (strings.reverse "" ++ s)%string with s in IH.
      change (strings.Join (strings.reverse cur :: r :: rs) ",")
        with (strings.reverse cur ++ "," ++ strings.Join (r :: rs) ",")%string.
      destruct IH as [-> | ->].
      * left. reflexivity.
      * right. rewrite !append_assoc. reflexivity.
Qed.

(** X13: [splitParamsRespectingBrackets] loses no text.  Joining the pieces
    with commas gives the parameter text back, up to one trailing comma:
    the empty piece after a last comma is the only thing that is dropped. *)
Theorem splitParams_join (paramStr : string) :
  paramStr
  = strings.Join (finder.splitParamsRespectingBrackets paramStr) "," \/
  paramStr
  = (strings.Join (finder.splitParamsRespectingBrackets paramStr) ","
     ++ ",")%string.
Proof.
  exact (splitParamsFrom_join 0 "" paramStr).
Qed.

(* ================================================================= *)
(** ** Go parameters *)

Lemma allBytes_app (f : ascii -> bool) (a b : string) :
  strings.allBytes f (a ++ b) = strings.allBytes f a && strings.allBytes f b.
Proof.
  induction a as [|c a IH]; cbn [String.append strings.allBytes].
  - reflexivity.
  - rewrite IH, andb_assoc. reflexivity.
Qed.

Lemma allBytes_reverse (f : ascii -> bool) (s : string) :
  strings.allBytes f (strings.reverse s) = strings.allBytes f s.
Proof.
  induction s as [|c s IH]; [reflexivity|].
  rewrite reverse_cons, allBytes_app, IH. cbn [strings.allBytes].
  rewrite andb_true_r. apply andb_comm.
Qed.

Lemma spaceWidth_0_head (c : ascii) (s : string) :
  strings.spaceWidth (String c s) = 0%nat -> strings.isAsciiSpace c = false.
Proof.
  cbn [strings.spaceWidth]. destruct (strings.isAsciiSpace c);
    [discriminate | reflexivity].
Qed.

(** Every field that [strings.Fields] returns is a word: it is not empty
    and holds no ASCII white space. *)
Lemma fieldsFrom_words (s : string) (skip : nat) (cur : string) :
  strings.allBytes finder.wordByte cur = true ->
  Forall finder.isWord (strings.fieldsFrom skip cur s).
Proof.
  revert skip cur.
  assert (Hcur : forall c cur,
             strings.allBytes finder.wordByte (String c cur) = true ->
             finder.isWord (strings.reverse (String c cur))).
  { intros c cur H. split; [apply reverse_nonempty|].
    rewrite allBytes_reverse. exact H. }
  induction s as [|c s IH]; intros skip cur Hc; cbn [strings.fieldsFrom].
  - destruct cur as [|d cur]; [constructor|].
    constructor; [apply Hcur; exact Hc | constructor].
  - destruct skip as [|k]; [|apply IH; exact Hc].
    destruct (strings.spaceWidth (String c s)) as [|w] eqn:Ew.
    + apply IH. cbn [strings.allBytes]. rewrite Hc, andb_true_r.
      unfold finder.wordByte. rewrite (spaceWidth_0_head c s Ew). reflexivity.
    + destruct cur as [|d cur]; [apply IH; reflexivity|].
      constructor; [apply Hcur; exact Hc | apply IH; reflexivity].
Qed.

Lemma last_In {A : Type} (l : list A) (d : A) : l <> [] -> In (List.last l d) l.
Proof.
  induction l as [|a [|b l] IH]; intros H.
  - contradiction.
  - left; reflexivity.
  - right. apply IH. discriminate.
Qed.

Lemma goGroup_type (group : string) (p : finder.ParameterInfo) :
  In p (finder.goGroup group) -> finder.isWord (finder.ParamType p).
Proof.
  unfold finder.goGroup. cbv zeta.
  destruct (String.eqb (strings.TrimSpace group) ""); [intros []|].
  pose proof (fieldsFrom_words (strings.TrimSpace group) 0 "" eq_refl) as Hw.
  fold (strings.Fields (strings.TrimSpace group)) in Hw.
  rewrite Forall_forall in Hw.
  destruct (strings.Fields (strings.TrimSpace group)) as [|f fs] eqn:Ef;
    [intros []|].
  assert (Hlast : finder.isWord (finder.lastOr (f :: fs)))
    by (apply Hw, last_In; discriminate).
  destruct (2 <=? List.length (f :: fs))%nat.
  - destruct (_ || _).
    + rewrite in_map_iff. intros (name & <- & _). exact Hlast.
    + intros [<-|[]]. exact Hlast.
  - destruct (List.length (f :: fs) =? 1)%nat; [|intros []].
    intros [<-|[]]. apply Hw. left; reflexivity.
Qed.

(** X14: the type of a Go parameter is one word.  Every parameter that
    [parseParametersWithTypes] returns for Go has a type that is not empty
    and holds no ASCII white space: the type is the last field of its
    group, so of a type written with a space in it only the last word is
    kept as the type. *)
Theorem go_parameter_type_is_word (paramStr : string)
        (p : finder.ParameterInfo) :
  In p (finder.parseParametersWithTypes paramStr "go") ->
  finder.isWord (finder.ParamType p).
Proof.
  unfold finder.parseParametersWithTypes.
  destruct (String.eqb (strings.TrimSpace paramStr) ""); [intros []|].
  change (String.eqb "go" "go") with true. cbv iota.
  rewrite in_flat_map. intros (group & _ & Hin).
  exact (goGroup_type group p Hin).
Qed.

Lemma go_parameter_type_is_word_witness :
  In {| finder.ParamName := "ch chan"; finder.ParamType := "int" |}
     (finder.parseParametersWithTypes "ch chan int" "go") /\
  finder.isWord "int".
Proof.
  assert (H : In {| finder.ParamName := "ch chan"; finder.ParamType := "int" |}
                 (finder.parseParametersWithTypes "ch chan int" "go"))
    by (left; reflexivity).
  split; [exact H|].
  exact (go_parameter_type_is_word "ch chan int" _ H).
Defined.

(* ================================================================= *)
(** ** [CollectHeaders]: the rule behind every header *)

Lemma CollectHeaders_fromRule (fs : FileSystem) (path : string)
      (found : list finder.HeaderElement) (h : finder.HeaderElement) :
  finder.CollectHeaders fs path = Ok found ->
  In h found ->
  exists content,
    fs path = Readable content /\
    bufio.hasLongLine content = false /\
    finder.fromRule (finder.DetectLanguage path)
                    (map bufio.dropCR (bufio.linesOf content)) h.
Proof.
  unfold finder.CollectHeaders. intros Hc Hin.
  destruct (fs path) as [| |content] eqn:E; try discriminate.
  pose proof (collectFrom_origin (finder.DetectLanguage path) content h) as Ho.
  destruct (scanLines_spec content) as [Es El].
  destruct (finder.collectFrom (finder.DetectLanguage path) content)
    as [hs stopped] eqn:Ec.
  assert (Hstop : stopped = bufio.hasLongLine content).
  { unfold finder.collectFrom in Ec. rewrite Es in Ec.
    injection Ec as _ <-. reflexivity. }
  destruct stopped; [discriminate|]. injection Hc as <-.
  cbn [fst] in Ho. specialize (Ho Hin).
  rewrite El in Ho by (symmetry; exact Hstop).
  exists content. split; [reflexivity|]. split; [symmetry; exact Hstop|].
  exact Ho.
Qed.

(** X15: every top-level header that [CollectHeaders] returns stems from a
    line of the file: its line number is that of a line which is not
    blank and does not begin a comment, and whose trimmed text is matched by
    a rule of the file's language that has the header's type and names a
    name group. *)
Theorem header_origin (fs : FileSystem) (path : string)
        (found : list finder.HeaderElement) (h : finder.HeaderElement) :
  finder.CollectHeaders fs path = Ok found ->
  In h found ->
  exists content line pattern,
    fs path = Readable content /\
    1 <= finder.LineNum h <= Z.of_nat (List.length (bufio.linesOf content)) /\
    nth_error (map bufio.dropCR (bufio.linesOf content))
              (Z.to_nat (finder.LineNum h - 1)) = Some line /\
    finder.skipped (strings.TrimSpace line) = false /\
    In pattern (finder.patternsFor (finder.DetectLanguage path)) /\
    finder.ElementType pattern = finder.Type_ h /\
    (0 < finder.NameGroup pattern
     < List.length (regexp.FindStringSubmatch (finder.Pattern pattern)
                                              (strings.TrimSpace line)))%nat.
Proof.
  intros Hc Hin.
  destruct (CollectHeaders_fromRule fs path found h Hc Hin)
    as (content & Hfs & _ & line & pattern & Hnum & Hnth & Hskip & Hp & Hty & Hm).
  exists content, line, pattern.
  split; [exact Hfs|].
  assert (Hlt : (Z.to_nat (finder.LineNum h - 1)
                 < List.length (map bufio.dropCR (bufio.linesOf content)))%nat)
    by (apply nth_error_Some; congruence).
  rewrite length_map in Hlt.
  split; [lia|]. split; [exact Hnth|]. split; [exact Hskip|].
  split; [exact Hp|]. split; [exact Hty|].
  unfold finder.ruleMatches in Hm. apply andb_true_iff in Hm.
  destruct Hm as [H1 H2].
  apply Nat.ltb_lt in H1. apply Nat.ltb_lt in H2. lia.
Qed.

Lemma header_origin_witness :
  finder.CollectHeaders (finder.oneFile finder.defineAfterText) "a.c"
  = Ok [finder.defineAfterTextHeader] /\
  exists content line pattern,
    finder.oneFile finder.defineAfterText "a.c" = Readable content /\
    1 <= finder.LineNum finder.defineAfterTextHeader
      <= Z.of_nat (List.length (bufio.linesOf content)) /\
    nth_error (map bufio.dropCR (bufio.linesOf content))
              (Z.to_nat (finder.LineNum finder.defineAfterTextHeader - 1))
    = Some line /\
    finder.skipped (strings.TrimSpace line) = false /\
    In pattern (finder.patternsFor (finder.DetectLanguage "a.c")) /\
    finder.ElementType pattern = finder.Type_ finder.defineAfterTextHeader /\
    (0 < finder.NameGroup pattern
     < List.length (regexp.FindStringSubmatch (finder.Pattern pattern)
                                              (strings.TrimSpace line)))%nat.
Proof.
  assert (H : finder.CollectHeaders (finder.oneFile finder.defineAfterText)
                "a.c" = Ok [finder.defineAfterTextHeader])
    by (vm_compute; reflexivity).
  split; [exact H|].
  exact (header_origin (finder.oneFile finder.defineAfterText) "a.c"
           [finder.defineAfterTextHeader] finder.defineAfterTextHeader H
           (or_introl eq_refl)).
Defined.

(* ================================================================= *)
(** ** The header types a language can yield *)

Lemma lookup_In {A : Type} (key : string) (m : list (string * A)) (v : A) :
  finder.lookup key m = Some v -> In (key, v) m.
Proof.
  induction m as [|[k w] m IH]; cbn [finder.lookup]; [discriminate|].
  destruct (String.eqb_spec k key) as [->|_].
  - intros [= ->]. left; reflexivity.
  - intros H. right. apply IH. exact H.
Qed.

(** A test that holds of every rule of the registry, under the name of
    its language, and of the default rules under every other name, holds of
    the rules selected for any language. *)
Lemma rules_property (Q : string -> finder.LanguagePattern -> bool) :
  forallb (fun entry => forallb (Q (fst entry)) (snd entry))
          finder.languagePatternRegistry = true ->
  (forall language, forallb (Q language) finder.defaultPatterns = true) ->
  forall language pattern,
    In pattern (finder.patternsFor language) -> Q language pattern = true.
Proof.
  intros Hreg Hdef language pattern. unfold finder.patternsFor.
  destruct (finder.lookup language finder.languagePatternRegistry)
    as [patterns|] eqn:E.
  - apply lookup_In in E.
    rewrite forallb_forall in Hreg. specialize (Hreg _ E). cbn [fst snd] in Hreg.
    rewrite forallb_forall in Hreg. apply Hreg.
  - specialize (Hdef language). rewrite forallb_forall in Hdef. apply Hdef.
Qed.

Lemma HeaderType_eqb_eq (a b : finder.HeaderType) :
  finder.HeaderType_eqb a b = true <-> a = b.
Proof. destruct a, b; split; (reflexivity || discriminate). Qed.

(** X16: an Import header is only ever reported for a Python file.  Of the
    two Import rules of the registry, the one for Go names no name group,
    so it never counts as a match: Go imports, and with them the import
    blocks, are not reported. *)
Theorem import_header_only_python (fs : FileSystem) (path : string)
        (found : list finder.HeaderElement) (h : finder.HeaderElement) :
  finder.CollectHeaders fs path = Ok found ->
  In h found ->
  finder.Type_ h = finder.Import ->
  finder.DetectLanguage path = "python".
Proof.
  intros Hc Hin Ht.
  destruct (CollectHeaders_fromRule fs path found h Hc Hin)
    as (content & _ & _ & line & pattern & _ & _ & _ & Hp & Hty & Hm).
  pose proof (rules_property
    (fun language p =>
       implb (finder.HeaderType_eqb (finder.ElementType p) finder.Import &&
              (0 <? finder.NameGroup p)%nat)
             (String.eqb language "python"))) as HQ.
  specialize (HQ ltac:(vm_compute; reflexivity)
                 ltac:(intros language; vm_compute; reflexivity)
                 _ _ Hp).
  cbv beta in HQ.
  rewrite Hty, Ht in HQ.
  unfold finder.ruleMatches in Hm. apply andb_true_iff in Hm.
  destruct Hm as [_ Hlive]. rewrite Hlive in HQ. cbn in HQ.
  apply String.eqb_eq. exact HQ.
Qed.

Lemma import_header_only_python_witness :
  finder.CollectHeaders (finder.oneFile "import os") "a.py"
  = Ok [finder.importOsHeader] /\
  finder.Type_ finder.importOsHeader = finder.Import /\
  finder.DetectLanguage "a.py" = "python".
Proof.
  assert (H : finder.CollectHeaders (finder.oneFile "import os") "a.py"
              = Ok [finder.importOsHeader]) by (vm_compute; reflexivity).
  split; [exact H|]. split; [reflexivity|].
  exact (import_header_only_python (finder.oneFile "import os") "a.py"
           [finder.importOsHeader] finder.importOsHeader H
           (or_introl eq_refl) eq_refl).
Defined.

(** X17: the types of the top-level headers.  No top-level header has the
    type Field, Enum or Package, which no rule yields; and for a file whose
    language has no rules in the registry, every header is a Function or a
    Class. *)
Theorem header_types (fs : FileSystem) (path : string)
        (found : list finder.HeaderElement) (h : finder.HeaderElement) :
  finder.CollectHeaders fs path = Ok found ->
  In h found ->
  (finder.Type_ h <> finder.Field /\ finder.Type_ h <> finder.Enum /\
   finder.Type_ h <> finder.Package) /\
  (finder.lookup (finder.DetectLanguage path) finder.languagePatternRegistry
   = None ->
   finder.Type_ h = finder.Function \/ finder.Type_ h = finder.Class).
Proof.
  intros Hc Hin.
  destruct (CollectHeaders_fromRule fs path found h Hc Hin)
    as (content & _ & _ & line & pattern & _ & _ & _ & Hp & Hty & _).
  split.
  - pose proof (rules_property
      (fun _ p =>
         negb (finder.HeaderType_eqb (finder.ElementType p) finder.Field ||
               finder.HeaderType_eqb (finder.ElementType p) finder.Enum ||
               finder.HeaderType_eqb (finder.ElementType p) finder.Package)))
      as HQ.
    specialize (HQ ltac:(vm_compute; reflexivity)
                   ltac:(intros language; vm_compute; reflexivity)
                   _ _ Hp).
    cbv beta in HQ. rewrite Hty in HQ.
    repeat split; intros E; rewrite E in HQ; discriminate HQ.
  - intros Hnone. unfold finder.patternsFor in Hp. rewrite Hnone in Hp.
    rewrite <- Hty.
    destruct Hp as [<-|[<-|[]]]; [left | right]; reflexivity.
Qed.

Lemma header_types_witness :
  finder.CollectHeaders (finder.oneFile finder.functionInText) "a.md"
  = Ok [finder.functionInTextHeader] /\
  finder.lookup (finder.DetectLanguage "a.md") finder.languagePatternRegistry
  = None /\
  (finder.Type_ finder.functionInTextHeader <> finder.Field /\
   finder.Type_ finder.functionInTextHeader <> finder.Enum /\
   finder.Type_ finder.functionInTextHeader <> finder.Package) /\
  (finder.Type_ finder.functionInTextHeader = finder.Function \/
   finder.Type_ finder.functionInTextHeader = finder.Class).
Proof.
  assert (H : finder.CollectHeaders (finder.oneFile finder.functionInText)
                "a.md" = Ok [finder.functionInTextHeader])
    by (vm_compute; reflexivity).
  assert (N : finder.lookup (finder.DetectLanguage "a.md")
                finder.languagePatternRegistry = None)
    by (vm_compute; reflexivity).
  pose proof (header_types (finder.oneFile finder.functionInText) "a.md"
                [finder.functionInTextHeader] finder.functionInTextHeader H
                (or_introl eq_refl)) as P.
  exact (conj H (conj N (conj (proj1 P) (proj2 P N)))).
Defined.

(* ================================================================= *)
(** ** What [strings.TrimSpace] leaves at the front *)

Lemma dropBytes_length (n : nat) (s : string) :
  (String.length (strings.dropBytes n s) <= String.length s)%nat.
Proof.
  revert s. induction n as [|k IH]; intros s; cbn [strings.dropBytes].
  - destruct s; lia.
  - destruct s as [|c s]; [cbn; lia|].
    specialize (IH s). cbn [String.length]. lia.
Qed.

Lemma dropBytes_suffix (n : nat) (s : string) :
  exists x, s = (x ++ strings.dropBytes n s)%string.
Proof.
  revert s. induction n as [|k IH]; intros s; cbn [strings.dropBytes].
  - exists "". destruct s; reflexivity.
  - destruct s as [|c s]; [exists ""; reflexivity|].
    destruct (IH s) as [x Hx]. exists (String c x).
    cbn [String.append]. rewrite <- Hx. reflexivity.
Qed.

Lemma trimLeftSpace_spec (fuel : nat) (s : string) :
  (String.length s <= fuel)%nat ->
  strings.spaceWidth (strings.trimLeftSpace fuel s) = 0%nat.
Proof.
  revert s. induction fuel as [|f IH]; intros s Hlen; cbn [strings.trimLeftSpace].
  - destruct s; [reflexivity | cbn in Hlen; lia].
  - destruct (strings.spaceWidth s) as [|w] eqn:Ew; [exact Ew|].
    apply IH.
    destruct s as [|c s]; [discriminate Ew|].
    cbn [strings.dropBytes String.length] in *.
    pose proof (dropBytes_length w s). lia.
Qed.

Lemma trimLeftSpaceRev_suffix (fuel : nat) (r : string) :
  exists x, r = (x ++ strings.trimLeftSpaceRev fuel r)%string.
Proof.
  revert r. induction fuel as [|f IH]; intros r; cbn [strings.trimLeftSpaceRev].
  - exists "". reflexivity.
  - destruct (strings.spaceWidthRev r) as [|w]; [exists ""; reflexivity|].
    destruct (dropBytes_suffix (S w) r) as [x Hx].
    destruct (IH (strings.dropBytes (S w) r)) as [y Hy].
    exists (x ++ y)%string. rewrite append_assoc, <- Hy. exact Hx.
Qed.

(** The text that [strings.TrimSpace] returns does not begin with ASCII
    white space. *)
Lemma TrimSpace_head (s : string) (c : ascii) (rest : string) :
  strings.TrimSpace s = String c rest -> strings.isAsciiSpace c = false.
Proof.
  unfold strings.TrimSpace. cbv zeta.
  set (l := strings.trimLeftSpace (String.length s) s).
  assert (Hl : strings.spaceWidth l = 0%nat)
    by (apply trimLeftSpace_spec; lia).
  destruct (trimLeftSpaceRev_suffix (String.length l) (strings.reverse l))
    as [x Hx].
  intros E.
  assert (Hl' : l = (String c rest ++ strings.reverse x)%string).
  { rewrite <- (reverse_involutive l), Hx, reverse_app, E. reflexivity. }
  rewrite Hl' in Hl. cbn [String.append] in Hl.
  exact (spaceWidth_0_head _ _ Hl).
Qed.

(* ================================================================= *)
(** ** The Method rule of Python *)

Lemma searchFrom_BeginText (re : regexp.compiled) (r : regexp.Regexp)
      (s : string) (prev : option ascii) (off : nat) :
  regexp.prog re = regexp.Concat regexp.BeginText r ->
  off <> 0%nat ->
  regexp.searchFrom re prev s off = None.
Proof.
  intros Hp. revert prev off.
  induction s as [|c s IH]; intros prev off Hoff;
    cbn [regexp.searchFrom]; rewrite Hp;
    cbn [regexp.run regexp.offset];
    destruct (Nat.eqb_spec off 0) as [E|_]; try contradiction.
  - reflexivity.
  - apply IH. discriminate.
Qed.

Lemma space_class_byte (c : ascii) :
  strings.isAsciiSpace c = false ->
  regexp.inCharset
    {| regexp.cs_neg := false; regexp.cs_ranges := regexp.spaceRanges;
       regexp.cs_fold := false |} c = false.
Proof.
  unfold strings.isAsciiSpace, strings.code, regexp.inCharset,
    regexp.inRanges, regexp.spaceRanges.
  cbn [regexp.cs_neg regexp.cs_ranges regexp.cs_fold existsb fst snd andb xorb].
  set (n := N_of_ascii c). cbv zeta.
  rewrite !orb_false_r.
  intros H. apply orb_false_iff in H. destruct H as [H1 H2].
  apply andb_false_iff in H1. apply N.eqb_neq in H2.
  rewrite !orb_false_iff, !andb_false_iff, !N.leb_gt.
  rewrite !N.leb_gt in H1. lia.
Qed.

(** An expression that begins with [^\s+] matches no text that is empty
    or begins with a byte that is no ASCII white space. *)
Lemma search_leading_space (re : regexp.compiled) (greedy : bool)
      (r : regexp.Regexp) (s : string) :
  regexp.prog re =
    regexp.Concat regexp.BeginText
      (regexp.Concat (regexp.Plus greedy (regexp.classOf regexp.spaceRanges))
                     r) ->
  (forall c rest, s = String c rest -> strings.isAsciiSpace c = false) ->
  regexp.search re s = None.
Proof.
  intros Hp Hs. unfold regexp.search.
  destruct s as [|c s]; cbn [regexp.searchFrom]; rewrite Hp;
    cbn [regexp.run regexp.offset regexp.after Nat.eqb regexp.classOf].
  - reflexivity.
  - rewrite (space_class_byte c (Hs c s eq_refl)).
    eapply searchFrom_BeginText; [exact Hp | discriminate].
Qed.

Lemma pythonMethodRule_unmatched (line : string) :
  finder.ruleMatches finder.pythonMethodRule
    (regexp.FindStringSubmatch (finder.Pattern finder.pythonMethodRule)
                               (strings.TrimSpace line)) = false.
Proof.
  assert (Hp : exists r,
             regexp.prog (finder.Pattern finder.pythonMethodRule) =
               regexp.Concat regexp.BeginText
                 (regexp.Concat
                    (regexp.Plus true (regexp.classOf regexp.spaceRanges)) r))
    by (eexists; vm_compute; reflexivity).
  destruct Hp as [r Hp].
  unfold regexp.FindStringSubmatch.
  rewrite (search_leading_space _ true r _ Hp (TrimSpace_head line)).
  reflexivity.
Qed.

(** X18: no Method header is ever reported for a Python file.  The Method
    rule of Python asks for white space at the start of the line, and the
    rules are tried on the trimmed line, which never starts with white
    space: an indented [def] is reported by the Function rule, with [self]
    among its parameters and without its class as parent. *)
Theorem python_no_method_header (fs : FileSystem) (path : string)
        (found : list finder.HeaderElement) (h : finder.HeaderElement) :
  finder.CollectHeaders fs path = Ok found ->
  finder.DetectLanguage path = "python" ->
  In h found ->
  finder.Type_ h <> finder.Method.
Proof.
  intros Hc Hlang Hin Ht.
  destruct (CollectHeaders_fromRule fs path found h Hc Hin)
    as (content & _ & _ & line & pattern & _ & _ & _ & Hp & Hty & Hm).
  rewrite Hlang in Hp. rewrite Ht in Hty.
  change (finder.patternsFor "python") with finder.pythonPatterns in Hp.
  assert (E : pattern = finder.pythonMethodRule).
  { unfold finder.pythonPatterns in Hp. cbn [In] in Hp.
    destruct Hp as [<-|[<-|[<-|[<-|[<-|[]]]]]];
      first [reflexivity | discriminate Hty]. }
  subst pattern.
  rewrite pythonMethodRule_unmatched in Hm. discriminate Hm.
Qed.

Lemma python_no_method_header_witness :
  finder.CollectHeaders (finder.oneFile finder.indentedDef) "shape.py"
  = Ok [finder.indentedDefHeader] /\
  finder.DetectLanguage "shape.py" = "python" /\
  finder.Type_ finder.indentedDefHeader <> finder.Method.
Proof.
  assert (H : finder.CollectHeaders (finder.oneFile finder.indentedDef)
                "shape.py" = Ok [finder.indentedDefHeader])
    by (vm_compute; reflexivity).
  split; [exact H|]. split; [reflexivity|].
  exact (python_no_method_header (finder.oneFile finder.indentedDef)
           "shape.py" [finder.indentedDefHeader] finder.indentedDefHeader
           H eq_refl (or_introl eq_refl)).
Defined.

(* ================================================================= *)
(** ** [CollectHeaders]: the order of the headers *)

Lemma StronglySorted_app_one {A : Type} (R : A -> A -> Prop) (l : list A)
      (a : A) :
  StronglySorted R l -> Forall (fun x => R x a) l ->
  StronglySorted R (l ++ [a]).
Proof.
  induction l as [|x l IH]; intros Hs Ha; cbn [app].
  - repeat constructor.
  - inversion Hs as [|? ? Hs' Hx]; subst.
    inversion Ha as [|? ? Hxa Ha']; subst.
    constructor; [apply IH; assumption|].
    apply Forall_app. split; [exact Hx | constructor; [exact Hxa | constructor]].
Qed.

Lemma orderInv_mono (n m : Z) (st : finder.scanState) :
  n <= m -> finder.orderInv n st -> finder.orderInv m st.
Proof.
  intros Hnm (Hs & Hn & Hb). split; [exact Hs|]. split.
  - eapply Forall_impl; [|exact Hn]. cbv beta. intros h Hh. lia.
  - intros block E. destruct (Hb block E) as (Hi & Hl & Hall).
    split; [exact Hi|]. split; [lia | exact Hall].
Qed.

Section Order.
Variables (language : string) (lines : list string).

Lemma tryPatterns_order (patterns : list finder.LanguagePattern)
      (trimmedLine : string) (lineNum : Z) (st : finder.scanState) :
  finder.orderInv lineNum st ->
  (forall block, finder.currentBlock st = Some block ->
                 finder.LineNum block = lineNum) ->
  finder.orderInv lineNum
    (finder.tryPatterns language lines trimmedLine lineNum patterns st).
Proof.
  revert st.
  induction patterns as [|p patterns IH]; intros st Hinv Hblock;
    cbn [finder.tryPatterns].
  - exact Hinv.
  - cbv zeta.
    destruct (finder.ruleMatches p _); [|apply IH; assumption].
    set (header := finder.buildHeader language p _ _ lineNum _).
    assert (Hh : finder.LineNum header = lineNum) by reflexivity.
    destruct Hinv as (Hs & Hn & Hb).
    destruct (finder.HeaderType_eqb (finder.Type_ header) finder.Import &&
              (List.nth 0 _ "" =? "import (")%string).
    + apply IH.
      * split; [exact Hs|]. split; [exact Hn|].
        cbn [finder.headers finder.currentBlock finder.inImportBlock].
        intros block [= <-]. split; [reflexivity|].
        split; [rewrite Hh; lia|].
        rewrite Hh. exact Hn.
      * cbn [finder.currentBlock]. intros block [= <-]. exact Hh.
    + assert (Hgoal : forall header',
                finder.LineNum header' = lineNum ->
                finder.orderInv lineNum
                  {| finder.headers := finder.headers st ++ [header'];
                     finder.currentBlock := finder.currentBlock st;
                     finder.inImportBlock := finder.inImportBlock st;
                     finder.braceCount := finder.braceCount st;
                     finder.currentClass :=
                       if (language =? "python")%string &&
                          finder.HeaderType_eqb (finder.ElementType p)
                                                finder.Class
                       then finder.Name header
                       else finder.currentClass st |}).
      { intros header' Hh'.
        split; [|split];
          cbn [finder.headers finder.currentBlock finder.inImportBlock].
        * apply StronglySorted_app_one; [exact Hs|].
          eapply Forall_impl; [|exact Hn].
          unfold finder.byLine. intros a Ha. rewrite Hh'. exact Ha.
        * apply Forall_app. split; [exact Hn|].
          constructor; [rewrite Hh'; lia | constructor].
        * intros block E. destruct (Hb block E) as (Hi & Hl & Hall).
          split; [exact Hi|]. split; [exact Hl|].
          apply Forall_app. split; [exact Hall|].
          constructor; [|constructor].
          rewrite Hh', (Hblock block E). lia. }
      destruct (finder.HeaderType_eqb (finder.Type_ header) finder.Struct ||
                finder.HeaderType_eqb (finder.Type_ header) finder.Class).
      * apply Hgoal.
        rewrite (proj2 (extractMembers_same header lineNum lines)). exact Hh.
      * apply Hgoal. exact Hh.
Qed.

Lemma importBlockLine_order (trimmedLine : string) (lineNum : Z)
      (st : finder.scanState) :
  finder.orderInv lineNum st ->
  finder.orderInv lineNum (finder.importBlockLine trimmedLine lineNum st).
Proof.
  intros (Hs & Hn & Hb). unfold finder.importBlockLine.
  destruct (trimmedLine =? ")")%string.
  - destruct (finder.currentBlock st) as [block|] eqn:E.
    + destruct (Hb block eq_refl) as (Hi & Hl & Hall).
      split; [|split];
        cbn [finder.headers finder.currentBlock finder.inImportBlock].
      * apply StronglySorted_app_one; [exact Hs | exact Hall].
      * apply Forall_app. split; [exact Hn|].
        constructor; [exact Hl | constructor].
      * discriminate.
    + split; [exact Hs|]. split; [exact Hn|]. discriminate.
  - destruct (negb _ && _); cbv iota; [|split; [|split]; assumption].
    destruct (finder.currentBlock st) as [block|] eqn:E.
    + destruct (Hb block eq_refl) as (Hi & Hl & Hall).
      split; [exact Hs|]. split; [exact Hn|].
      cbn [finder.headers finder.currentBlock finder.inImportBlock].
      intros b [= <-]. split; [reflexivity|]. split; [exact Hl | exact Hall].
    + split; [exact Hs|]. split; [exact Hn|]. rewrite E. discriminate.
Qed.

Lemma scanLine_order (patterns : list finder.LanguagePattern)
      (line : string) (lineNum : Z) (st : finder.scanState) :
  finder.orderInv lineNum st ->
  finder.orderInv lineNum
    (finder.scanLine language patterns lines st lineNum line).
Proof.
  intros Hinv. unfold finder.scanLine. cbv zeta.
  destruct (finder.skipped (strings.TrimSpace line)); [exact Hinv|].
  cbn [finder.inImportBlock].
  destruct Hinv as (Hs & Hn & Hb).
  destruct (finder.inImportBlock st) eqn:Ei.
  - apply importBlockLine_order.
    split; [exact Hs|]. split; [exact Hn|].
    cbn [finder.headers finder.currentBlock finder.inImportBlock].
    intros block E. destruct (Hb block E) as (_ & Hl & Hall).
    split; [reflexivity|]. split; [exact Hl | exact Hall].
  - apply tryPatterns_order.
    + split; [exact Hs|]. split; [exact Hn|].
      cbn [finder.headers finder.currentBlock finder.inImportBlock].
      intros block E. destruct (Hb block E) as (Hi & _). congruence.
    + cbn [finder.currentBlock].
      intros block E. destruct (Hb block E) as (Hi & _). congruence.
Qed.

Lemma scanAll_order (patterns : list finder.LanguagePattern)
      (rest : list string) (lineNum : Z) (st : finder.scanState) :
  finder.orderInv lineNum st ->
  StronglySorted finder.byLine
    (finder.headers (finder.scanAll language patterns lines st lineNum rest)).
Proof.
  revert lineNum st.
  induction rest as [|line rest IH]; intros lineNum st Hinv;
    cbn [finder.scanAll].
  - exact (proj1 Hinv).
  - apply IH. apply scanLine_order.
    apply (orderInv_mono lineNum); [lia | exact Hinv].
Qed.
End Order.

(** X19: [CollectHeaders] returns the top-level headers in the order of
    their lines: the line number of a header is never smaller than that of
    a header before it. *)
Theorem headers_in_line_order (fs : FileSystem) (path : string)
        (found : list finder.HeaderElement) :
  finder.CollectHeaders fs path = Ok found ->
  StronglySorted finder.byLine found.
Proof.
  unfold finder.CollectHeaders, finder.collectFrom.
  destruct (fs path) as [| |content]; try discriminate.
  destruct (bufio.scanLines content) as [scanned stopped].
  destruct stopped; [discriminate|]. intros [= <-].
  apply scanAll_order.
  split; [constructor|]. split; [constructor | discriminate].
Qed.

Lemma headers_in_line_order_witness :
  finder.CollectHeaders (finder.oneFile finder.shapeFile) "shape.py"
  = Ok finder.shapeHeaders /\
  StronglySorted finder.byLine finder.shapeHeaders.
Proof.
  assert (H : finder.CollectHeaders (finder.oneFile finder.shapeFile)
                "shape.py" = Ok finder.shapeHeaders)
    by (vm_compute; reflexivity).
  split; [exact H|].
  exact (headers_in_line_order (finder.oneFile finder.shapeFile) "shape.py"
           finder.shapeHeaders H).
Defined.

(* ================================================================= *)
(** ** [CollectHeaders]: the children of a header *)

Lemma nonEmpty_true (s : string) : finder.nonEmpty s = true -> s <> "".
Proof.
  unfold finder.nonEmpty. destruct (String.eqb_spec s ""); [discriminate|].
  intros _. assumption.
Qed.

(** The fields that the loop of [extractMembers] finds from index [i] on
    are on the lines it reads, up to the line that closes the block. *)
Lemma membersFrom_spec (rest : list string) (i : Z) (insideBlock : bool)
      (braceCount : Z) :
  Forall (fun c =>
            exists name,
              c = finder.newHeader finder.Field name (finder.LineNum c) /\
              name <> "" /\
              i + 1 <= finder.LineNum c /\
              forall n,
                snd (finder.membersFrom rest i insideBlock braceCount) = Some n ->
                finder.LineNum c <= n)
         (fst (finder.membersFrom rest i insideBlock braceCount)) /\
  (forall n,
     snd (finder.membersFrom rest i insideBlock braceCount) = Some n ->
     i + 1 <= n).
Proof.
  revert i insideBlock braceCount.
  induction rest as [|raw rest IH]; intros i insideBlock braceCount;
    cbn [finder.membersFrom].
  - split; [constructor | discriminate].
  - cbv zeta.
    destruct (insideBlock || strings.Contains (strings.TrimSpace raw) "{").
    + set (bc := braceCount + _).
      match goal with
      | |- context [finder.nonEmpty ?f] => set (field := f)
      end.
      assert (Hfound : forall n, i + 1 <= n ->
                Forall (fun c =>
                          exists name,
                            c = finder.newHeader finder.Field name
                                                 (finder.LineNum c) /\
                            name <> "" /\ i + 1 <= finder.LineNum c /\
                            finder.LineNum c <= n)
                       (if finder.nonEmpty field
                        then [finder.newHeader finder.Field field (i + 1)]
                        else [])).
      { intros n Hn. destruct (finder.nonEmpty field) eqn:Ef; [|constructor].
        constructor; [|constructor].
        exists field. split; [reflexivity|].
        split; [apply nonEmpty_true; exact Ef|].
        cbn [finder.newHeader finder.LineNum]. lia. }
      destruct (bc =? 0).
      * cbn [fst snd]. split; [|intros n [= <-]; lia].
        eapply Forall_impl; [|apply (Hfound (i + 1)); lia].
        cbv beta. intros c (name & E & Hne & Hlo & Hhi).
        exists name. split; [exact E|]. split; [exact Hne|].
        split; [exact Hlo|]. intros n [= <-]. exact Hhi.
      * specialize (IH (i + 1) true bc).
        destruct (finder.membersFrom rest (i + 1) true bc) as [more endLine].
        cbn [fst snd] in *. destruct IH as [IHf IHe].
        split; [|intros n E; specialize (IHe n E); lia].
        apply Forall_app. split.
        -- destruct (finder.nonEmpty field) eqn:Ef; [|constructor].
           constructor; [|constructor].
           exists field. split; [reflexivity|].
           split; [apply nonEmpty_true; exact Ef|].
           cbn [finder.newHeader finder.LineNum]. split; [lia|].
           intros n E. specialize (IHe n E). lia.
        -- eapply Forall_impl; [|exact IHf].
           cbv beta. intros c (name & E & Hne & Hlo & Hhi).
           exists name. split; [exact E|]. split; [exact Hne|].
           split; [lia | exact Hhi].
    + specialize (IH (i + 1) false braceCount).
      destruct (finder.membersFrom rest (i + 1) false braceCount)
        as [more endLine].
      cbn [fst snd] in *. destruct IH as [IHf IHe].
      split; [|intros n E; specialize (IHe n E); lia].
      eapply Forall_impl; [|exact IHf].
      cbv beta. intros c (name & E & Hne & Hlo & Hhi).
      exists name. split; [exact E|]. split; [exact Hne|].
      split; [lia | exact Hhi].
Qed.

(** The members that [extractMembers] adds to a struct or class header
    without children are its children in the sense of [childOf]. *)
Lemma extractMembers_children (h : finder.HeaderElement) (lines : list string) :
  finder.Type_ h = finder.Struct \/ finder.Type_ h = finder.Class ->
  finder.Children h = [] -> finder.EndLine h = 0 ->
  let h' := finder.extractMembers h (finder.LineNum h) lines in
  Forall (finder.childOf h') (finder.Children h').
Proof.
  intros Ht Hc He. cbv zeta. unfold finder.extractMembers.
  destruct (finder.LineNum h >=? Z.of_nat (List.length lines));
    [rewrite Hc; constructor|].
  pose proof (membersFrom_spec
                (skipn (Z.to_nat (finder.LineNum h - 1)) lines)
                (finder.LineNum h - 1) false 0) as [Hf Hend].
  destruct (finder.membersFrom _ _ _ _) as [fields endLine].
  cbn [fst snd] in *. rewrite Hc. cbn [app].
  assert (Hgoal : forall h',
            finder.Type_ h' = finder.Type_ h ->
            finder.LineNum h' = finder.LineNum h ->
            finder.Children h' = fields ->
            (finder.EndLine h' <> 0 -> endLine = Some (finder.EndLine h')) ->
            Forall (finder.childOf h') (finder.Children h')).
  { intros h' Et El Ec Ee. rewrite Ec.
    eapply Forall_impl; [|exact Hf].
    cbv beta. intros c (name & E & Hne & Hlo & Hhi).
    split; [rewrite E; reflexivity|].
    left. split; [rewrite E; reflexivity|].
    split; [rewrite Et; exact Ht|].
    split; [rewrite E; exact Hne|].
    split; [rewrite El; lia|].
    intros Hz. apply Hhi, Ee, Hz. }
  destruct endLine as [n|]; apply Hgoal; try reflexivity.
  cbn [finder.withChildren finder.EndLine]. intros Hz. contradiction.
Qed.

Lemma pythonImportChild_spec (moduleFrom : string) (lineNum : Z)
      (item : string) (c : finder.HeaderElement) :
  In c (finder.pythonImportChild moduleFrom lineNum item) ->
  finder.Type_ c = finder.Import /\ finder.Children c = [].
Proof.
  unfold finder.pythonImportChild. cbv zeta.
  destruct (_ && _); [intros [<-|[]]; split; reflexivity|].
  destruct (strings.Contains _ _); [intros [<-|[]]; split; reflexivity|].
  destruct (finder.nonEmpty _); [intros [<-|[]]; split; reflexivity | intros []].
Qed.

Lemma buildHeader_children (language : string) (p : finder.LanguagePattern)
      (matches : list string) (trimmedLine : string) (lineNum : Z)
      (currentClass : string) :
  let h := finder.buildHeader language p matches trimmedLine lineNum
                              currentClass in
  Forall (finder.childOf h) (finder.Children h) /\
  (finder.Type_ h <> finder.Import -> finder.Children h = []).
Proof.
  cbv zeta. unfold finder.buildHeader. cbv zeta.
  cbn [finder.Children finder.Type_].
  destruct (finder.HeaderType_eqb (finder.ElementType p) finder.Import) eqn:Et.
  - apply HeaderType_eqb_eq in Et.
    rewrite andb_true_r.
    destruct (String.eqb language "python"); cbv iota.
    + split; [|intros H; contradiction].
      apply Forall_forall. intros c Hc.
      apply in_flat_map in Hc. destruct Hc as (item & _ & Hc).
      apply pythonImportChild_spec in Hc. destruct Hc as [Hty Hch].
      split; [exact Hch|]. right.
      split; [exact Hty | exact Et].
    + split; [constructor | reflexivity].
  - rewrite andb_false_r. split; [constructor | reflexivity].
Qed.

Section ChildrenOf.
Variables (language : string) (lines : list string).

Lemma tryPatterns_children (patterns : list finder.LanguagePattern)
      (trimmedLine : string) (lineNum : Z) (st : finder.scanState) :
  finder.childInv st ->
  finder.childInv
    (finder.tryPatterns language lines trimmedLine lineNum patterns st).
Proof.
  revert st.
  induction patterns as [|p patterns IH]; intros st Hinv;
    cbn [finder.tryPatterns].
  - exact Hinv.
  - cbv zeta.
    destruct (finder.ruleMatches p _); [|apply IH; assumption].
    set (header := finder.buildHeader language p _ _ lineNum _).
    destruct (buildHeader_children language p
                (regexp.FindStringSubmatch (finder.Pattern p) trimmedLine)
                trimmedLine lineNum (finder.currentClass st))
      as [Hch Hnone].
    fold header in Hch, Hnone.
    destruct Hinv as [Hhs Hb].
    destruct (finder.HeaderType_eqb (finder.Type_ header) finder.Import)
      eqn:Ei; cbn [andb].
    + destruct (List.nth 0 _ "" =? "import (")%string.
      * apply IH. split; cbn [finder.headers finder.currentBlock].
        -- exact Hhs.
        -- intros block [= <-].
           split; [apply HeaderType_eqb_eq; exact Ei | exact Hch].
      * replace (finder.HeaderType_eqb (finder.Type_ header) finder.Struct ||
                 finder.HeaderType_eqb (finder.Type_ header) finder.Class)
          with false
          by (apply HeaderType_eqb_eq in Ei; rewrite Ei; reflexivity).
        split; cbn [finder.headers finder.currentBlock]; [|exact Hb].
        apply Forall_app. split; [exact Hhs|].
        constructor; [exact Hch | constructor].
    + split; cbn [finder.headers finder.currentBlock]; [|exact Hb].
      apply Forall_app. split; [exact Hhs|].
      constructor; [|constructor].
      destruct (finder.HeaderType_eqb (finder.Type_ header) finder.Struct ||
                finder.HeaderType_eqb (finder.Type_ header) finder.Class)
        eqn:Esc; [|exact Hch].
      apply (extractMembers_children header lines).
      * apply orb_true_iff in Esc.
        destruct Esc as [E|E]; apply HeaderType_eqb_eq in E; [left|right];
          exact E.
      * apply Hnone. intros E. rewrite E in Ei. discriminate Ei.
      * reflexivity.
Qed.

Lemma importBlockLine_children (trimmedLine : string) (lineNum : Z)
      (st : finder.scanState) :
  finder.childInv st ->
  finder.childInv (finder.importBlockLine trimmedLine lineNum st).
Proof.
  intros [Hhs Hb]. unfold finder.importBlockLine.
  assert (Hkeep : forall block block' : finder.HeaderElement,
            finder.Type_ block = finder.Import ->
            finder.Type_ block' = finder.Import ->
            forall cs,
              Forall (finder.childOf block) cs ->
              Forall (finder.childOf block') cs).
  { intros block block' Et Et' cs Hcs.
    eapply Forall_impl; [|exact Hcs].
    intros c [Hc [(_ & [E|E] & _)|[Hty _]]]; try congruence.
    split; [exact Hc|]. right. split; assumption. }
  destruct (trimmedLine =? ")")%string.
  - destruct (finder.currentBlock st) as [block|] eqn:E.
    + destruct (Hb block eq_refl) as [Et Hch].
      split; cbn [finder.headers finder.currentBlock]; [|discriminate].
      apply Forall_app. split; [exact Hhs|].
      constructor; [|constructor].
      cbn [finder.withEndLine finder.Children].
      apply (Hkeep block); [exact Et | exact Et | exact Hch].
    + split; [exact Hhs | discriminate].
  - destruct (negb _ && _); cbv iota; [|split; assumption].
    destruct (finder.currentBlock st) as [block|] eqn:E.
    + destruct (Hb block eq_refl) as [Et Hch].
      split; cbn [finder.headers finder.currentBlock]; [exact Hhs|].
      intros b [= <-]. split; [exact Et|].
      cbn [finder.withChildren finder.Children].
      apply Forall_app. split.
      * apply (Hkeep block); [exact Et | exact Et | exact Hch].
      * constructor; [|constructor].
        split; [reflexivity|]. right. split; [reflexivity | exact Et].
    + split; [exact Hhs|]. rewrite E. discriminate.
Qed.

Lemma scanAll_children (patterns : list finder.LanguagePattern)
      (rest : list string) (lineNum : Z) (st : finder.scanState) :
  finder.childInv st ->
  finder.childInv (finder.scanAll language patterns lines st lineNum rest).
Proof.
  revert lineNum st.
  induction rest as [|line rest IH]; intros lineNum st Hinv;
    cbn [finder.scanAll].
  - exact Hinv.
  - apply IH. unfold finder.scanLine. cbv zeta.
    destruct (finder.skipped (strings.TrimSpace line)); [exact Hinv|].
    cbn [finder.inImportBlock].
    destruct (finder.inImportBlock st).
    + apply importBlockLine_children. exact Hinv.
    + apply tryPatterns_children. exact Hinv.
Qed.
End ChildrenOf.

(** X20: the children of the headers that [CollectHeaders] returns.  A
    child has no children of its own.  It is a field with a name, under a
    struct or a class, on a line from the line of its header to the end
    line of the header (when the end of the block was found); or it is an
    import under an import. *)
Theorem header_children (fs : FileSystem) (path : string)
        (found : list finder.HeaderElement) (h c : finder.HeaderElement) :
  finder.CollectHeaders fs path = Ok found ->
  In h found -> In c (finder.Children h) ->
  finder.childOf h c.
Proof.
  unfold finder.CollectHeaders, finder.collectFrom.
  destruct (fs path) as [| |content]; try discriminate.
  destruct (bufio.scanLines content) as [scanned stopped].
  destruct stopped; [discriminate|]. intros [= <-] Hh Hc.
  pose proof (scanAll_children (finder.DetectLanguage path)
                (strings.Split content strings.newline)
                (finder.patternsFor (finder.DetectLanguage path))
                scanned 0 finder.initialState) as [H _].
  { split; [constructor | discriminate]. }
  rewrite Forall_forall in H. specialize (H h Hh).
  rewrite Forall_forall in H. exact (H c Hc).
Qed.

Lemma header_children_witness :
  finder.CollectHeaders (finder.oneFile finder.pointFile) "point.go"
  = Ok [finder.pointHeader] /\
  In (finder.newHeader finder.Field "type" 1)
     (finder.Children finder.pointHeader) /\
  finder.childOf finder.pointHeader (finder.newHeader finder.Field "type" 1).
Proof.
  assert (H : finder.CollectHeaders (finder.oneFile finder.pointFile)
                "point.go" = Ok [finder.pointHeader])
    by (vm_compute; reflexivity).
  assert (Hc : In (finder.newHeader finder.Field "type" 1)
                  (finder.Children finder.pointHeader))
    by (left; reflexivity).
  split; [exact H|]. split; [exact Hc|].
  exact (header_children (finder.oneFile finder.pointFile) "point.go"
           [finder.pointHeader] finder.pointHeader _ H
           (or_introl eq_refl) Hc).
Defined.

Lemma skipn_nth_error {A : Type} (l : list A) (n : nat) (x : A) :
  nth_error l n = Some x -> exists rest, skipn n l = x :: rest.
Proof.
  revert l. induction n as [|k IH]; intros [|a l]; cbn; try discriminate.
  - intros [= ->]. exists l. reflexivity.
  - apply IH.
Qed.

(** X21: [extractMembers] reads the line of the declaration itself as a
    member.  Its loop starts on the line the header is on; when that line
    holds the opening brace and a space or a colon, and [extractField]
    finds a name on it, this name, the first word of the declaration, is
    added as the first new child, a field on the line of the header.  The
    one exception is a declaration on the last of the lines (the last line
    of a file that does not end in a line feed): [extractMembers] then
    returns at once and leaves the header as it is. *)
Theorem extractMembers_declaration_line (h : finder.HeaderElement)
        (startLine : Z) (lines : list string) (raw : string) :
  1 <= startLine ->
  nth_error lines (Z.to_nat (startLine - 1)) = Some raw ->
  strings.Contains (strings.TrimSpace raw) "{" = true ->
  strings.Contains (strings.TrimSpace raw) ":" ||
  strings.Contains (strings.TrimSpace raw) " " = true ->
  finder.extractField (strings.TrimSpace raw) <> "" ->
  (startLine < Z.of_nat (List.length lines) ->
   exists more,
     finder.Children (finder.extractMembers h startLine lines)
     = finder.Children h ++
       finder.newHeader finder.Field
         (finder.extractField (strings.TrimSpace raw)) startLine :: more) /\
  (startLine = Z.of_nat (List.length lines) ->
   finder.extractMembers h startLine lines = h).
Proof.
  intros Hs Hnth Hbrace Hsep Hfield.
  split.
  - intros Hlt.
    unfold finder.extractMembers.
    replace (startLine >=? Z.of_nat (List.length lines)) with false
      by (symmetry; rewrite Z.geb_leb; apply Z.leb_gt; lia).
    destruct (skipn_nth_error _ _ _ Hnth) as [rest ->].
    cbn [finder.membersFrom]. cbv zeta.
    rewrite Hbrace, Hsep. cbn [orb].
    replace (finder.nonEmpty (finder.extractField (strings.TrimSpace raw)))
      with true
      by (unfold finder.nonEmpty;
          destruct (String.eqb_spec
                      (finder.extractField (strings.TrimSpace raw)) "");
          [contradiction | reflexivity]).
    replace (startLine - 1 + 1) with startLine by lia.
    destruct (_ =? 0).
    + exists []. reflexivity.
    + destruct (finder.membersFrom rest startLine true _) as [more [n|]];
        exists more; reflexivity.
  - intros Heq.
    unfold finder.extractMembers.
    replace (startLine >=? Z.of_nat (List.length lines)) with true
      by (symmetry; rewrite Z.geb_leb; apply Z.leb_le; lia).
    reflexivity.
Qed.

Lemma extractMembers_declaration_line_witness :
  (1 <= 1 /\
   nth_error (strings.Split finder.pointFile strings.newline)
             (Z.to_nat (1 - 1)) = Some "type Point struct {" /\
   finder.extractField (strings.TrimSpace "type Point struct {") = "type" /\
   1 < Z.of_nat (List.length (strings.Split finder.pointFile strings.newline))
   /\
   exists more,
     finder.Children
       (finder.extractMembers (finder.newHeader finder.Struct "Point" 1) 1
          (strings.Split finder.pointFile strings.newline))
     = finder.Children (finder.newHeader finder.Struct "Point" 1) ++
       finder.newHeader finder.Field
         (finder.extractField (strings.TrimSpace "type Point struct {")) 1
       :: more) /\
  (nth_error (strings.Split finder.oneLineStruct strings.newline)
             (Z.to_nat (1 - 1)) = Some finder.oneLineStruct /\
   finder.extractField (strings.TrimSpace finder.oneLineStruct) = "type" /\
   1 = Z.of_nat (List.length
                   (strings.Split finder.oneLineStruct strings.newline)) /\
   finder.extractMembers (finder.newHeader finder.Struct "T" 1) 1
     (strings.Split finder.oneLineStruct strings.newline)
   = finder.newHeader finder.Struct "T" 1).
Proof.
  assert (H1 : 1 <= 1) by lia.
  assert (H2 : nth_error (strings.Split finder.pointFile strings.newline)
                         (Z.to_nat (1 - 1)) = Some "type Point struct {")
    by reflexivity.
  assert (H3 : 1 < Z.of_nat (List.length
                               (strings.Split finder.pointFile
                                              strings.newline)))
    by (vm_compute; reflexivity).
  assert (F : finder.extractField (strings.TrimSpace "type Point struct {")
              <> "") by (vm_compute; discriminate).
  assert (G2 : nth_error (strings.Split finder.oneLineStruct strings.newline)
                         (Z.to_nat (1 - 1)) = Some finder.oneLineStruct)
    by reflexivity.
  assert (G3 : 1 = Z.of_nat (List.length
                               (strings.Split finder.oneLineStruct
                                              strings.newline)))
    by (vm_compute; reflexivity).
  assert (G : finder.extractField (strings.TrimSpace finder.oneLineStruct)
              <> "") by (vm_compute; discriminate).
  split.
  - split; [exact H1|]. split; [exact H2|]. split; [reflexivity|].
    split; [exact H3|].
    exact (proj1 (extractMembers_declaration_line
                    (finder.newHeader finder.Struct "Point" 1) 1
                    (strings.Split finder.pointFile strings.newline)
                    "type Point struct {" H1 H2 eq_refl eq_refl F) H3).
  - split; [exact G2|]. split; [reflexivity|]. split; [exact G3|].
    exact (proj2 (extractMembers_declaration_line
                    (finder.newHeader finder.Struct "T" 1) 1
                    (strings.Split finder.oneLineStruct strings.newline)
                    finder.oneLineStruct H1 G2 eq_refl eq_refl G) G3).
Defined.

(* ================================================================= *)
(** ** [DetectLanguage] *)

Lemma extFrom_plain (y rest acc : string) :
  strings.allBytes finder.plainExtByte y = true ->
  finder.extFrom (y ++ String "." rest) acc
  = String "." (strings.rev_acc y acc).
Proof.
  revert acc. induction y as [|c y IH]; intros acc H;
    cbn [String.append finder.extFrom strings.rev_acc].
  - reflexivity.
  - cbn [strings.allBytes] in H. apply andb_true_iff in H.
    destruct H as [Hc Hy]. unfold finder.plainExtByte in Hc.
    apply negb_true_iff, orb_false_iff in Hc. destruct Hc as [Hdot Hslash].
    rewrite Hdot, Hslash. apply IH. exact Hy.
Qed.

(** [filepath.Ext] of a path that ends in an extension is the extension. *)
Lemma Ext_extension (base ext : string) :
  finder.isExtension ext = true -> finder.Ext (base ++ ext) = ext.
Proof.
  destruct ext as [|c e]; [discriminate|].
  cbn [finder.isExtension]. intros H. apply andb_true_iff in H.
  destruct H as [Hc He]. apply Ascii.eqb_eq in Hc. subst c.
  unfold finder.Ext.
  rewrite reverse_app, reverse_cons, append_assoc. cbn [String.append].
  rewrite extFrom_plain by (rewrite allBytes_reverse; exact He).
  fold (strings.reverse (strings.reverse e)).
  rewrite reverse_involutive. reflexivity.
Qed.

Lemma ToLower_extension (s : string) :
  finder.isExtension (finder.ToLower s) = true -> finder.isExtension s = true.
Proof.
  assert (Hbyte : forall c : ascii,
             let n := N_of_ascii c in
             let l := if ((65 <=? n) && (n <=? 90))%N
                      then ascii_of_N (n + 32) else c in
             (Ascii.eqb l "." = true -> Ascii.eqb c "." = true) /\
             (finder.plainExtByte l = true -> finder.plainExtByte c = true)).
  { intros [[] [] [] [] [] [] [] []]; vm_compute; split; intros H;
      first [exact H | reflexivity | discriminate H]. }
  destruct s as [|c e]; [discriminate|].
  cbn [finder.ToLower finder.isExtension]. cbv zeta.
  intros H. apply andb_true_iff in H. destruct H as [Hc He].
  apply andb_true_iff. split; [apply (proj1 (Hbyte c)); exact Hc|].
  clear Hc. induction e as [|d e IH]; [reflexivity|].
  cbn [finder.ToLower strings.allBytes] in *. cbv zeta in He.
  apply andb_true_iff in He. destruct He as [Hd He].
  apply andb_true_iff. split; [apply (proj2 (Hbyte d)); exact Hd|].
  apply IH. exact He.
Qed.

Lemma option_string_eqb (a b : option string) :
  (match a, b with
   | Some x, Some y => String.eqb x y
   | None, None => true
   | _, _ => false
   end) = true -> a = b.
Proof.
  destruct a as [x|], b as [y|]; try discriminate; [|reflexivity].
  intros H. apply String.eqb_eq in H. congruence.
Qed.

(** X22: [DetectLanguage] decides by the extension, whatever the letter
    case.  A path that ends in an extension which, in lower case, is one
    of the twenty listed has the language listed for it, whatever comes
    before the extension. *)
Theorem DetectLanguage_extension (base suffix ext language : string) :
  In (ext, language) finder.extensionLanguages ->
  finder.ToLower suffix = ext ->
  finder.DetectLanguage (base ++ suffix) = language.
Proof.
  intros Hin Hlow.
  assert (Htable :
    forallb (fun entry =>
               finder.isExtension (fst entry) &&
               match finder.lookup (fst entry) finder.extensionLanguages with
               | Some l => String.eqb l (snd entry)
               | None => false
               end)
            finder.extensionLanguages = true) by (vm_compute; reflexivity).
  rewrite forallb_forall in Htable. specialize (Htable _ Hin).
  cbn [fst snd] in Htable. apply andb_true_iff in Htable.
  destruct Htable as [Hext Hlook].
  unfold finder.DetectLanguage.
  rewrite Ext_extension
    by (apply ToLower_extension; rewrite Hlow; exact Hext).
  rewrite Hlow.
  destruct (finder.lookup ext finder.extensionLanguages) as [l|];
    [|discriminate].
  apply String.eqb_eq. exact Hlook.
Qed.

Lemma DetectLanguage_extension_witness :
  In (".go", "go") finder.extensionLanguages /\
  finder.ToLower ".GO" = ".go" /\
  finder.DetectLanguage ("cmd/Main" ++ ".GO") = "go".
Proof.
  assert (H1 : In (".go", "go") finder.extensionLanguages)
    by (left; reflexivity).
  assert (H2 : finder.ToLower ".GO" = ".go") by reflexivity.
  split; [exact H1|]. split; [exact H2|].
  exact (DetectLanguage_extension "cmd/Main" ".GO" ".go" "go" H1 H2).
Defined.

(** X23: a path whose last element holds no dot is plain text. *)
Theorem DetectLanguage_no_extension (dir name : string) :
  strings.allBytes finder.plainExtByte name = true ->
  finder.DetectLanguage (dir ++ "/" ++ name) = "plaintext" /\
  finder.DetectLanguage name = "plaintext".
Proof.
  intros Hname.
  assert (Hplain : forall y acc,
             strings.allBytes finder.plainExtByte y = true ->
             (forall rest, finder.extFrom (y ++ String "/" rest) acc = "") /\
             finder.extFrom y acc = "").
  { induction y as [|c y IH]; intros acc H;
      cbn [String.append finder.extFrom].
    - split; reflexivity.
    - cbn [strings.allBytes] in H. apply andb_true_iff in H.
      destruct H as [Hc Hy]. unfold finder.plainExtByte in Hc.
      apply negb_true_iff, orb_false_iff in Hc. destruct Hc as [Hdot Hslash].
      rewrite Hdot, Hslash. apply IH. exact Hy. }
  assert (Hrev : strings.allBytes finder.plainExtByte (strings.reverse name)
                 = true) by (rewrite allBytes_reverse; exact Hname).
  unfold finder.DetectLanguage, finder.Ext. split.
  - rewrite reverse_app. cbn [String.append].
    rewrite reverse_cons, append_assoc. cbn [String.append].
    rewrite (proj1 (Hplain _ "" Hrev)). reflexivity.
  - rewrite (proj2 (Hplain _ "" Hrev)). reflexivity.
Qed.

Lemma DetectLanguage_no_extension_witness :
  strings.allBytes finder.plainExtByte "Makefile" = true /\
  finder.DetectLanguage ("src.d" ++ "/" ++ "Makefile") = "plaintext" /\
  finder.DetectLanguage "Makefile" = "plaintext".
Proof.
  split; [reflexivity|].
  exact (DetectLanguage_no_extension "src.d" "Makefile" eq_refl).
Defined.

(* ================================================================= *)
(** ** [FormatHeaders] and [CollectHeadersAsString] *)

Lemma formatHeader_Line (header : finder.HeaderElement) :
  exists rest, finder.formatHeader header = String "L" rest.
Proof.
  unfold finder.formatHeader, finder.linePrefix.
  destruct (finder.Type_ header); destruct (finder.nonEmpty (finder.Scope header));
    cbn [String.append]; eexists; reflexivity.
Qed.

Lemma FormatHeaders_Line (header : finder.HeaderElement)
      (headers : list finder.HeaderElement) :
  exists rest, finder.FormatHeaders (header :: headers) = String "L" rest.
Proof.
  unfold finder.FormatHeaders. cbn [map String.concat].
  destruct (formatHeader_Line header) as [rest ->].
  destruct (map finder.formatHeader headers); cbn [String.append];
    eexists; reflexivity.
Qed.

(** X24: [CollectHeadersAsString] answers [No headers found.] exactly when
    [CollectHeaders] succeeds with no header: the text that
    [FormatHeaders] writes for one header or more starts with [Line], so it
    is never this sentence.  An error of [CollectHeaders] is passed on. *)
Theorem CollectHeadersAsString_no_headers (fs : FileSystem) (path : string) :
  (finder.CollectHeadersAsString fs path = Ok finder.noHeaders <->
   finder.CollectHeaders fs path = Ok []) /\
  (isErr (finder.CollectHeadersAsString fs path)
   = isErr (finder.CollectHeaders fs path)).
Proof.
  unfold finder.CollectHeadersAsString.
  destruct (finder.CollectHeaders fs path) as [[|header headers]|err].
  - split; [split; reflexivity | reflexivity].
  - split; [|reflexivity].
    replace (Z.of_nat (List.length (header :: headers)) =? 0) with false
      by (symmetry; apply Z.eqb_neq; cbn [List.length]; lia).
    destruct (FormatHeaders_Line header headers) as [rest ->].
    split; discriminate.
  - split; [split; discriminate | reflexivity].
Qed.

(* ================================================================= *)
(** ** [ReadFiles] *)

Lemma readLoop_spec (fs : FileSystem) (paths : list string)
      (results : list finder.FileContent) :
  finder.readLoop fs results paths
  = if forallb (finder.readable fs) paths
    then Ok (results ++ map (finder.fileOf fs) paths)
    else Err "read failed".
Proof.
  revert results.
  induction paths as [|path paths IH]; intros results;
    cbn [finder.readLoop forallb map].
  - rewrite app_nil_r. reflexivity.
  - unfold finder.readable at 1, finder.fileOf at 1.
    destruct (fs path) as [| |data]; cbn [andb]; try reflexivity.
    rewrite IH, <- app_assoc. reflexivity.
Qed.

(** X25: [ReadFiles] is all or nothing.  When every path can be read it
    returns one entry for each path, in the order of the paths, with the
    content of the file and the language of its path; when one cannot, it
    returns the error and no entry at all. *)
Theorem ReadFiles_all_or_nothing (fs : FileSystem) (paths : list string) :
  finder.ReadFiles fs paths
  = if forallb (finder.readable fs) paths
    then Ok (map (finder.fileOf fs) paths)
    else Err "read failed".
Proof.
  unfold finder.ReadFiles. apply readLoop_spec.
Qed.

(* ================================================================= *)
(** ** [FormatFiles] and [CalculateStats] *)

Lemma countFrom_plain (a b : string) :
  strings.allBytes outputFormat.notBackquote a = true ->
  strings.countFrom 0 (a ++ b) "```" = strings.countFrom 0 b "```".
Proof.
  induction a as [|c a IH]; intros H; cbn [String.append]; [reflexivity|].
  cbn [strings.allBytes] in H. apply andb_true_iff in H. destruct H as [Hc Ha].
  unfold outputFormat.notBackquote in Hc. apply negb_true_iff in Hc.
  cbn [strings.countFrom String.prefix].
  destruct (Ascii.ascii_dec "`" c) as [E|_];
    [subst c; discriminate Hc|].
  apply IH. exact Ha.
Qed.

Lemma countFrom_fence (b : string) :
  strings.countFrom 0 ("```" ++ b) "```" = 1 + strings.countFrom 0 b "```".
Proof.
  cbn [String.append strings.countFrom String.prefix String.length Nat.sub].
  destruct (Ascii.ascii_dec "`" "`") as [_|N]; [|contradiction].
  destruct b; reflexivity.
Qed.

Lemma FormatFiles_cons (file : finder.FileContent)
      (files : list finder.FileContent) :
  outputFormat.FormatFiles (file :: files)
  = (outputFormat.formatFile file ++ outputFormat.FormatFiles files)%string.
Proof.
  unfold outputFormat.FormatFiles. cbn [map String.concat].
  destruct (map outputFormat.formatFile files) eqn:E.
  - cbn [String.concat]. rewrite append_nil_r. reflexivity.
  - reflexivity.
Qed.

Lemma FormatFiles_fences (files : list finder.FileContent) :
  Forall outputFormat.fenceFree files ->
  strings.Count (outputFormat.FormatFiles files) "```"
  = 2 * Z.of_nat (List.length files).
Proof.
  unfold strings.Count.
  induction files as [|file files IH]; intros H; [reflexivity|].
  inversion H as [|? ? (Hl & Hp & Hc) Hrest]; subst.
  rewrite FormatFiles_cons. unfold outputFormat.formatFile.
  rewrite !append_assoc, countFrom_fence.
  rewrite countFrom_plain by exact Hl.
  rewrite (countFrom_plain " filename=") by reflexivity.
  rewrite countFrom_plain by exact Hp.
  rewrite (countFrom_plain strings.newline) by reflexivity.
  rewrite countFrom_plain by exact Hc.
  rewrite (countFrom_plain strings.newline) by reflexivity.
  rewrite countFrom_fence.
  rewrite (countFrom_plain strings.newline) by reflexivity.
  rewrite (countFrom_plain strings.newline) by reflexivity.
  rewrite (IH Hrest). cbn [List.length]. lia.
Qed.

(** X26: the snippet count of formatted files.  For files without a
    backquote in their language, path and content, the [SnippetCount] that
    [CalculateStats] computes from the text of [FormatFiles] is the number
    of files; the token estimate is the number of bytes divided by four,
    rounded up. *)
Theorem FormatFiles_stats (files : list finder.FileContent) :
  Forall outputFormat.fenceFree files ->
  let stats := outputFormat.CalculateStats (outputFormat.FormatFiles files) in
  outputFormat.SnippetCount stats = Z.of_nat (List.length files) /\
  4 * (outputFormat.EstimatedTokens stats - 1) < outputFormat.CharCount stats
  <= 4 * outputFormat.EstimatedTokens stats.
Proof.
  intros H. cbv zeta. unfold outputFormat.CalculateStats.
  cbn [outputFormat.SnippetCount outputFormat.EstimatedTokens
       outputFormat.CharCount].
  rewrite (FormatFiles_fences files H).
  split.
  - rewrite Z.mul_comm, Z.quot_mul by lia. reflexivity.
  - unfold strings.len.
    set (n := Z.of_nat (String.length (outputFormat.FormatFiles files))).
    assert (Hn : 0 <= n) by (unfold n; lia).
    rewrite Z.quot_div_nonneg by lia.
    pose proof (Z.div_mod (n + 3) 4 ltac:(lia)) as Hd.
    pose proof (Z.mod_pos_bound (n + 3) 4 ltac:(lia)) as Hm.
    lia.
Qed.

Lemma FormatFiles_stats_witness :
  let files := [ {| finder.Path := "a.go"; finder.Content := "package a";
                    finder.Language := "go" |} ] in
  Forall outputFormat.fenceFree files /\
  let stats := outputFormat.CalculateStats (outputFormat.FormatFiles files) in
  outputFormat.SnippetCount stats = Z.of_nat (List.length files) /\
  4 * (outputFormat.EstimatedTokens stats - 1) < outputFormat.CharCount stats
  <= 4 * outputFormat.EstimatedTokens stats.
Proof.
  intros files.
  assert (H : Forall outputFormat.fenceFree files)
    by (constructor; [repeat split | constructor]).
  split; [exact H|].
  exact (FormatFiles_stats files H).
Defined.

(* ================================================================= *)
(** ** The two merges, one after the other *)

Section AfterSearch.
Variables (file : searchFiles.SearchFile) (n : Z).
Hypothesis n_is_int : n <= maxInt.

Let f := outputFormat.formattingOf file.

Lemma formattingOf_sorted (l : list CodeSnippet) :
  Forall (searchFiles.inFile n) l -> Sorted apart l ->
  Sorted (fun a b => output.StartLine a <= output.StartLine b) (map f l).
Proof.
  induction l as [|a l IH]; intros Hin Hs; cbn [map]; [constructor|].
  inversion Hin as [|? ? Ha Hl]; subst.
  inversion Hs as [|? ? Hs' Hd]; subst.
  constructor; [apply IH; assumption|].
  destruct l as [|b l]; cbn [map]; constructor.
  inversion Hd as [|? ? Hab]; subst.
  unfold f, outputFormat.formattingOf. cbn [output.StartLine].
  unfold apart, adjacencyBuffer, searchFiles.inFile in *. lia.
Qed.

Lemma formatting_mergeStep_apart (p c : CodeSnippet) :
  searchFiles.inFile n p -> searchFiles.inFile n c -> apart p c ->
  output.mergeStep (f p) (f c) = (f p, true).
Proof.
  unfold searchFiles.inFile, apart, adjacencyBuffer.
  intros Hp Hc Hpc.
  unfold output.mergeStep, f, outputFormat.formattingOf.
  cbn [output.StartLine output.EndLine].
  set (d := min (EndLine p) (EndLine c) - max (StartLine p) (StartLine c)).
  assert (Hd : -n <= d < 0).
  { unfold d, min, max.
    destruct (Z.ltb_spec (EndLine p) (EndLine c));
      destruct (Z.gtb_spec (StartLine p) (StartLine c)); lia. }
  rewrite (wrap64_id d) by (unfold isInt, minInt, maxInt in *; lia).
  unfold output.significantOverlap.
  destruct (Z.gtb_spec d 0) as [Hpos|_]; [lia|].
  cbn [andb].
  destruct (Z.gtb_spec (StartLine c) (EndLine p)) as [_|Hle]; [|lia].
  reflexivity.
Qed.

Lemma formatting_mergeRun_apart (p : CodeSnippet) (rest : list CodeSnippet) :
  Forall (searchFiles.inFile n) (p :: rest) -> Sorted apart (p :: rest) ->
  output.mergeRun (f p) (map f rest) = f p :: map f rest.
Proof.
  revert p.
  induction rest as [|c rest IH]; intros p Hin Hs; cbn [map output.mergeRun].
  - reflexivity.
  - inversion Hin as [|? ? Hp Hrest]; subst.
    inversion Hrest as [|? ? Hc _]; subst.
    inversion Hs as [|? ? Hs' Hd]; subst.
    inversion Hd as [|? ? Hpc]; subst.
    rewrite (formatting_mergeStep_apart p c Hp Hc Hpc).
    rewrite (IH c Hrest Hs'). reflexivity.
Qed.
End AfterSearch.

(** X27: after the merge of the search, the merge of the formatter changes
    nothing.  For the snippets of one file as [SearchInFiles] leaves them,
    within the file and each starting more than 3 lines after the end of
    the one before, [FormatSearchResults] writes exactly these snippets,
    in the same order: none is merged, dropped or changed. *)
Theorem formatting_keeps_merged_snippets (file : searchFiles.SearchFile)
        (n : Z) :
  n <= maxInt ->
  Forall (searchFiles.inFile n) (searchFiles.Snippets file) ->
  Sorted apart (searchFiles.Snippets file) ->
  outputFormat.snippetsToWrite file
  = map (outputFormat.formattingOf file) (searchFiles.Snippets file).
Proof.
  intros Hn Hin Hs. unfold outputFormat.snippetsToWrite.
  set (l := searchFiles.Snippets file) in *.
  unfold output.mergeFormattingSnippets.
  destruct (Z.leb_spec
              (Z.of_nat (List.length (map (outputFormat.formattingOf file) l)))
              1) as [_|_]; [reflexivity|].
  unfold output.lessStart.
  rewrite (sortSlice_sorted_id output.StartLine
             (map (outputFormat.formattingOf file) l)
             (formattingOf_sorted file n l Hin Hs)).
  destruct l as [|p rest]; [reflexivity|].
  cbn [map]. rewrite formatting_mergeLoop_run. cbn [app].
  apply (formatting_mergeRun_apart file n Hn p rest Hin Hs).
Qed.

Lemma formatting_keeps_merged_snippets_witness :
  let file := {| searchFiles.Path := "a.go"; searchFiles.Language := "go";
                 searchFiles.Snippets := farApart |} in
  20 <= maxInt /\
  Forall (searchFiles.inFile 20) (searchFiles.Snippets file) /\
  Sorted apart (searchFiles.Snippets file) /\
  outputFormat.snippetsToWrite file
  = map (outputFormat.formattingOf file) (searchFiles.Snippets file).
Proof.
  intros file.
  assert (H1 : 20 <= maxInt) by (vm_compute; discriminate).
  assert (H2 : Forall (searchFiles.inFile 20) (searchFiles.Snippets file))
    by (repeat constructor; cbn; lia).
  assert (H3 : Sorted apart (searchFiles.Snippets file))
    by (repeat constructor; unfold apart, adjacencyBuffer; cbn; lia).
  split; [exact H1|]. split; [exact H2|]. split; [exact H3|].
  exact (formatting_keeps_merged_snippets file 20 H1 H2 H3).
Defined.

(* ================================================================= *)
(** ** The template parser *)

Lemma searchFrom_first_byte (re : regexp.compiled) (cs : regexp.charset)
      (r : regexp.Regexp) (s : string) (prev : option ascii) (off : nat) :
  regexp.prog re = regexp.Concat (regexp.CharClass cs) r ->
  strings.allBytes (fun c => negb (regexp.inCharset cs c)) s = true ->
  regexp.searchFrom re prev s off = None.
Proof.
  intros Hp. revert prev off.
  induction s as [|c s IH]; intros prev off H;
    cbn [regexp.searchFrom]; rewrite Hp; cbn [regexp.run regexp.after].
  - reflexivity.
  - cbn [strings.allBytes] in H. apply andb_true_iff in H.
    destruct H as [Hc Hs]. apply negb_true_iff in Hc. rewrite Hc.
    apply IH. exact Hs.
Qed.

Lemma tagPattern_no_brace (line : string) :
  strings.allBytes template.notBrace line = true ->
  regexp.FindAllStringSubmatch template.tagPattern line = [].
Proof.
  intros H. unfold regexp.FindAllStringSubmatch.
  replace (String.length line + 2)%nat with (S (String.length line + 1))
    by lia.
  cbn [regexp.allMatches].
  assert (Hp : exists r,
             regexp.prog template.tagPattern
             = regexp.Concat
                 (regexp.CharClass
                    {| regexp.cs_neg := false;
                       regexp.cs_ranges := [(123, 123)%N];
                       regexp.cs_fold := false |}) r)
    by (eexists; vm_compute; reflexivity).
  destruct Hp as [r Hp].
  rewrite (searchFrom_first_byte _ _ r line None 0 Hp); [reflexivity|].
  clear Hp. induction line as [|c line IH]; [reflexivity|].
  cbn [strings.allBytes] in *. apply andb_true_iff in H.
  destruct H as [Hc Hl]. rewrite (IH Hl), andb_true_r.
  revert Hc. clear.
  destruct c as [[] [] [] [] [] [] [] []]; vm_compute; intros H;
    first [reflexivity | discriminate H].
Qed.

Lemma processLine_plain (w : template.World) (p : template.Parser)
      (line : string) :
  strings.allBytes template.notBrace line = true ->
  template.processLine w p line = (line ++ strings.newline)%string.
Proof.
  intros H. unfold template.processLine.
  rewrite (tagPattern_no_brace line H). reflexivity.
Qed.

Lemma prefix_app (p x y : string) :
  String.prefix p x = true -> String.prefix p (x ++ y) = true.
Proof.
  revert x. induction p as [|c p IH]; intros x H;
    [destruct (x ++ y)%string; reflexivity|].
  destruct x as [|d x]; [discriminate|].
  cbn [String.prefix String.append] in *.
  destruct (Ascii.ascii_dec c d); [apply IH; exact H | discriminate].
Qed.

Lemma HasSuffix_app (a b suffix : string) :
  strings.HasSuffix b suffix = true ->
  strings.HasSuffix (a ++ b) suffix = true.
Proof.
  unfold strings.HasSuffix. intros H.
  rewrite reverse_app. apply prefix_app. exact H.
Qed.

Lemma HasSuffix_cons (c : ascii) (s : string) :
  s <> "" ->
  strings.HasSuffix (String c s) strings.newline
  = strings.HasSuffix s strings.newline.
Proof.
  unfold strings.HasSuffix, strings.newline. intros Hs.
  change (strings.reverse (String (strings.byte 10) ""))
    with (String (strings.byte 10) "").
  rewrite reverse_cons.
  destruct (strings.reverse s) as [|d r] eqn:E.
  - exfalso. apply Hs. rewrite <- (reverse_involutive s), E. reflexivity.
  - cbn [String.append String.prefix].
    destruct (Ascii.ascii_dec (strings.byte 10) d); [|reflexivity].
    destruct r; cbn [String.append]; reflexivity.
Qed.

(** The lines of a text, each with a line feed after it, are the text
    with a line feed after its last line. *)
Lemma linesOf_text (content : string) :
  String.concat ""
    (map (fun line => (line ++ strings.newline)%string)
         (bufio.linesOf content))
  = template.withFinalNewline content.
Proof.
  unfold bufio.linesOf, strings.Split, template.withFinalNewline.
  induction content as [|c s IH].
  - reflexivity.
  - rewrite splitFrom_newline_step. cbv zeta.
    destruct (strings.splitFrom strings.newline 0 s) as [p ps] eqn:Es.
    cbn [fst snd] in *.
    assert (Hempty : s = "" -> p = "" /\ ps = [])
      by (intros ->; cbn in Es; injection Es as <- <-; split; reflexivity).
    assert (Hnonempty : p = "" /\ ps = [] -> s = "").
    { intros [-> ->].
      pose proof (splitFrom_newline_join s) as J. rewrite Es in J.
      cbn in J. symmetry. exact J. }
    cbn [String.eqb orb].
    destruct (Ascii.ascii_dec (strings.byte 10) c) as [<-|Hc].
    + (* a line feed: an empty piece, then the pieces of [s] *)
      assert (Ht : bufio.textLines ("" :: p :: ps)
                   = "" :: bufio.textLines (p :: ps)) by reflexivity.
      rewrite Ht. cbn [map].
      set (rest := map _ (bufio.textLines (p :: ps))) in *.
      assert (Hc' : String.concat "" (("" ++ strings.newline)%string :: rest)
                    = (strings.newline ++ String.concat "" rest)%string)
        by (destruct rest; [reflexivity | reflexivity]).
      rewrite Hc', IH.
      destruct s as [|d s'].
      * reflexivity.
      * rewrite (HasSuffix_cons _ (String d s')) by discriminate.
        cbn [String.eqb orb].
        destruct (strings.HasSuffix (String d s') strings.newline);
          reflexivity.
    + (* another byte: it joins the first piece of [s] *)
      destruct s as [|d s'].
      * destruct (Hempty eq_refl) as [-> ->].
        assert (Hs : strings.HasSuffix (String c "") strings.newline = false).
        { unfold strings.HasSuffix, strings.newline, strings.reverse.
          cbn [strings.rev_acc String.prefix].
          destruct (Ascii.ascii_dec (strings.byte 10) c);
            [contradiction | reflexivity]. }
        rewrite Hs. reflexivity.
      * assert (Ht : bufio.textLines (String c p :: ps)
                     = String c p :: match bufio.textLines (p :: ps) with
                                     | [] => []
                                     | _ :: tl => tl
                                     end).
        { destruct ps as [|q ps].
          - destruct p; [|reflexivity].
            discriminate (Hnonempty (conj eq_refl eq_refl)).
          - destruct p; reflexivity. }
        assert (Ht' : bufio.textLines (p :: ps)
                      = p :: match bufio.textLines (p :: ps) with
                             | [] => []
                             | _ :: tl => tl
                             end).
        { destruct ps as [|q ps].
          - destruct p; [|reflexivity].
            discriminate (Hnonempty (conj eq_refl eq_refl)).
          - destruct p; reflexivity. }
        rewrite Ht. rewrite Ht' in IH.
        set (tl := match bufio.textLines (p :: ps) with
                   | [] => []
                   | _ :: tl => tl
                   end) in *.
        cbn [map] in *.
        set (rest := map _ tl) in *.
        assert (Hcat : forall x,
                   String.concat "" ((x ++ strings.newline)%string :: rest)
                   = (x ++ strings.newline ++ String.concat "" rest)%string).
        { intros x. destruct rest.
          - cbn [String.concat]. rewrite append_nil_r. reflexivity.
          - cbn [String.concat]. rewrite append_assoc. reflexivity. }
        rewrite Hcat in *. cbn [String.append]. rewrite IH.
        rewrite (HasSuffix_cons _ (String d s')) by discriminate.
        cbn [String.eqb orb].
        destruct (strings.HasSuffix (String d s') strings.newline);
          reflexivity.
Qed.

Lemma scanTokens_plain (lines : list string) :
  Forall template.plainLine lines ->
  bufio.scanTokens lines = (lines, false).
Proof.
  induction lines as [|line lines IH]; intros H; [reflexivity|].
  inversion H as [|? ? (Hlong & Hcr & _) Hrest]; subst.
  cbn [bufio.scanTokens]. rewrite Hlong, (IH Hrest), Hcr. reflexivity.
Qed.

(** X28: a template without tags comes out as it went in.  When no line
    of the template has an opening brace, ends in a carriage return or is
    too long for the scanner, [ProcessReader] returns the text of the
    template, with a line feed added after the last line if there was
    none. *)
Theorem template_plain_text (w : template.World) (p : template.Parser)
        (content : string) :
  Forall template.plainLine (bufio.linesOf content) ->
  template.ProcessReader w p content
  = Ok (template.withFinalNewline content).
Proof.
  intros H. unfold template.ProcessReader, bufio.scanLines.
  rewrite (scanTokens_plain _ H).
  rewrite <- linesOf_text. f_equal. f_equal.
  apply map_ext_in. intros line Hin.
  rewrite Forall_forall in H. destruct (H line Hin) as (_ & _ & Hb).
  apply processLine_plain. exact Hb.
Qed.

Lemma template_plain_text_witness :
  let content := ("# Notes" ++ strings.newline ++ "plain text")%string in
  Forall template.plainLine (bufio.linesOf content) /\
  template.ProcessReader template.smallWorld {| template.BasePath := "src" |}
                         content
  = Ok (content ++ strings.newline)%string.
Proof.
  intros content.
  assert (H : Forall template.plainLine (bufio.linesOf content))
    by (repeat constructor).
  split; [exact H|].
  exact (template_plain_text template.smallWorld
           {| template.BasePath := "src" |} content H).
Defined.

Lemma processLine_newline (w : template.World) (p : template.Parser)
      (line : string) :
  strings.HasSuffix (template.processLine w p line) strings.newline = true.
Proof.
  unfold template.processLine. cbv zeta.
  destruct (_ =? 0); [apply HasSuffix_app; reflexivity|].
  set (processed := template.replaceTags _ _ _ _ _).
  destruct (strings.HasSuffix processed strings.newline) eqn:E; [exact E|].
  apply HasSuffix_app. reflexivity.
Qed.

(** X29: the text that [ProcessReader] returns is empty or ends in a line
    feed, whatever the tags of the template resolve to. *)
Theorem template_ends_in_newline (w : template.World) (p : template.Parser)
        (content out : string) :
  template.ProcessReader w p content = Ok out ->
  out = "" \/ strings.HasSuffix out strings.newline = true.
Proof.
  unfold template.ProcessReader.
  destruct (bufio.scanLines content) as [lines stopped].
  destruct stopped; [discriminate|]. intros [= <-].
  induction lines as [|line lines IH]; [left; reflexivity|].
  right. cbn [map String.concat].
  destruct (map (template.processLine w p) lines) as [|x xs] eqn:E.
  - apply processLine_newline.
  - destruct IH as [IH|IH].
    + cbn [String.append]. rewrite IH, append_nil_r.
      apply processLine_newline.
    + cbn [String.append]. apply HasSuffix_app. exact IH.
Qed.

Lemma template_ends_in_newline_witness :
  let out := ("```go" ++ strings.newline ++ "package a" ++ strings.newline ++
              "```" ++ strings.newline)%string in
  template.ProcessReader template.smallWorld {| template.BasePath := "src" |}
                         "{{a.go}}" = Ok out /\
  (out = "" \/ strings.HasSuffix out strings.newline = true).
Proof.
  intros out.
  assert (H : template.ProcessReader template.smallWorld
                {| template.BasePath := "src" |} "{{a.go}}" = Ok out)
    by (vm_compute; reflexivity).
  split; [exact H|].
  exact (template_ends_in_newline template.smallWorld
           {| template.BasePath := "src" |} "{{a.go}}" out H).
Defined.

(* ================================================================= *)
(** ** A line that is one tag *)

(** A greedy repetition of a class takes a whole run of bytes of the
    class, when the rest of the expression matches after the run. *)
Lemma repeatLoop_class (cs : regexp.charset) (k : regexp.cont)
      (y : string) (found : regexp.captures) (caps : regexp.captures) :
  (forall c y', y = String c y' -> regexp.inCharset cs c = false) ->
  forall (x : string) (fuel : nat) (prev : option ascii) (off : nat),
    strings.allBytes (regexp.inCharset cs) x = true ->
    (String.length x < fuel)%nat ->
    k (template.cursorAfter prev x y off) caps = Some found ->
    regexp.repeatLoop (regexp.run (regexp.CharClass cs)) true k fuel
      {| regexp.before := prev; regexp.after := (x ++ y)%string;
         regexp.offset := off |} caps
    = Some found.
Proof.
  intros Hy.
  induction x as [|c x IH]; intros fuel prev off Hx Hfuel Hk;
    (destruct fuel as [|fuel]; [cbn in Hfuel; lia|]);
    cbn [regexp.repeatLoop regexp.run regexp.after String.append
         template.cursorAfter] in *.
  - destruct y as [|c y'].
    + exact Hk.
    + rewrite (Hy c y' eq_refl). exact Hk.
  - cbn [strings.allBytes] in Hx. apply andb_true_iff in Hx.
    destruct Hx as [Hc Hx]. rewrite Hc. cbn [regexp.offset].
    replace (off <? S off)%nat with true by (symmetry; apply Nat.ltb_lt; lia).
    rewrite (IH fuel (Some c) (S off) Hx ltac:(cbn in Hfuel; lia) Hk).
    reflexivity.
Qed.

Lemma tagPattern_prog :
  regexp.prog template.tagPattern
  = regexp.Concat (regexp.literal false 123)
      (regexp.Concat (regexp.literal false 123)
         (regexp.Concat
            (regexp.Capture 1
               (regexp.Plus true
                  (regexp.CharClass
                     {| regexp.cs_neg := true;
                        regexp.cs_ranges := [(125, 125)%N];
                        regexp.cs_fold := false |})))
            (regexp.Concat (regexp.literal false 125)
                           (regexp.literal false 125)))) /\
  regexp.numCap template.tagPattern = 1%nat.
Proof. split; vm_compute; reflexivity. Qed.

Lemma notClose_class (c : ascii) :
  regexp.inCharset
    {| regexp.cs_neg := true; regexp.cs_ranges := [(125, 125)%N];
       regexp.cs_fold := false |} c
  = template.notClose c.
Proof.
  destruct c as [[] [] [] [] [] [] [] []]; vm_compute; reflexivity.
Qed.

Lemma cursorAfter_spec (prev : option ascii) (x y : string) (off : nat) :
  regexp.after (template.cursorAfter prev x y off) = y /\
  regexp.offset (template.cursorAfter prev x y off)
  = (off + String.length x)%nat.
Proof.
  revert prev off. induction x as [|c x IH]; intros prev off;
    cbn [template.cursorAfter String.length].
  - split; [reflexivity | cbn; lia].
  - destruct (IH (Some c) (S off)) as [Ha Ho]. split; [exact Ha | lia].
Qed.

Lemma length_append (a b : string) :
  String.length (a ++ b) = (String.length a + String.length b)%nat.
Proof.
  induction a as [|c a IH]; cbn [String.append String.length];
    [reflexivity | rewrite IH; reflexivity].
Qed.

Lemma substring_prefix (a b : string) :
  String.substring 0 (String.length a) (a ++ b) = a.
Proof.
  induction a as [|c a IH]; cbn [String.append String.length String.substring].
  - destruct b; reflexivity.
  - rewrite IH. reflexivity.
Qed.

(** The search finds the tag: the whole line, and its text as group 1. *)
Lemma tagLine_search (name : string) :
  name <> "" ->
  strings.allBytes template.notClose name = true ->
  regexp.search template.tagPattern (template.tagLine name)
  = Some [ Some (0, String.length name + 4)%nat;
           Some (2, String.length name + 2)%nat ].
Proof.
  intros Hne Hname.
  destruct name as [|n0 name]; [contradiction|].
  cbn [strings.allBytes] in Hname. apply andb_true_iff in Hname.
  destruct Hname as [Hn0 Hname].
  destruct tagPattern_prog as [Hp Hn].
  unfold regexp.search, template.tagLine.
  cbn [String.append regexp.searchFrom]. rewrite Hp, Hn.
  unfold regexp.literal.
  cbn [regexp.run regexp.after regexp.offset repeat].
  change (regexp.inCharset
            {| regexp.cs_neg := false; regexp.cs_ranges := [(123, 123)%N];
               regexp.cs_fold := false |} "{") with true.
  cbv iota. rewrite notClose_class, Hn0.
  cbn [regexp.after regexp.offset].
  match goal with
  | |- context [regexp.repeatLoop ?f true ?k ?fuel ?p ?caps] =>
      assert (Hloop :
        regexp.repeatLoop f true k fuel p caps
        = Some [ Some (0, S (S (3 + String.length name)))%nat;
                 Some (2, 3 + String.length name)%nat ])
  end.
  { match goal with
    | |- context [regexp.repeatLoop ?f true _ _ _ _] =>
        change f with
          (regexp.run
             (regexp.CharClass
                {| regexp.cs_neg := true; regexp.cs_ranges := [(125, 125)%N];
                   regexp.cs_fold := false |}))
    end.
    apply (repeatLoop_class _ _ "}}").
    - intros c y' [= <- <-]. reflexivity.
    - clear -Hname. induction name as [|c name IH]; [reflexivity|].
      cbn [strings.allBytes] in *. apply andb_true_iff in Hname.
      destruct Hname as [Hc Hrest].
      rewrite notClose_class, Hc, (IH Hrest). reflexivity.
    - rewrite length_append. lia.
    - destruct (cursorAfter_spec (Some n0) name "}}" 3) as [Ha Ho].
      cbv beta. rewrite Ha.
      change (regexp.inCharset
                {| regexp.cs_neg := false; regexp.cs_ranges := [(125, 125)%N];
                   regexp.cs_fold := false |} "}") with true.
      cbv iota. rewrite Ho. reflexivity. }
  rewrite Hloop. cbn [String.length].
  replace (S (S (3 + String.length name)))
    with (S (String.length name) + 4)%nat by lia.
  replace (3 + String.length name)%nat
    with (S (String.length name) + 2)%nat by lia.
  reflexivity.
Qed.

Lemma tagLine_matches (name : string) :
  name <> "" ->
  strings.allBytes template.notClose name = true ->
  regexp.FindAllStringSubmatch template.tagPattern (template.tagLine name)
  = [[template.tagLine name; name]].
Proof.
  intros Hne Hname.
  pose proof (tagLine_search name Hne Hname) as Hs.
  unfold regexp.search in Hs.
  unfold regexp.FindAllStringSubmatch.
  assert (Hlen : String.length (template.tagLine name)
                 = (String.length name + 4)%nat).
  { unfold template.tagLine. cbn [String.append String.length].
    rewrite length_append. cbn [String.length]. lia. }
  rewrite Hlen.
  replace (String.length name + 4 + 2)%nat
    with (S (S (String.length name + 4))) by lia.
  cbn [regexp.allMatches]. rewrite Hs.
  replace (String.length name + 4 =? 0)%nat with false
    by (symmetry; apply Nat.eqb_neq; lia).
  rewrite Nat.sub_0_r.
  assert (Hadv : forall (s : string) (prev : option ascii),
             s <> "" ->
             exists c, regexp.advance (String.length s) prev s = (Some c, "")).
  { induction s as [|c s IH]; intros prev Hs'; [contradiction|].
    cbn [String.length regexp.advance].
    destruct s as [|d s]; [exists c; reflexivity|].
    apply IH. discriminate. }
  destruct (Hadv (template.tagLine name) None) as [c Hc]; [discriminate|].
  rewrite <- Hlen, Hc.
  cbn [regexp.allMatches regexp.searchFrom].
  destruct tagPattern_prog as [Hp _]. rewrite Hp.
  cbn [regexp.run regexp.literal regexp.after map].
  rewrite Hlen. rewrite Nat.sub_0_r.
  rewrite <- Hlen at 1. 
  replace (String.substring 0 (String.length (template.tagLine name))
                            (template.tagLine name))
    with (template.tagLine name)
    by (rewrite <- (append_nil_r (template.tagLine name)) at 3;
        symmetry; apply substring_prefix).
  replace (String.length name + 2 - 2)%nat with (String.length name) by lia.
  unfold template.tagLine at 2. cbn [String.append String.substring].
  rewrite substring_prefix. reflexivity.
Qed.

(** X30: a line that is one tag.  For a line that consists of a tag whose
    text has no closing brace, [ProcessReader] writes what the trimmed text
    of the tag resolves to, or the comment with the error, and a line feed
    after it unless it ends in one.  So the tag of a file that does
    not exist leaves an empty line and no message. *)
Theorem template_tag_line (w : template.World) (p : template.Parser)
        (name : string) :
  name <> "" ->
  strings.allBytes template.notClose name = true ->
  template.processLine w p (template.tagLine name)
  = let replacement := template.replacementOf w p (strings.TrimSpace name) in
    if strings.HasSuffix replacement strings.newline then replacement
    else (replacement ++ strings.newline)%string.
Proof.
  intros Hne Hname. unfold template.processLine.
  rewrite (tagLine_matches name Hne Hname).
  cbn [List.length Z.of_nat Z.eqb template.replaceTags List.nth].
  rewrite String.eqb_refl. reflexivity.
Qed.

Lemma template_tag_line_witness :
  "missing.go" <> "" /\
  strings.allBytes template.notClose "missing.go" = true /\
  template.replacementOf template.smallWorld {| template.BasePath := "src" |}
                         (strings.TrimSpace "missing.go") = "" /\
  template.processLine template.smallWorld {| template.BasePath := "src" |}
                       (template.tagLine "missing.go")
  = let replacement :=
      template.replacementOf template.smallWorld
                             {| template.BasePath := "src" |}
                             (strings.TrimSpace "missing.go") in
    if strings.HasSuffix replacement strings.newline then replacement
    else (replacement ++ strings.newline)%string.
Proof.
  assert (H1 : "missing.go" <> "") by discriminate.
  split; [exact H1|]. split; [reflexivity|]. split; [reflexivity|].
  exact (template_tag_line template.smallWorld
           {| template.BasePath := "src" |} "missing.go" H1 eq_refl).
Defined.
